(** * STEPS mesh exchange ([steps/utilities/meshio.py])

    A shallow embedding of the four entry points of [meshio.py]
    ([readTetgen], [readCubit], [saveXML], [loadXML]) together with the
    fragment of the Python 2 string library they are written against, and
    the properties of the exchange formats that follow from the code.

    Text is a list of characters; files are texts with a read cursor;
    Python exceptions are the [Raise] branch of [result]. The geometry
    engine ([steps.geom]) is outside the module: its constructors are
    modelled by the records that collect the arguments they are called
    with. *)

From Stdlib Require Import Ascii String List ZArith Lia Bool.
From Stdlib Require Decimal DecimalString DecimalZ.
From Stdlib Require Import Permutation.
Import ListNotations.

#[local] Open Scope Z_scope.
#[local] Open Scope list_scope.

(** ** Python values and exceptions *)

Definition str := list ascii.

(** A string literal of the source, as a list of characters. *)
Definition lit (s : string) : str := list_ascii_of_string s.

Inductive exn : Type :=
| AssertionError
| ValueError
| IndexError
| KeyError
| NameError
| AttributeError
| IOError
| ArgErr.

Inductive result (A : Type) : Type :=
| Ok (a : A)
| Raise (e : exn).

Arguments Ok {A} a.
Arguments Raise {A} e.

Definition bind {A B} (r : result A) (k : A -> result B) : result B :=
  match r with
  | Ok a => k a
  | Raise e => Raise e
  end.

Notation "x <- r ;; k" := (bind r (fun x => k))
  (at level 61, r at next level, right associativity).
Notation "' p <- r ;; k" := (bind r (fun p => k))
  (at level 61, p pattern, r at next level, right associativity).

(** [assert c]. *)
Definition py_assert (c : bool) : result unit :=
  if c then Ok tt else Raise AssertionError.

Definition of_option {A} (e : exn) (o : option A) : result A :=
  match o with
  | Some a => Ok a
  | None => Raise e
  end.

Definition is_ok {A} (r : result A) : bool :=
  match r with Ok _ => true | Raise _ => false end.

(** ** Characters *)

Definition NL : ascii := "010"%char.
Definition TAB : ascii := "009"%char.
Definition SP : ascii := " "%char.
Definition COMMA : ascii := ","%char.
Definition HASH : ascii := "#"%char.
Definition LPAR : ascii := "("%char.
Definition RPAR : ascii := ")"%char.

(** [string.whitespace]: space, tab, newline, return, vertical tab,
    form feed. *)
Definition is_space (c : ascii) : bool :=
  match c with
  | " "%char | "009"%char | "010"%char | "011"%char | "012"%char
  | "013"%char => true
  | _ => false
  end.

Definition str_eqb (a b : str) : bool :=
  if list_eq_dec ascii_dec a b then true else false.

(** ** Sequence indexing and slicing *)

(** Python normalises a slice bound: a negative bound counts from the
    end, and the result is clamped to [0, len]. *)
Definition slice_bound (len i : Z) : Z :=
  Z.max 0 (Z.min (if i <? 0 then i + len else i) len).

(** [s[lo:hi]]; [None] is an omitted bound. *)
Definition py_slice {A} (lo hi : option Z) (s : list A) : list A :=
  let n := Z.of_nat (length s) in
  let a := match lo with Some i => slice_bound n i | None => 0 end in
  let b := match hi with Some j => slice_bound n j | None => n end in
  firstn (Z.to_nat (b - a)) (skipn (Z.to_nat a) s).

(** [s[i]] on a list or tuple: negative indices count from the end, an
    index outside [-len, len) raises [IndexError]. *)
Definition py_index {A} (s : list A) (i : Z) : result A :=
  let n := Z.of_nat (length s) in
  let j := if i <? 0 then i + n else i in
  if (0 <=? j) && (j <? n)
  then of_option IndexError (nth_error s (Z.to_nat j))
  else Raise IndexError.

(** [a[i] = v] on a list or a numpy array, same index rule. *)
Fixpoint set_nth {A} (s : list A) (k : nat) (v : A) : list A :=
  match s, k with
  | [], _ => []
  | _ :: s', O => v :: s'
  | x :: s', S k' => x :: set_nth s' k' v
  end.

Definition py_setitem {A} (s : list A) (i : Z) (v : A) : result (list A) :=
  let n := Z.of_nat (length s) in
  let j := if i <? 0 then i + n else i in
  if (0 <=? j) && (j <? n)
  then Ok (set_nth s (Z.to_nat j) v)
  else Raise IndexError.

(** ** String methods *)

Fixpoint lstrip_with (p : ascii -> bool) (s : str) : str :=
  match s with
  | [] => []
  | c :: s' => if p c then lstrip_with p s' else s
  end.

Definition rstrip_with (p : ascii -> bool) (s : str) : str :=
  rev (lstrip_with p (rev s)).

Definition strip_with (p : ascii -> bool) (s : str) : str :=
  rstrip_with p (lstrip_with p s).

(** [s.strip()], [s.rstrip()], [s.strip(c)]. *)
Definition strip : str -> str := strip_with is_space.
Definition rstrip : str -> str := rstrip_with is_space.
Definition strip_chr (c : ascii) : str -> str := strip_with (Ascii.eqb c).

Fixpoint starts_with (p s : str) : bool :=
  match p, s with
  | [], _ => true
  | _ :: _, [] => false
  | a :: p', b :: s' => Ascii.eqb a b && starts_with p' s'
  end.

(** [s.split(sep)] for a non-empty [sep]: cut at every occurrence of
    [sep], scanning from the left; [skip] counts the characters of a
    separator that is being stepped over, [cur] is the piece under
    construction, reversed. *)
Fixpoint split_go (sep s : str) (skip : nat) (cur : str) : list str :=
  match s with
  | [] => [rev cur]
  | c :: s' =>
    match skip with
    | S k => split_go sep s' k cur
    | O =>
      if starts_with sep s
      then rev cur :: split_go sep s' (pred (length sep)) []
      else split_go sep s' O (c :: cur)
    end
  end.

Definition split_on (sep s : str) : list str := split_go sep s O [].

(** [s.split()]: cut at runs of whitespace, no empty pieces. *)
Fixpoint split_ws_go (s cur : str) : list str :=
  match s with
  | [] => match cur with [] => [] | _ => [rev cur] end
  | c :: s' =>
    if is_space c
    then match cur with
         | [] => split_ws_go s' []
         | _ => rev cur :: split_ws_go s' []
         end
    else split_ws_go s' (c :: cur)
  end.

Definition split_ws (s : str) : list str := split_ws_go s [].

(** [s.find(c)] for a one-character [c]: index of the first occurrence,
    or -1. *)
Fixpoint find_chr (c : ascii) (s : str) : Z :=
  match s with
  | [] => -1
  | a :: s' =>
    if Ascii.eqb a c then 0
    else let r := find_chr c s' in if r <? 0 then -1 else r + 1
  end.

(** [s.replace(a, b)] for one-character [a] and [b]. *)
Definition replace_chr (a b : ascii) (s : str) : str :=
  map (fun c => if Ascii.eqb c a then b else c) s.

(** ** Integers as text *)

(** [str(n)] for an [int]. *)
Definition py_str_int (z : Z) : str :=
  list_ascii_of_string (DecimalString.NilZero.string_of_int (Z.to_int z)).

(** [int(s)]: surrounding whitespace is ignored, then an optional sign
    and at least one decimal digit; anything else is a [ValueError]. *)
Definition digits_value (d : str) : option Z :=
  match d with
  | [] => None
  | _ => option_map Z.of_uint
           (DecimalString.NilEmpty.uint_of_string (string_of_list_ascii d))
  end.

Definition py_int (s : str) : result Z :=
  of_option ValueError
    match strip s with
    | "-"%char :: d => option_map Z.opp (digits_value d)
    | "+"%char :: d => digits_value d
    | d => digits_value d
    end.

(** ** Files *)

(** The lines of a text, each with its newline (the last one may lack
    it). *)
Fixpoint file_lines (text : str) : list str :=
  match text with
  | [] => []
  | c :: text' =>
    if Ascii.eqb c NL then [c] :: file_lines text'
    else match file_lines text' with
         | [] => [[c]]
         | l :: ls => (c :: l) :: ls
         end
  end.

(** A file open for reading is only ever read line by line: it is the
    list of the lines not read yet. *)
Definition file := list str.

(** [f.readline()]: the next line, newline included, and the file
    advanced past it. At end of file the line is empty. *)
Definition readline (f : file) : str * file :=
  match f with
  | [] => ([], [])
  | l :: f' => (l, f')
  end.

(** A file system: the text stored under each path, [None] where there is
    no regular file. *)
Definition filesystem := str -> option str.

(** [os.path.isfile(p)]. *)
Definition isfile (fs : filesystem) (p : str) : bool :=
  match fs p with Some _ => true | None => false end.

(** [open(p, 'r')]. *)
Definition open_r (fs : filesystem) (p : str) : result file :=
  of_option IOError (option_map file_lines (fs p)).

(** The state of the file system after [open(p, 'w')], writes that add up
    to [text], and [close()]. *)
Definition write_file (fs : filesystem) (p text : str) : filesystem :=
  fun q => if str_eqb q p then Some text else fs q.

(** ** Predicates on text *)

(** No newline inside. *)
Definition nonl (s : str) : bool :=
  forallb (fun c => negb (Ascii.eqb c NL)) s.

(** No occurrence of the character [c0]. *)
Definition lacks (c0 : ascii) (s : str) : bool :=
  forallb (fun c => negb (Ascii.eqb c0 c)) s.

(** The first, respectively the last, character exists and is not
    removed by a strip of the characters in [p]. *)
Definition head_ok (p : ascii -> bool) (s : str) : bool :=
  match s with c :: _ => negb (p c) | [] => false end.

Definition last_ok (p : ascii -> bool) (s : str) : bool :=
  head_ok p (rev s).

(** Plain text, the shape of a number in decimal notation: not empty,
    and free of whitespace, commas and parentheses. *)
Definition plain_char (c : ascii) : bool :=
  negb (is_space c) && negb (Ascii.eqb c COMMA)
  && negb (Ascii.eqb c LPAR) && negb (Ascii.eqb c RPAR).

Definition plain (s : str) : bool :=
  match s with [] => false | _ => forallb plain_char s end.

Definition digit_char (c : ascii) : bool :=
  match c with
  | "0" | "1" | "2" | "3" | "4" | "5" | "6" | "7" | "8" | "9" => true
  | _ => false
  end%char.

(** ** Floating-point numbers

    [meshio.py] only moves floating-point numbers between text and the
    geometry engine, and scales them in [readCubit]. The operations it
    uses form the interface below; the module is verified against the
    interface. *)

Class PyFloat : Type := {
  float : Type;
  (** [float(s)] *)
  py_float : str -> result float;
  (** [repr(x)], which is what [str] of a tuple shows of its floats *)
  float_repr : float -> str;
  (** [str(x)] *)
  float_str : float -> str;
  (** [x * y] *)
  fmul : float -> float -> float;
  (** the entries of [numpy.zeros] *)
  fzero : float
}.

(** What [float(str(x))] gives back; [x] itself should the text not
    read. *)
Definition float_reread {PF : PyFloat} (x : float) : float :=
  match py_float (float_str x) with
  | Ok y => y
  | Raise _ => x
  end.

(** The facts about number formatting that the exchange formats rely on:
    [repr] and [str] produce plain text; [float] reads a [repr] back to
    the same number; it reads a [str] back to a number with the same
    [str]. *)
Class PyFloatLaws (PF : PyFloat) : Prop := {
  float_repr_plain : forall x, plain (float_repr x) = true;
  float_repr_read : forall x, py_float (float_repr x) = Ok x;
  float_str_plain : forall x, plain (float_str x) = true;
  float_str_read : forall x, py_float (float_str x) = Ok (float_reread x);
  float_str_stable : forall x, float_str (float_reread x) = float_str x
}.

(** ** The geometry engine, as [meshio.py] sees it *)

(** Modelled from the spec: [steps.geom.TmComp] belongs to the geometry
    engine, which is not part of this module. A compartment is what
    [TmComp(id, mesh, tets)] was called with, and the labels appended by
    [addVolsys] since. *)
Record TmComp : Type := {
  comp_id : str;
  comp_tets : list Z;
  comp_volsys : list str
}.

(** Modelled from the spec: [steps.geom.TmPatch], likewise. A patch is
    what [TmPatch(id, mesh, tris, icomp, ocomp)] was called with, and the
    labels appended by [addSurfsys] since. *)
Record TmPatch : Type := {
  patch_id : str;
  patch_tris : list Z;
  patch_icomp : TmComp;
  patch_ocomp : option TmComp;
  patch_surfsys : list str
}.

(** Modelled from the spec: [Tetmesh.getComp(id)] belongs to the geometry
    engine, which is not part of this module. The compartment is looked up
    by name among those already created on the mesh, and the lookup fails
    loudly when there is none of that name. *)
Fixpoint getComp (comps : list TmComp) (name : str) : result TmComp :=
  match comps with
  | [] => Raise ArgErr
  | c :: cs => if str_eqb (comp_id c) name then Ok c else getComp cs name
  end.

(** ** TetGen import *)

(** A numpy array under construction: [numpy.empty] leaves its entries
    without a defined value until they are assigned. *)
Definition cell (A : Type) := option A.

(** [numpy.empty((rows, cols))], as a list of rows. *)
Definition np_empty (A : Type) (rows cols : Z) : list (list (cell A)) :=
  repeat (repeat None (Z.to_nat cols)) (Z.to_nat rows).

(** [a[i, j] = v]. *)
Definition np_set2 {A} (a : list (list (cell A))) (i j : Z) (v : A)
  : result (list (list (cell A))) :=
  row <- py_index a i ;;
  row' <- py_setitem row j (Some v) ;;
  py_setitem a i row'.

(** [a.flatten()]. *)
Definition np_flatten {A} (a : list (list (cell A))) : list (cell A) :=
  concat a.

(** The comment-stripping and tokenising common to the three record
    loops: everything from the first [#] on is dropped, the rest is
    split at whitespace. *)
Definition data_tokens (line : str) : list str :=
  let commentstart := find_chr HASH line in
  let line := if negb (commentstart =? -1)
              then py_slice (Some 0) (Some commentstart) line
              else line in
  split_ws line.

Definition len {A} (l : list A) : Z := Z.of_nat (length l).

(** Python dictionaries with integer or string keys, as association
    lists; the first binding of a key is the one in force. *)
Fixpoint dict_get {K V} (eqb : K -> K -> bool) (d : list (K * V)) (k : K)
  : result V :=
  match d with
  | [] => Raise KeyError
  | (k', v) :: d' => if eqb k' k then Ok v else dict_get eqb d' k
  end.

Definition dict_mem {K V} (eqb : K -> K -> bool) (d : list (K * V)) (k : K)
  : bool := is_ok (dict_get eqb d k).

(** [set(l)]. Python does not fix the order in which a set is
    enumerated; the order of first occurrence is taken here, and no
    statement below depends on it. *)
Fixpoint uniq (l : list Z) : list Z :=
  match l with
  | [] => []
  | x :: l' => x :: filter (fun y => negb (y =? x)) (uniq l')
  end.

(** [[x for x in xrange(0, n) if tags[x] == i]]. *)
Fixpoint members_go (n : nat) (x : Z) (tags : list Z) (i : Z)
  : result (list Z) :=
  match n with
  | O => Ok []
  | S n' =>
    t <- py_index tags x ;;
    rest <- members_go n' (x + 1) tags i ;;
    Ok (if t =? i then x :: rest else rest)
  end.

Definition members (n : Z) (tags : list Z) (i : Z) : result (list Z) :=
  members_go (Z.to_nat n) 0 tags i.

Fixpoint for_each {A S} (l : list A) (s : S) (body : A -> S -> result S)
  : result S :=
  match l with
  | [] => Ok s
  | a :: l' => s' <- body a s ;; for_each l' s' body
  end.

Section WithFloat.

Context {PF : PyFloat}.

(** What [readTetgen] hands to [steps.geom.Tetmesh(nodes, tets, faces)],
    and the compartments and patches it then creates on the mesh. *)
Record TetgenMesh : Type := {
  tg_nodes : list (cell float);
  tg_tets : list (cell Z);
  tg_faces : list (cell Z);
  tg_comps : list TmComp;
  tg_patches : list TmPatch
}.

(** The loop over the records of the [.node] file. [n] iterations are
    left, [nodeno] is the loop variable. *)
Fixpoint read_node_records (n : nat) (nodeno : Z) (nodefile : file)
    (idxshift : Z) (nodes : list (list (cell float)))
  : result (Z * list (list (cell float))) :=
  match n with
  | O => Ok (idxshift, nodes)
  | S n' =>
    let '(line, nodefile) := readline nodefile in
    let tokens := data_tokens line in
    if len tokens =? 0
    then read_node_records n' (nodeno + 1) nodefile idxshift nodes
    else
      t0 <- py_index tokens 0 ;;
      nodeidx <- py_int t0 ;;
      let idxshift := if nodeno =? 0 then nodeidx else idxshift in
      let idx2 := nodeidx - idxshift in
      t1 <- py_index tokens 1 ;;
      x <- py_float t1 ;;
      nodes <- np_set2 nodes idx2 0 x ;;
      t2 <- py_index tokens 2 ;;
      y <- py_float t2 ;;
      nodes <- np_set2 nodes idx2 1 y ;;
      t3 <- py_index tokens 3 ;;
      z <- py_float t3 ;;
      nodes <- np_set2 nodes idx2 2 z ;;
      read_node_records n' (nodeno + 1) nodefile idxshift nodes
  end.

(** [a[row, col] = int(tokens[k]) - idxshift]. *)
Definition store_ref (tokens : list str) (k : Z) (idxshift : Z)
    (a : list (list (cell Z))) (row col : Z)
  : result (list (list (cell Z))) :=
  t <- py_index tokens k ;;
  v <- py_int t ;;
  np_set2 a row col (v - idxshift).

(** The loop over the records of the [.ele] file. *)
Fixpoint read_ele_records (n : nat) (elefile : file) (idxshift : Z)
    (attridx tetregattrib : Z)
    (tets : list (list (cell Z))) (comps : list Z)
  : result (list (list (cell Z)) * list Z) :=
  match n with
  | O => Ok (tets, comps)
  | S n' =>
    let '(line, elefile) := readline elefile in
    let tokens := data_tokens line in
    if len tokens =? 0
    then read_ele_records n' elefile idxshift attridx tetregattrib tets comps
    else
      t0 <- py_index tokens 0 ;;
      i0 <- py_int t0 ;;
      let tetidx := i0 - idxshift in
      tets <- store_ref tokens 1 idxshift tets tetidx 0 ;;
      tets <- store_ref tokens 2 idxshift tets tetidx 1 ;;
      tets <- store_ref tokens 3 idxshift tets tetidx 2 ;;
      tets <- store_ref tokens 4 idxshift tets tetidx 3 ;;
      comps <- (if tetregattrib =? 1
                then ta <- py_index tokens attridx ;;
                     a <- py_int ta ;;
                     Ok (comps ++ [a])
                else Ok comps) ;;
      read_ele_records n' elefile idxshift attridx tetregattrib tets comps
  end.

(** The loop over the records of the [.face] file. *)
Fixpoint read_face_records (n : nat) (facefile : file) (idxshift : Z)
    (faceregattrib : Z)
    (faces : list (list (cell Z))) (patches : list Z)
  : result (list (list (cell Z)) * list Z) :=
  match n with
  | O => Ok (faces, patches)
  | S n' =>
    let '(line, facefile) := readline facefile in
    let tokens := data_tokens line in
    if len tokens =? 0
    then read_face_records n' facefile idxshift faceregattrib faces patches
    else
      t0 <- py_index tokens 0 ;;
      i0 <- py_int t0 ;;
      let faceidx := i0 - idxshift in
      faces <- store_ref tokens 1 idxshift faces faceidx 0 ;;
      faces <- store_ref tokens 2 idxshift faces faceidx 1 ;;
      faces <- store_ref tokens 3 idxshift faces faceidx 2 ;;
      patches <- (if faceregattrib =? 1
                  then ta <- py_index tokens 4 ;;
                       a <- py_int ta ;;
                       Ok (patches ++ [a])
                  else Ok patches) ;;
      read_face_records n' facefile idxshift faceregattrib faces patches
  end.

(** Reading the [.node] file: header, then the record loop. The result
    is the node array and the index shift. *)
Definition read_node_file (nodefile : file)
  : result (Z * list (list (cell float))) :=
  let '(line, nodefile) := readline nodefile in
  let tokens := split_ws line in
  _ <- py_assert (len tokens =? 4) ;;
  t0 <- py_index tokens 0 ;;
  nnodes <- py_int t0 ;;
  _ <- py_assert (0 <? nnodes) ;;
  t1 <- py_index tokens 1 ;;
  ndims <- py_int t1 ;;
  _ <- py_assert (ndims =? 3) ;;
  t2 <- py_index tokens 2 ;;
  nattribs <- py_int t2 ;;
  t3 <- py_index tokens 3 ;;
  bmarkers <- py_int t3 ;;
  let idxshift := 0 in
  let nodes := np_empty float nnodes ndims in
  read_node_records (Z.to_nat nnodes) 0 nodefile idxshift nodes.

(** Reading the [.ele] file. The result is the element count, the
    tetrahedron array and the region attributes collected. *)
Definition read_ele_file (elefile : file) (idxshift : Z)
  : result (Z * list (list (cell Z)) * list Z) :=
  let '(line, elefile) := readline elefile in
  let tokens := split_ws line in
  _ <- py_assert (len tokens =? 3) ;;
  t0 <- py_index tokens 0 ;;
  ntets <- py_int t0 ;;
  _ <- py_assert (0 <? ntets) ;;
  t1 <- py_index tokens 1 ;;
  nodespertet <- py_int t1 ;;
  _ <- py_assert ((nodespertet =? 4) || (nodespertet =? 10)) ;;
  let attridx := 1 + nodespertet in
  t2 <- py_index tokens 2 ;;
  tetregattrib <- py_int t2 ;;
  _ <- py_assert ((tetregattrib =? 0) || (tetregattrib =? 1)) ;;
  let tets := np_empty Z ntets 4 in
  let comps := [] in
  '(tets, comps) <-
    read_ele_records (Z.to_nat ntets) elefile idxshift attridx tetregattrib
      tets comps ;;
  _ <- (if tetregattrib =? 1
        then py_assert (len comps =? ntets)
        else Ok tt) ;;
  Ok (ntets, tets, comps).

(** Reading the [.face] file. *)
Definition read_face_file (facefile : file) (idxshift : Z)
  : result (Z * list (list (cell Z)) * list Z) :=
  let '(line, facefile) := readline facefile in
  let tokens := split_ws line in
  _ <- py_assert (len tokens =? 2) ;;
  t0 <- py_index tokens 0 ;;
  nfaces <- py_int t0 ;;
  _ <- py_assert (0 <? nfaces) ;;
  t1 <- py_index tokens 1 ;;
  faceregattrib <- py_int t1 ;;
  _ <- py_assert ((faceregattrib =? 0) || (faceregattrib =? 1)) ;;
  let faces := np_empty Z nfaces 3 in
  let patches := [] in
  '(faces, patches) <-
    read_face_records (Z.to_nat nfaces) facefile idxshift faceregattrib
      faces patches ;;
  _ <- (if faceregattrib =? 1
        then py_assert (len patches =? nfaces)
        else Ok tt) ;;
  Ok (nfaces, faces, patches).

(** Compartment annotation: one [TmComp] per distinct region tag. *)
Definition annotate_comps (ntets : Z) (comps : list Z)
    (compmap : list (Z * str)) : result (list TmComp) :=
  let uniqcomps := uniq comps in
  _ <- for_each uniqcomps tt
         (fun i _ => py_assert (dict_mem Z.eqb compmap i)) ;;
  for_each uniqcomps []
    (fun i created =>
       alltets <- members ntets comps i ;;
       name <- dict_get Z.eqb compmap i ;;
       Ok (created ++ [ {| comp_id := name; comp_tets := alltets;
                           comp_volsys := [] |} ])).

(** Patch annotation: one [TmPatch] per distinct boundary marker, its
    inner and outer compartments looked up on the mesh by name. *)
Definition annotate_patches (nfaces : Z) (patches : list Z)
    (patchmap : list (Z * str))
    (patchiomap : list (str * (str * option str)))
    (created_comps : list TmComp) : result (list TmPatch) :=
  let uniqpatches := uniq patches in
  _ <- for_each uniqpatches tt
         (fun i _ => py_assert (dict_mem Z.eqb patchmap i)) ;;
  for_each uniqpatches []
    (fun i created =>
       alltris <- members nfaces patches i ;;
       patch_n <- dict_get Z.eqb patchmap i ;;
       '(icomp_n, ocomp_n) <- dict_get str_eqb patchiomap patch_n ;;
       icomp <- getComp created_comps icomp_n ;;
       ocomp <- match ocomp_n with
                | Some n => c <- getComp created_comps n ;; Ok (Some c)
                | None => Ok None
                end ;;
       Ok (created ++ [ {| patch_id := patch_n; patch_tris := alltris;
                           patch_icomp := icomp; patch_ocomp := ocomp;
                           patch_surfsys := [] |} ])).

(** [readTetgen(pathroot, compmap, patchmap, patchiomap)]. The outer
    [option] is the [None] returned when the [.node] or [.ele] file is
    missing; the tag lists are [None] when empty. *)
Definition readTetgen (fs : filesystem) (pathroot : str)
    (compmap patchmap : option (list (Z * str)))
    (patchiomap : option (list (str * (str * option str))))
  : result (option (TetgenMesh * option (list Z) * option (list Z))) :=
  let nodefname := pathroot ++ lit ".node" in
  let elefname := pathroot ++ lit ".ele" in
  let facefname := pathroot ++ lit ".face" in
  if negb (isfile fs nodefname) then Ok None else
  if negb (isfile fs elefname) then Ok None else
  let facefname := if negb (isfile fs facefname) then [] else facefname in
  nodefile <- open_r fs nodefname ;;
  '(idxshift, nodes) <- read_node_file nodefile ;;
  elefile <- open_r fs elefname ;;
  '(ntets, tets, comps) <- read_ele_file elefile idxshift ;;
  '(nfaces, faces, patches) <-
    (if 0 <? len facefname
     then facefile <- open_r fs facefname ;;
          '(nfaces, faces, patches) <- read_face_file facefile idxshift ;;
          Ok (nfaces, Some faces, patches)
     else Ok (0, None, [])) ;;
  let nodes := np_flatten nodes in
  let tets := np_flatten tets in
  faces <- match faces with
           | Some a => Ok (np_flatten a)
           | None => Raise AttributeError
           end ;;
  '(created_comps, created_patches) <-
    match compmap with
    | Some compmap =>
      if 0 <? len comps
      then
        cs <- annotate_comps ntets comps compmap ;;
        ps <- match patchmap, patchiomap with
              | Some patchmap, Some patchiomap =>
                if 0 <? len patches
                then annotate_patches nfaces patches patchmap patchiomap cs
                else Ok []
              | _, _ => Ok []
              end ;;
        Ok (cs, ps)
      else Ok ([], [])
    | None => Ok ([], [])
    end ;;
  let tetmesh := {| tg_nodes := nodes; tg_tets := tets; tg_faces := faces;
                    tg_comps := created_comps;
                    tg_patches := created_patches |} in
  let comps := if len comps =? 0 then None else Some comps in
  let patches := if len patches =? 0 then None else Some patches in
  Ok (Some (tetmesh, comps, patches)).

End WithFloat.

(** ** CUBIT (ABAQUS) import *)

Section Cubit.

Context {PF : PyFloat}.

(** What [readCubit] hands to [steps.geom.Tetmesh(pnts, tets)]. *)
Record CubitMesh : Type := {
  cb_pnts : list float;
  cb_tets : list Z
}.

(** Modelled from the spec: [mesh.nverts] and [mesh.ntets] belong to the
    geometry engine. For a mesh built from flat coordinate and index
    lists it reports a vertex for every three coordinates and a
    tetrahedron for every four references. *)
Definition cb_nverts (m : CubitMesh) : Z := len (cb_pnts m) / 3.
Definition cb_ntets (m : CubitMesh) : Z := len (cb_tets m) / 4.

(** [line.replace(',', ' ').split()]. *)
Definition cubit_tokens (line : str) : list str :=
  split_ws (replace_chr COMMA SP line).

(** One pass of the node loop body, from the assertion to [pnts += node]. *)
Definition cubit_node (line : list str) (scale : float)
  : result (list float) :=
  _ <- py_assert (len line =? 4) ;;
  t0 <- py_index line 0 ;;
  nodidx <- py_int t0 ;;
  t1 <- py_index line 1 ;;
  x <- py_float t1 ;;
  t2 <- py_index line 2 ;;
  y <- py_float t2 ;;
  t3 <- py_index line 3 ;;
  z <- py_float t3 ;;
  Ok [fmul x scale; fmul y scale; fmul z scale].

(** The node loop, entered with the tokens of the current line; it ends
    on the line whose first token is [*ELEMENT]. Past the end of the file
    [readline] returns the empty string, which has no first token. *)
Fixpoint cubit_nodes (cubfile : file) (line : list str) (scale : float)
    (pnts : list float) : result (list float * file) :=
  t0 <- py_index line 0 ;;
  if str_eqb t0 (lit "*ELEMENT") then Ok (pnts, cubfile)
  else
    node <- cubit_node line scale ;;
    match cubfile with
    | [] => Raise IndexError
    | l :: cubfile' => cubit_nodes cubfile' (cubit_tokens l) scale
                         (pnts ++ node)
    end.

(** One pass of the element loop body. *)
Definition cubit_element (text : str) : result (list Z) :=
  let line := cubit_tokens text in
  _ <- py_assert (len line =? 5) ;;
  t0 <- py_index line 0 ;;
  tetidx <- py_int t0 ;;
  t1 <- py_index line 1 ;;
  n0 <- py_int t1 ;;
  t2 <- py_index line 2 ;;
  n1 <- py_int t2 ;;
  t3 <- py_index line 3 ;;
  n2 <- py_int t3 ;;
  t4 <- py_index line 4 ;;
  n3 <- py_int t4 ;;
  Ok [n0 - 1; n1 - 1; n2 - 1; n3 - 1].

(** The element loop: to the end of the file. *)
Fixpoint cubit_elements (cubfile : file) (tets : list Z)
  : result (list Z) :=
  match cubfile with
  | [] => Ok tets
  | [] :: _ => Ok tets
  | line :: cubfile' =>
    element <- cubit_element line ;;
    cubit_elements cubfile' (tets ++ element)
  end.

(** [readCubit(filename, scale)]. *)
Definition readCubit (fs : filesystem) (filename : str) (scale : float)
  : result CubitMesh :=
  cubfile <- open_r fs filename ;;
  let '(line, cubfile) := readline cubfile in
  _ <- py_assert (str_eqb line (lit "*HEADING" ++ [NL])) ;;
  let '(line, cubfile) := readline cubfile in
  let '(line, cubfile) := readline cubfile in
  _ <- py_assert (str_eqb line (lit "*NODE" ++ [NL])) ;;
  let pnts := [] in
  let tets := [] in
  let '(line, cubfile) := readline cubfile in
  '(pnts, cubfile) <- cubit_nodes cubfile (cubit_tokens line) scale pnts ;;
  _ <- py_assert (len pnts mod 3 =? 0) ;;
  tets <- cubit_elements cubfile tets ;;
  _ <- py_assert (len tets mod 4 =? 0) ;;
  let mesh := {| cb_pnts := pnts; cb_tets := tets |} in
  _ <- py_assert (len pnts / 3 =? cb_nverts mesh) ;;
  _ <- py_assert (len tets / 4 =? cb_ntets mesh) ;;
  Ok mesh.

End Cubit.

(** ** A concrete number model

    Integral floats, written the way Python writes them ([1.0], [-3.0]).
    It gives the interface a computable instance on which the readers
    can be run. *)

Definition integral_of_text (s : str) : result Z :=
  let t := strip s in
  match rev t with
  | "0"%char :: "."%char :: r => py_int (rev r)
  | _ => py_int t
  end.

Definition integral_text (z : Z) : str := py_str_int z ++ lit ".0".

Definition IntegralFloat : PyFloat := {|
  float := Z;
  py_float := integral_of_text;
  float_repr := integral_text;
  float_str := integral_text;
  fmul := Z.mul;
  fzero := 0
|}.

(** ** Canonical XML: the writer *)

Definition DQ : ascii := "034"%char.

(** The opening of a tag up to the quote that starts its attribute
    value, as in [<node idx = ] followed by a double quote; and the
    closing quote with its [>]. *)
Definition attr_open (tag attr : string) : str :=
  lit ("<" ++ tag ++ " " ++ attr ++ " = ")%string ++ [DQ].

Definition attr_close : str := [DQ] ++ lit ">".

(** The first line of the XML file, without its newline. *)
Definition xml_decl : str :=
  lit "<?xml version=" ++ [DQ] ++ lit "1.0" ++ [DQ] ++ lit " encoding="
    ++ [DQ] ++ lit "ISO-8859-1" ++ [DQ] ++ lit "?>".

(** [n] tab characters. *)
Definition tabs (n : nat) : str := repeat TAB n.

(** [str(t)] for a tuple of at least two items whose own text is
    [items]. *)
Fixpoint join (sep : str) (items : list str) : str :=
  match items with
  | [] => []
  | [a] => a
  | a :: rest => a ++ sep ++ join sep rest
  end.

Definition str_tuple (items : list str) : str :=
  [LPAR] ++ join (lit ", ") items ++ [RPAR].

(** The text written by
    [for v in l: if (v != l[0]): write(','); write(text(v))]. *)
Definition write_commas {A} (eqb : A -> A -> bool) (text : A -> str)
    (l : list A) : str :=
  match l with
  | [] => []
  | first :: _ =>
    concat (map (fun v => (if eqb v first then [] else [COMMA]) ++ text v) l)
  end.

Section XML.

Context {PF : PyFloat}.

(** *** The mesh as [saveXML] reads it

    Each field is what one accessor of [steps.geom.Tetmesh] returns:
    [getVertex], [getTri], [getTriArea], [getTriNorm], [getTriTetNeighb],
    [getTriPatch(..).getID()], and so on. *)

Record MeshTri : Type := {
  tri_verts : Z * Z * Z;
  tri_area : float;
  tri_norm : float * float * float;
  tri_tetneighb : Z * Z;
  tri_patch : option str
}.

Record MeshTet : Type := {
  tet_verts : Z * Z * Z * Z;
  tet_vol : float;
  tet_baryc : float * float * float;
  tet_trineighb : Z * Z * Z * Z;
  tet_tetneighb : Z * Z * Z * Z;
  tet_comp : option str
}.

Record MeshComp : Type := {
  mc_id : str;
  mc_volsys : list str
}.

Record MeshPatch : Type := {
  mp_id : str;
  mp_surfsys : list str;
  mp_icomp : str;
  mp_ocomp : option str
}.

Record Tetmesh : Type := {
  mesh_str : str;
  mesh_verts : list (float * float * float);
  mesh_tris : list MeshTri;
  mesh_tets : list MeshTet;
  mesh_comps : list MeshComp;
  mesh_patches : list MeshPatch
}.

(** [str(t).strip(')').strip('(')] for a tuple [t]. *)
Definition tuple_body (items : list str) : str :=
  strip_chr LPAR (strip_chr RPAR (str_tuple items)).

(** The node loop: the XML text it writes. *)
Fixpoint save_nodes (node : Z) (vs : list (float * float * float)) : str :=
  match vs with
  | [] => []
  | (x, y, z) :: vs' =>
    let coords := tuple_body [float_repr x; float_repr y; float_repr z] in
    (tabs 2 ++ attr_open "node" "idx" ++ py_str_int node
       ++ attr_close ++ [NL])
    ++ (tabs 3 ++ lit "<coords>" ++ coords ++ lit "</coords>" ++ [NL])
    ++ (tabs 2 ++ lit "</node>" ++ [NL])
    ++ save_nodes (node + 1) vs'
  end.

(** The triangle loop: the XML text and the companion text it writes. *)
Fixpoint save_tris (tri : Z) (ts : list MeshTri) : str * str :=
  match ts with
  | [] => ([], [])
  | t :: ts' =>
    let '(a, b, c) := tri_verts t in
    let nodes := tuple_body [py_str_int a; py_str_int b; py_str_int c] in
    let '(n0, n1, n2) := tri_norm t in
    let '(tn0, tn1) := tri_tetneighb t in
    let '(xml, txt) := save_tris (tri + 1) ts' in
    ((tabs 2 ++ attr_open "tri" "idx" ++ py_str_int tri
        ++ attr_close ++ [NL])
     ++ (tabs 3 ++ lit "<nodes>" ++ nodes ++ lit "</nodes>" ++ [NL])
     ++ (tabs 2 ++ lit "</tri>" ++ [NL])
     ++ xml,
     (float_str (tri_area t) ++ [SP])
     ++ (float_str n0 ++ [SP] ++ float_str n1 ++ [SP] ++ float_str n2
           ++ [SP])
     ++ (py_str_int tn0 ++ [SP] ++ py_str_int tn1 ++ [SP])
     ++ [NL]
     ++ txt)
  end.

(** The tetrahedron loop. *)
Fixpoint save_tets (tet : Z) (ts : list MeshTet) : str * str :=
  match ts with
  | [] => ([], [])
  | t :: ts' =>
    let '(a, b, c, d) := tet_verts t in
    let nodes :=
      tuple_body [py_str_int a; py_str_int b; py_str_int c; py_str_int d] in
    let '(b0, b1, b2) := tet_baryc t in
    let '(r0, r1, r2, r3) := tet_trineighb t in
    let '(e0, e1, e2, e3) := tet_tetneighb t in
    let '(xml, txt) := save_tets (tet + 1) ts' in
    ((tabs 2 ++ attr_open "tet" "idx" ++ py_str_int tet
        ++ attr_close ++ [NL])
     ++ (tabs 3 ++ lit "<nodes>" ++ nodes ++ lit "</nodes>" ++ [NL])
     ++ (tabs 2 ++ lit "</tet>" ++ [NL])
     ++ xml,
     (float_str (tet_vol t) ++ [SP])
     ++ (float_str b0 ++ [SP] ++ float_str b1 ++ [SP] ++ float_str b2
           ++ [SP])
     ++ (py_str_int r0 ++ [SP] ++ py_str_int r1 ++ [SP] ++ py_str_int r2
           ++ [SP] ++ py_str_int r3 ++ [SP])
     ++ (py_str_int e0 ++ [SP] ++ py_str_int e1 ++ [SP] ++ py_str_int e2
           ++ [SP] ++ py_str_int e3 ++ [SP])
     ++ [NL]
     ++ txt)
  end.

(** [for c in xrange(n): if idtemp == ids[c]: groups[c].append(x); break]. *)
Fixpoint append_first_match (ids : list str) (groups : list (list Z))
    (idtemp : str) (x : Z) : list (list Z) :=
  match ids, groups with
  | id :: ids', g :: groups' =>
    if str_eqb idtemp id then (g ++ [x]) :: groups'
    else g :: append_first_match ids' groups' idtemp x
  | _, _ => groups
  end.

(** The scan that derives the members of every group: element [x] goes
    to the first group whose id is the id of the element's owner;
    elements without an owner are passed over. *)
Fixpoint scan_members (owners : list (option str)) (x : Z)
    (ids : list str) (groups : list (list Z)) : list (list Z) :=
  match owners with
  | [] => groups
  | None :: owners' => scan_members owners' (x + 1) ids groups
  | Some idtemp :: owners' =>
    scan_members owners' (x + 1) ids
      (append_first_match ids groups idtemp x)
  end.

Definition derived_members (owners : list (option str)) (ids : list str)
  : list (list Z) :=
  scan_members owners 0 ids (map (fun _ => []) ids).

(** The loop that writes the compartments. *)
Fixpoint save_comps (c : Z) (cs : list (MeshComp * list Z)) : str :=
  match cs with
  | [] => []
  | (comp, ctets) :: cs' =>
    (tabs 2 ++ attr_open "comp" "idx" ++ py_str_int c
       ++ attr_close ++ [NL])
    ++ (tabs 3 ++ lit "<id>" ++ mc_id comp ++ lit "</id>" ++ [NL])
    ++ (tabs 3 ++ lit "<volsys>"
          ++ write_commas str_eqb (fun v => v) (mc_volsys comp)
          ++ lit "</volsys>" ++ [NL])
    ++ (tabs 3 ++ lit "<tets>"
          ++ write_commas Z.eqb py_str_int ctets
          ++ lit "</tets>" ++ [NL])
    ++ (tabs 2 ++ lit "</comp>" ++ [NL])
    ++ save_comps (c + 1) cs'
  end.

(** The loop that writes the patches. *)
Fixpoint save_patches (p : Z) (ps : list (MeshPatch * list Z)) : str :=
  match ps with
  | [] => []
  | (patch, ptris) :: ps' =>
    let ocomp := match mp_ocomp patch with
                 | None => lit "null"
                 | Some id => id
                 end in
    (tabs 2 ++ attr_open "patch" "idx" ++ py_str_int p
       ++ attr_close ++ [NL])
    ++ (tabs 3 ++ lit "<id>" ++ mp_id patch ++ lit "</id>" ++ [NL])
    ++ (tabs 3 ++ lit "<surfsys>"
          ++ write_commas str_eqb (fun v => v) (mp_surfsys patch)
          ++ lit "</surfsys>" ++ [NL])
    ++ (tabs 3 ++ lit "<icomp>" ++ mp_icomp patch ++ lit "</icomp>" ++ [NL])
    ++ (tabs 3 ++ lit "<ocomp>" ++ ocomp ++ lit "</ocomp>" ++ [NL])
    ++ (tabs 3 ++ lit "<tris>"
          ++ write_commas Z.eqb py_str_int ptris
          ++ lit "</tris>" ++ [NL])
    ++ (tabs 2 ++ lit "</patch>" ++ [NL])
    ++ save_patches (p + 1) ps'
  end.

(** The members [saveXML] derives for the compartments and for the
    patches of a mesh. *)
Definition comp_members (m : Tetmesh) : list (list Z) :=
  derived_members (map tet_comp (mesh_tets m)) (map mc_id (mesh_comps m)).

Definition patch_members (m : Tetmesh) : list (list Z) :=
  derived_members (map tri_patch (mesh_tris m)) (map mp_id (mesh_patches m)).

(** The text of the [.xml] file and of the [.txt] file. *)
Definition xml_text (m : Tetmesh) : str * str :=
  let nverts := len (mesh_verts m) in
  let ntris := len (mesh_tris m) in
  let ntets := len (mesh_tets m) in
  let ncomps := len (mesh_comps m) in
  let npatches := len (mesh_patches m) in
  let '(trixml, tritxt) := save_tris 0 (mesh_tris m) in
  let '(tetxml, tettxt) := save_tets 0 (mesh_tets m) in
  ((xml_decl ++ [NL])
   ++ (lit "<tetmesh>" ++ [NL])
   ++ (tabs 1 ++ attr_open "nodes" "size" ++ py_str_int nverts
         ++ attr_close ++ [NL])
   ++ save_nodes 0 (mesh_verts m)
   ++ (tabs 1 ++ lit "</nodes>" ++ [NL])
   ++ (tabs 1 ++ attr_open "triangles" "size" ++ py_str_int ntris
         ++ attr_close ++ [NL])
   ++ trixml
   ++ (tabs 1 ++ lit "</triangles>" ++ [NL])
   ++ (tabs 1 ++ attr_open "tetrahedrons" "size" ++ py_str_int ntets
         ++ attr_close ++ [NL])
   ++ tetxml
   ++ (tabs 1 ++ lit "</tetrahedrons>" ++ [NL])
   ++ (tabs 1 ++ attr_open "compartments" "size" ++ py_str_int ncomps
         ++ attr_close ++ [NL])
   ++ (if 0 <? ncomps
       then save_comps 0 (combine (mesh_comps m) (comp_members m))
       else [])
   ++ (tabs 1 ++ lit "</compartments>" ++ [NL])
   ++ (tabs 1 ++ attr_open "patches" "size" ++ py_str_int npatches
         ++ attr_close ++ [NL])
   ++ (if 0 <? npatches
       then save_patches 0 (combine (mesh_patches m) (patch_members m))
       else [])
   ++ (tabs 1 ++ lit "</patches>" ++ [NL])
   ++ lit "</tetmesh>",
   (py_str_int nverts ++ [NL] ++ [NL])
   ++ (py_str_int ntris ++ [NL])
   ++ tritxt
   ++ ([NL] ++ py_str_int ntets ++ [NL])
   ++ tettxt).

(** [saveXML(pathname, tetmesh)]: the file system it leaves behind. An
    object that does not present itself as a [steps.geom.Tetmesh] is
    turned away before anything is written. *)
Definition saveXML (fs : filesystem) (pathname : str) (tetmesh : Tetmesh)
  : filesystem :=
  if negb (str_eqb (py_slice (Some 1) (Some 19) (mesh_str tetmesh))
             (lit "steps.geom.Tetmesh"))
  then fs
  else
    let '(xml, txt) := xml_text tetmesh in
    write_file (write_file fs (pathname ++ lit ".xml") xml)
      (pathname ++ lit ".txt") txt.

(** ** Canonical XML: the reader *)

(** What [loadXML] hands to the ten-argument [steps.geom.Tetmesh]
    constructor. *)
Record LoadedMesh : Type := {
  nodes_out : list float;
  tris_out : list Z;
  triareas_out : list float;
  trinorms_out : list float;
  tritetns_out : list Z;
  tets_out : list Z;
  tetvols_out : list float;
  tetbarycs_out : list float;
  tettrins_out : list Z;
  tettetns_out : list Z
}.

(** [numpy.zeros(n)]; a negative size is refused. *)
Definition np_zeros {A} (zero : A) (n : Z) : result (list A) :=
  if n <? 0 then Raise ValueError else Ok (repeat zero (Z.to_nat n)).

(** The reading of a size line:
    [info = f.readline().strip(); assert(info.__len__() > minlen)], the
    assertion that [info[-2:]] is a double quote followed by [>], and
    [n = int(info[k:-2])]. *)
Definition read_size (minlen k : Z) (xmlfile : file) : result (Z * file) :=
  let '(l, xmlfile) := readline xmlfile in
  let info := strip l in
  _ <- py_assert (minlen <? len info) ;;
  _ <- py_assert (str_eqb (py_slice (Some (-2)) None info)
                    attr_close) ;;
  n <- py_int (py_slice (Some k) (Some (-2)) info) ;;
  Ok (n, xmlfile).

(** [idxtemp = f.readline().strip(); assert(int(idxtemp[k:-2]) == i)]. *)
Definition read_idx (k i : Z) (xmlfile : file) : result file :=
  let '(l, xmlfile) := readline xmlfile in
  let idxtemp := strip l in
  v <- py_int (py_slice (Some k) (Some (-2)) idxtemp) ;;
  _ <- py_assert (v =? i) ;;
  Ok xmlfile.

(** [t = f.readline().strip(); assert(t[:ko] == o and t[-kc:] == c);
     t = t[ko:-kc]]. *)
Definition read_tagged (ko : Z) (o : str) (kc : Z) (c : str)
    (xmlfile : file) : result (str * file) :=
  let '(l, xmlfile) := readline xmlfile in
  let t := strip l in
  _ <- py_assert (str_eqb (py_slice None (Some ko) t) o
                  && str_eqb (py_slice (Some (- kc)) None t) c) ;;
  Ok (py_slice (Some ko) (Some (- kc)) t, xmlfile).

(** [assert(f.readline().strip() == s)]. *)
Definition expect_line (s : str) (xmlfile : file) : result file :=
  let '(l, xmlfile) := readline xmlfile in
  _ <- py_assert (str_eqb (strip l) s) ;;
  Ok xmlfile.

(** [float(toks[k])], [int(toks[k])]. *)
Definition float_at (toks : list str) (k : Z) : result float :=
  t <- py_index toks k ;; py_float t.

Definition int_at (toks : list str) (k : Z) : result Z :=
  t <- py_index toks k ;; py_int t.

(** [a[k], a[k+1], a[k+2] = x, y, z] and its four-fold sibling. *)
Definition set3 {A} (a : list A) (k : Z) (x y z : A) : result (list A) :=
  a <- py_setitem a k x ;;
  a <- py_setitem a (k + 1) y ;;
  py_setitem a (k + 2) z.

Definition set4 {A} (a : list A) (k : Z) (x y z w : A) : result (list A) :=
  a <- py_setitem a k x ;;
  a <- py_setitem a (k + 1) y ;;
  a <- py_setitem a (k + 2) z ;;
  py_setitem a (k + 3) w.

(** The node loop. *)
Fixpoint load_nodes (n : nat) (i : Z) (xmlfile : file)
    (nodes_out : list float) : result (file * list float) :=
  match n with
  | O => Ok (xmlfile, nodes_out)
  | S n' =>
    xmlfile <- read_idx 13 i xmlfile ;;
    '(coordtemp, xmlfile) <-
      read_tagged 8 (lit "<coords>") 9 (lit "</coords>") xmlfile ;;
    let coordtemp := split_on (lit ", ") coordtemp in
    x <- float_at coordtemp 0 ;;
    y <- float_at coordtemp 1 ;;
    z <- float_at coordtemp 2 ;;
    nodes_out <- set3 nodes_out (i * 3) x y z ;;
    xmlfile <- expect_line (lit "</node>") xmlfile ;;
    load_nodes n' (i + 1) xmlfile nodes_out
  end.

(** The arrays that exist only when the companion file was opened:
    areas, normals and tetrahedron neighbours of the triangles. *)
Definition TriDerived : Type := list float * list float * list Z.

(** The companion-file part of one pass of the triangle loop. A variable
    that was never assigned raises [NameError]. *)
Definition load_tri_txt (i : Z) (textfile : file)
    (derived : option TriDerived) : result (file * option TriDerived) :=
  let '(l, textfile) := readline textfile in
  let line := split_on [SP] (rstrip l) in
  _ <- py_assert (len line =? 6) ;;
  a <- float_at line 0 ;;
  n0 <- float_at line 1 ;;
  n1 <- float_at line 2 ;;
  n2 <- float_at line 3 ;;
  '(triareas, trinorms, tritetns) <- of_option NameError derived ;;
  triareas <- py_setitem triareas i a ;;
  trinorms <- set3 trinorms (i * 3) n0 n1 n2 ;;
  t0 <- int_at line 4 ;;
  t1 <- int_at line 5 ;;
  tritetns <- py_setitem tritetns (i * 2) t0 ;;
  tritetns <- py_setitem tritetns (i * 2 + 1) t1 ;;
  Ok (textfile, Some (triareas, trinorms, tritetns)).

(** The triangle loop. *)
Fixpoint load_tris (n : nat) (i : Z) (havetxt : bool)
    (xmlfile textfile : file) (tris_out : list Z)
    (derived : option TriDerived)
  : result (file * file * list Z * option TriDerived) :=
  match n with
  | O => Ok (xmlfile, textfile, tris_out, derived)
  | S n' =>
    xmlfile <- read_idx 12 i xmlfile ;;
    '(nodetemp, xmlfile) <-
      read_tagged 7 (lit "<nodes>") 8 (lit "</nodes>") xmlfile ;;
    let nodetemp := split_on (lit ", ") nodetemp in
    a <- int_at nodetemp 0 ;;
    b <- int_at nodetemp 1 ;;
    c <- int_at nodetemp 2 ;;
    tris_out <- set3 tris_out (i * 3) a b c ;;
    xmlfile <- expect_line (lit "</tri>") xmlfile ;;
    '(textfile, derived) <-
      (if havetxt then load_tri_txt i textfile derived
       else Ok (textfile, derived)) ;;
    load_tris n' (i + 1) havetxt xmlfile textfile tris_out derived
  end.

(** Volumes, barycenters, triangle neighbours and tetrahedron neighbours
    of the tetrahedra. *)
Definition TetDerived : Type :=
  list float * list float * list Z * list Z.

Definition load_tet_txt (i : Z) (textfile : file)
    (derived : option TetDerived) : result (file * option TetDerived) :=
  let '(l, textfile) := readline textfile in
  let line := split_on [SP] (rstrip l) in
  _ <- py_assert (len line =? 12) ;;
  v <- float_at line 0 ;;
  b0 <- float_at line 1 ;;
  b1 <- float_at line 2 ;;
  b2 <- float_at line 3 ;;
  '(tetvols, tetbarycs, tettrins, tettetns) <- of_option NameError derived ;;
  tetvols <- py_setitem tetvols i v ;;
  tetbarycs <- set3 tetbarycs (i * 3) b0 b1 b2 ;;
  r0 <- int_at line 4 ;;
  r1 <- int_at line 5 ;;
  r2 <- int_at line 6 ;;
  r3 <- int_at line 7 ;;
  tettrins <- set4 tettrins (i * 4) r0 r1 r2 r3 ;;
  e0 <- int_at line 8 ;;
  e1 <- int_at line 9 ;;
  e2 <- int_at line 10 ;;
  e3 <- int_at line 11 ;;
  tettetns <- set4 tettetns (i * 4) e0 e1 e2 e3 ;;
  Ok (textfile, Some (tetvols, tetbarycs, tettrins, tettetns)).

(** The tetrahedron loop. *)
Fixpoint load_tets (n : nat) (i : Z) (havetxt : bool)
    (xmlfile textfile : file) (tets_out : list Z)
    (derived : option TetDerived)
  : result (file * file * list Z * option TetDerived) :=
  match n with
  | O => Ok (xmlfile, textfile, tets_out, derived)
  | S n' =>
    xmlfile <- read_idx 12 i xmlfile ;;
    '(nodetemp, xmlfile) <-
      read_tagged 7 (lit "<nodes>") 8 (lit "</nodes>") xmlfile ;;
    let nodetemp := split_on (lit ", ") nodetemp in
    a <- int_at nodetemp 0 ;;
    b <- int_at nodetemp 1 ;;
    c <- int_at nodetemp 2 ;;
    d <- int_at nodetemp 3 ;;
    tets_out <- set4 tets_out (i * 4) a b c d ;;
    xmlfile <- expect_line (lit "</tet>") xmlfile ;;
    '(textfile, derived) <-
      (if havetxt then load_tet_txt i textfile derived
       else Ok (textfile, derived)) ;;
    load_tets n' (i + 1) havetxt xmlfile textfile tets_out derived
  end.

(** [for k in xrange(n): a[k] = int(toks[k])]. *)
Fixpoint fill_ints (toks : list str) (n : nat) (k : Z) (a : list Z)
  : result (list Z) :=
  match n with
  | O => Ok a
  | S n' =>
    v <- int_at toks k ;;
    a <- py_setitem a k v ;;
    fill_ints toks n' (k + 1) a
  end.

(** The member list of a compartment or patch:
    [temp = temp.split(','); n = temp.__len__(); a = numpy.zeros(n);
     for k in xrange(n): a[k] = int(temp[k])]. *)
Definition read_members (text : str) : result (list Z) :=
  let temp := split_on [COMMA] text in
  let n := len temp in
  a <- np_zeros 0 n ;;
  fill_ints temp (Z.to_nat n) 0 a.

(** The label list of a compartment or patch:
    [temp = temp.split(','); if (temp[0] == ''): temp = []]. *)
Definition read_labels (text : str) : result (list str) :=
  let temp := split_on [COMMA] text in
  t0 <- py_index temp 0 ;;
  Ok (if str_eqb t0 [] then [] else temp).

(** Modelled from the spec: [addVolsys] and [addSurfsys] of the geometry
    engine append a label to the label list of the object. *)
Definition addVolsys (c : TmComp) (v : str) : TmComp :=
  {| comp_id := comp_id c; comp_tets := comp_tets c;
     comp_volsys := comp_volsys c ++ [v] |}.

Definition addSurfsys (p : TmPatch) (s : str) : TmPatch :=
  {| patch_id := patch_id p; patch_tris := patch_tris p;
     patch_icomp := patch_icomp p; patch_ocomp := patch_ocomp p;
     patch_surfsys := patch_surfsys p ++ [s] |}.

(** The compartment loop. *)
Fixpoint load_comps (n : nat) (i : Z) (xmlfile : file)
    (comps_out : list TmComp) : result (file * list TmComp) :=
  match n with
  | O => Ok (xmlfile, comps_out)
  | S n' =>
    xmlfile <- read_idx 13 i xmlfile ;;
    '(idtemp, xmlfile) <- read_tagged 4 (lit "<id>") 5 (lit "</id>") xmlfile ;;
    '(volsystemp, xmlfile) <-
      read_tagged 8 (lit "<volsys>") 9 (lit "</volsys>") xmlfile ;;
    volsystemp <- read_labels volsystemp ;;
    '(tettemp, xmlfile) <-
      read_tagged 6 (lit "<tets>") 7 (lit "</tets>") xmlfile ;;
    ctets <- read_members tettemp ;;
    let c_out := {| comp_id := idtemp; comp_tets := ctets;
                    comp_volsys := [] |} in
    let c_out := fold_left addVolsys volsystemp c_out in
    let comps_out := comps_out ++ [c_out] in
    xmlfile <- expect_line (lit "</comp>") xmlfile ;;
    load_comps n' (i + 1) xmlfile comps_out
  end.

(** The construction of a patch from the fields read:
    [TmPatch(idtemp, mesh, ptris, mesh.getComp(icomptemp),
     mesh.getComp(ocomptemp))] when the outer name is not [null],
    [TmPatch(idtemp, mesh, ptris, mesh.getComp(icomptemp))] when it is;
    [comps] are the compartments created on the mesh so far. *)
Definition make_patch (comps : list TmComp) (idtemp : str) (ptris : list Z)
    (icomptemp ocomptemp : str) : result TmPatch :=
  if negb (str_eqb ocomptemp (lit "null"))
  then icomp <- getComp comps icomptemp ;;
       ocomp <- getComp comps ocomptemp ;;
       Ok {| patch_id := idtemp; patch_tris := ptris;
             patch_icomp := icomp; patch_ocomp := Some ocomp;
             patch_surfsys := [] |}
  else icomp <- getComp comps icomptemp ;;
       Ok {| patch_id := idtemp; patch_tris := ptris;
             patch_icomp := icomp; patch_ocomp := None;
             patch_surfsys := [] |}.

(** The patch loop; [comps] are the compartments created on the mesh. *)
Fixpoint load_patches (n : nat) (i : Z) (xmlfile : file)
    (comps : list TmComp) (patches_out : list TmPatch)
  : result (file * list TmPatch) :=
  match n with
  | O => Ok (xmlfile, patches_out)
  | S n' =>
    xmlfile <- read_idx 14 i xmlfile ;;
    '(idtemp, xmlfile) <- read_tagged 4 (lit "<id>") 5 (lit "</id>") xmlfile ;;
    '(surfsystemp, xmlfile) <-
      read_tagged 9 (lit "<surfsys>") 10 (lit "</surfsys>") xmlfile ;;
    surfsystemp <- read_labels surfsystemp ;;
    '(icomptemp, xmlfile) <-
      read_tagged 7 (lit "<icomp>") 8 (lit "</icomp>") xmlfile ;;
    '(ocomptemp, xmlfile) <-
      read_tagged 7 (lit "<ocomp>") 8 (lit "</ocomp>") xmlfile ;;
    '(tritemp, xmlfile) <-
      read_tagged 6 (lit "<tris>") 7 (lit "</tris>") xmlfile ;;
    ptris <- read_members tritemp ;;
    p_out <- make_patch comps idtemp ptris icomptemp ocomptemp ;;
    let p_out := fold_left addSurfsys surfsystemp p_out in
    let patches_out := patches_out ++ [p_out] in
    xmlfile <- expect_line (lit "</patch>") xmlfile ;;
    load_patches n' (i + 1) xmlfile comps patches_out
  end.

(** The size line of the companion file:
    [assert (n == int(textfile.readline()))], after [skip] lines that
    are read and dropped. *)
Definition check_txt_size (havetxt : bool) (skip : bool) (n : Z)
    (textfile : file) : result file :=
  if havetxt
  then
    let textfile := if skip then snd (readline textfile) else textfile in
    let '(l, textfile) := readline textfile in
    v <- py_int l ;;
    _ <- py_assert (n =? v) ;;
    Ok textfile
  else Ok textfile.

(** [loadXML(pathname)]. The outer [option] is the bare [return] taken
    when the second line is not [<tetmesh>]. *)
Definition loadXML (fs : filesystem) (pathname : str)
  : result (option (LoadedMesh * list TmComp * list TmPatch)) :=
  xmlfile <- open_r fs (pathname ++ lit ".xml") ;;
  let '(havetxt, textfile) :=
    match open_r fs (pathname ++ lit ".txt") with
    | Ok f => (true, f)
    | Raise _ => (false, [])
    end in
  let '(info, xmlfile) := readline xmlfile in
  let '(l, xmlfile) := readline xmlfile in
  if negb (str_eqb (rstrip l) (lit "<tetmesh>")) then Ok None else
  (* nodes *)
  '(nnodes, xmlfile) <- read_size 17 15 xmlfile ;;
  textfile <- check_txt_size havetxt false nnodes textfile ;;
  nodes_out <- np_zeros fzero (nnodes * 3) ;;
  '(xmlfile, nodes_out) <-
    load_nodes (Z.to_nat nnodes) 0 xmlfile nodes_out ;;
  xmlfile <- expect_line (lit "</nodes>") xmlfile ;;
  (* triangles *)
  '(ntris, xmlfile) <- read_size 21 19 xmlfile ;;
  textfile <- check_txt_size havetxt true ntris textfile ;;
  tris_out <- np_zeros 0 (ntris * 3) ;;
  tri_derived <-
    (if havetxt
     then triareas <- np_zeros fzero ntris ;;
          trinorms <- np_zeros fzero (ntris * 3) ;;
          tritetns <- np_zeros 0 (ntris * 2) ;;
          Ok (Some (triareas, trinorms, tritetns))
     else Ok None) ;;
  '(xmlfile, textfile, tris_out, tri_derived) <-
    load_tris (Z.to_nat ntris) 0 havetxt xmlfile textfile tris_out
      tri_derived ;;
  xmlfile <- expect_line (lit "</triangles>") xmlfile ;;
  (* tetrahedra *)
  '(ntets, xmlfile) <- read_size 24 22 xmlfile ;;
  textfile <- check_txt_size havetxt true ntets textfile ;;
  tets_out <- np_zeros 0 (ntets * 4) ;;
  tet_derived <-
    (if havetxt
     then tetvols <- np_zeros fzero ntets ;;
          tetbarycs <- np_zeros fzero (ntets * 3) ;;
          tettrins <- np_zeros 0 (ntets * 4) ;;
          tettetns <- np_zeros 0 (ntets * 4) ;;
          Ok (Some (tetvols, tetbarycs, tettrins, tettetns))
     else Ok None) ;;
  '(xmlfile, textfile, tets_out, tet_derived) <-
    load_tets (Z.to_nat ntets) 0 havetxt xmlfile textfile tets_out
      tet_derived ;;
  xmlfile <- expect_line (lit "</tetrahedrons>") xmlfile ;;
  (* the mesh: every array is named in the call *)
  '(triareas, trinorms, tritetns) <- of_option NameError tri_derived ;;
  '(tetvols, tetbarycs, tettrins, tettetns) <-
    of_option NameError tet_derived ;;
  let mesh := {| nodes_out := nodes_out; tris_out := tris_out;
                 triareas_out := triareas; trinorms_out := trinorms;
                 tritetns_out := tritetns; tets_out := tets_out;
                 tetvols_out := tetvols; tetbarycs_out := tetbarycs;
                 tettrins_out := tettrins; tettetns_out := tettetns |} in
  (* compartments and patches *)
  '(ncomps, xmlfile) <- read_size 24 22 xmlfile ;;
  '(xmlfile, comps_out) <- load_comps (Z.to_nat ncomps) 0 xmlfile [] ;;
  xmlfile <- expect_line (lit "</compartments>") xmlfile ;;
  '(npatches, xmlfile) <- read_size 19 17 xmlfile ;;
  '(xmlfile, patches_out) <-
    load_patches (Z.to_nat npatches) 0 xmlfile comps_out [] ;;
  xmlfile <- expect_line (lit "</patches>") xmlfile ;;
  Ok (Some (mesh, comps_out, patches_out)).

(** ** What a saved mesh is expected to load as *)

Definition flat2 {A} (l : list (A * A)) : list A :=
  flat_map (fun '(x, y) => [x; y]) l.

Definition flat3 {A} (l : list (A * A * A)) : list A :=
  flat_map (fun '(x, y, z) => [x; y; z]) l.

Definition flat4 {A} (l : list (A * A * A * A)) : list A :=
  flat_map (fun '(x, y, z, w) => [x; y; z; w]) l.

(** The arrays of the mesh, flattened in index order. Coordinates are the
    numbers themselves; derived quantities went through [str] and are
    the numbers read back from that text. *)
Definition expected_mesh (m : Tetmesh) : LoadedMesh := {|
  nodes_out := flat3 (mesh_verts m);
  tris_out := flat3 (map tri_verts (mesh_tris m));
  triareas_out := map (fun t => float_reread (tri_area t)) (mesh_tris m);
  trinorms_out := map float_reread (flat3 (map tri_norm (mesh_tris m)));
  tritetns_out := flat2 (map tri_tetneighb (mesh_tris m));
  tets_out := flat4 (map tet_verts (mesh_tets m));
  tetvols_out := map (fun t => float_reread (tet_vol t)) (mesh_tets m);
  tetbarycs_out := map float_reread (flat3 (map tet_baryc (mesh_tets m)));
  tettrins_out := flat4 (map tet_trineighb (mesh_tets m));
  tettetns_out := flat4 (map tet_tetneighb (mesh_tets m))
|}.

Definition expected_comp (cm : MeshComp * list Z) : TmComp :=
  {| comp_id := mc_id (fst cm); comp_tets := snd cm;
     comp_volsys := mc_volsys (fst cm) |}.

(** Every compartment with its id, its labels and the members the
    writer derived for it. *)
Definition expected_comps (m : Tetmesh) : list TmComp :=
  map expected_comp (combine (mesh_comps m) (comp_members m)).

(** The compartment of that name among [comps]. *)
Definition lookup_comp (comps : list TmComp) (name : str) : TmComp :=
  match getComp comps name with
  | Ok c => c
  | Raise _ => {| comp_id := name; comp_tets := []; comp_volsys := [] |}
  end.

Definition expected_patch (comps : list TmComp) (pm : MeshPatch * list Z)
  : TmPatch :=
  {| patch_id := mp_id (fst pm); patch_tris := snd pm;
     patch_icomp := lookup_comp comps (mp_icomp (fst pm));
     patch_ocomp := option_map (lookup_comp comps) (mp_ocomp (fst pm));
     patch_surfsys := mp_surfsys (fst pm) |}.

Definition expected_patches (m : Tetmesh) : list TmPatch :=
  map (expected_patch (expected_comps m))
    (combine (mesh_patches m) (patch_members m)).

(** ** Meshes whose names survive the text format *)

Definition is_nil {A} (l : list A) : bool :=
  match l with [] => true | _ => false end.

(** A label fits in a comma-separated line. *)
Definition label_ok (v : str) : bool := nonl v && lacks COMMA v.

(** A label list: labels that fit, the first one not empty and not
    repeated further on. *)
Definition labels_ok (l : list str) : bool :=
  forallb label_ok l
  && match l with
     | [] => true
     | first :: rest =>
       negb (is_nil first) && negb (existsb (str_eqb first) rest)
     end.

Definition comp_names_ok (c : MeshComp) : bool :=
  nonl (mc_id c) && labels_ok (mc_volsys c).

(** [name] is the id of one of the compartments. *)
Definition known_comp (comps : list MeshComp) (name : str) : bool :=
  existsb (fun c => str_eqb (mc_id c) name) comps.

Definition patch_names_ok (comps : list MeshComp) (p : MeshPatch) : bool :=
  nonl (mp_id p) && labels_ok (mp_surfsys p)
  && nonl (mp_icomp p) && known_comp comps (mp_icomp p)
  && match mp_ocomp p with
     | None => true
     | Some o =>
       nonl o && negb (str_eqb o (lit "null")) && known_comp comps o
     end.

(** The object presents itself as a [steps.geom.Tetmesh]. *)
Definition is_tetmesh (m : Tetmesh) : bool :=
  str_eqb (py_slice (Some 1) (Some 19) (mesh_str m))
    (lit "steps.geom.Tetmesh").

Definition names_ok (m : Tetmesh) : bool :=
  is_tetmesh m
  && forallb comp_names_ok (mesh_comps m)
  && forallb (patch_names_ok (mesh_comps m)) (mesh_patches m).

(** Every compartment and every patch has at least one member. *)
Definition populated (m : Tetmesh) : bool :=
  forallb (fun ts => negb (is_nil ts)) (comp_members m)
  && forallb (fun ts => negb (is_nil ts)) (patch_members m).

End XML.

(** ** Notions used in the statements and in the proofs *)

(** A line of the companion file: plain tokens, each followed by a
    space. *)
Definition spaced (toks : list str) (tail : str) : str :=
  fold_right (fun t acc => t ++ [SP] ++ acc) tail toks.

(** A derived member list that is not empty: its first element is not
    repeated. *)
Definition members_ok (ts : list Z) : bool :=
  match ts with
  | [] => false
  | first :: rest => negb (existsb (fun v => v =? first) rest)
  end.

Definition comp_pair_ok (cm : MeshComp * list Z) : bool :=
  comp_names_ok (fst cm) && members_ok (snd cm).

Definition ocomp_text (p : MeshPatch) : str :=
  match mp_ocomp p with
  | None => lit "null"
  | Some id => id
  end.

Definition patch_text_ok (p : MeshPatch) : bool :=
  nonl (mp_id p) && labels_ok (mp_surfsys p) && nonl (mp_icomp p)
  && nonl (ocomp_text p).

Definition patch_resolves (comps : list TmComp) (p : MeshPatch) : bool :=
  is_ok (getComp comps (mp_icomp p))
  && match mp_ocomp p with
     | None => true
     | Some o => negb (str_eqb o (lit "null")) && is_ok (getComp comps o)
     end.

Definition patch_pair_ok (comps : list TmComp) (pm : MeshPatch * list Z)
  : bool :=
  patch_text_ok (fst pm) && patch_resolves comps (fst pm)
  && members_ok (snd pm).

(** Members are collected in increasing index order: all below the
    index the scan has reached, the first one never repeated. *)
Definition ascending (x : Z) (g : list Z) : Prop :=
  (forall y, In y g -> y < x)
  /\ match g with [] => True | f :: r => ~ In f r end.

(** A file system without files. *)
Definition empty_fs : filesystem := fun _ => None.

(** A call came back with a mesh: no exception, no bare [return]. *)
Definition returns_mesh {A} (r : result (option A)) : bool :=
  match r with Ok (Some _) => true | _ => false end.

(** The text of every derived floating-point quantity of a loaded mesh,
    and of a mesh in memory. *)
Definition loaded_derived_text {PF : PyFloat} (lm : LoadedMesh) : list str :=
  map float_str (triareas_out lm ++ trinorms_out lm ++ tetvols_out lm
                 ++ tetbarycs_out lm).

Definition mesh_derived_text {PF : PyFloat} (m : Tetmesh) : list str :=
  map float_str (map tri_area (mesh_tris m)
                 ++ flat3 (map tri_norm (mesh_tris m))
                 ++ map tet_vol (mesh_tets m)
                 ++ flat3 (map tet_baryc (mesh_tets m))).

(** The file system that holds the XML file of [pathname] and nothing
    else. *)
Definition xml_only (pathname xml : str) : filesystem :=
  write_file empty_fs (pathname ++ lit ".xml") xml.





(** Texts and file systems written out line by line. *)
Definition lines_text (ls : list string) : str :=
  concat (map (fun l => lit l ++ [NL]) ls).

Definition fs_of (files : list (string * list string)) : filesystem :=
  fun p =>
    match find (fun kv => str_eqb (lit (fst kv)) p) files with
    | Some kv => Some (lines_text (snd kv))
    | None => None
    end.

(** The integers on the header line of a file. *)
Definition header_ints (f : file) : list (result Z) :=
  map py_int (split_ws (fst (readline f))).

Definition tetgen_header (fs : filesystem) (path : str) : list (result Z) :=
  match fs path with
  | Some text => header_ints (file_lines text)
  | None => []
  end.

(** The token lists of the records that a loop of [n] passes reads: the
    next [n] lines, those without content left out. *)
Definition record_tokens (n : nat) (f : file) : list (list str) :=
  filter (fun toks => negb (len toks =? 0)) (map data_tokens (firstn n f)).

(** [tb] reads as the integer that [ta] reads as, plus [k]; where [ta]
    does not read, [tb] fails the same way. *)
Definition shifted (k : Z) (ta tb : str) : Prop :=
  py_int tb = (v <- py_int ta ;; Ok (v + k)).

(** Two records that differ by a relabelling: the first [n] columns are
    indices shifted by [k], the columns after them are the same. *)
Fixpoint cols_relabelled (k : Z) (n : nat) (ta tb : list str) : Prop :=
  match n with
  | O => ta = tb
  | S n' =>
    match ta, tb with
    | [], [] => True
    | a :: ra, b :: rb => shifted k a b /\ cols_relabelled k n' ra rb
    | _, _ => False
    end
  end.

Definition line_relabelled (k : Z) (n : nat) (la lb : str) : Prop :=
  cols_relabelled k n (data_tokens la) (data_tokens lb).

(** Two files that differ by a relabelling: the same header line, and
    records relabelled in their first [n] columns. *)
Definition file_relabelled (k : Z) (n : nat) (fa fb : file) : Prop :=
  fst (readline fa) = fst (readline fb)
  /\ Forall2 (line_relabelled k n) (snd (readline fa)) (snd (readline fb)).

(** The number of index columns in the records of an [.ele] file: the
    element id and as many node references as the header declares. *)
Definition ele_index_columns (f : file) : nat :=
  match header_ints f with
  | [_; Ok nodespertet; _] => Z.to_nat (1 + nodespertet)
  | _ => 5
  end.

Definition opt_rel {A} (R : A -> A -> Prop) (a b : option A) : Prop :=
  match a, b with
  | Some x, Some y => R x y
  | None, None => True
  | _, _ => False
  end.

(** The file set of [pathroot] in [fsb] is the one in [fsa] with every
    index raised by [k]. *)
Definition tetgen_relabelled (k : Z) (fsa fsb : filesystem) (pathroot : str)
  : Prop :=
  opt_rel (fun ta tb => file_relabelled k 1 (file_lines ta) (file_lines tb))
    (fsa (pathroot ++ lit ".node")) (fsb (pathroot ++ lit ".node"))
  /\ opt_rel (fun ta tb =>
                file_relabelled k (ele_index_columns (file_lines ta))
                  (file_lines ta) (file_lines tb))
       (fsa (pathroot ++ lit ".ele")) (fsb (pathroot ++ lit ".ele"))
  /\ opt_rel (fun ta tb => file_relabelled k 4 (file_lines ta) (file_lines tb))
       (fsa (pathroot ++ lit ".face")) (fsb (pathroot ++ lit ".face")).

(** The line under the header of the [.node] file is a record. *)
Definition first_line_is_record (fs : filesystem) (pathroot : str) : Prop :=
  match fs (pathroot ++ lit ".node") with
  | Some t =>
    match snd (readline (file_lines t)) with
    | l :: _ => data_tokens l <> []
    | [] => False
    end
  | None => True
  end.

(** A node line of a CUBIT file that reads as the coordinates [xyz]: four
    tokens once commas count as spaces, an integer id that does not
    start the element section, and three numbers. *)
Definition node_line_reads {PF : PyFloat} (l : str)
    (xyz : float * float * float) : Prop :=
  exists t0 t1 t2 t3 id,
    cubit_tokens l = [t0; t1; t2; t3]
    /\ t0 <> lit "*ELEMENT"
    /\ py_int t0 = Ok id
    /\ py_float t1 = Ok (fst (fst xyz))
    /\ py_float t2 = Ok (snd (fst xyz))
    /\ py_float t3 = Ok (snd xyz).

(** An element line that reads as the node references [refs]: five
    tokens, an integer id and four integers. *)
Definition element_line_reads (l : str) (refs : Z * Z * Z * Z) : Prop :=
  l <> []
  /\ exists t0 t1 t2 t3 t4 id,
       cubit_tokens l = [t0; t1; t2; t3; t4]
       /\ py_int t0 = Ok id
       /\ py_int t1 = Ok (fst (fst (fst refs)))
       /\ py_int t2 = Ok (snd (fst (fst refs)))
       /\ py_int t3 = Ok (snd (fst refs))
       /\ py_int t4 = Ok (snd refs).

(** Coordinates times the scale; references less one. *)
Definition scaled {PF : PyFloat} (scale : float)
    (xyz : float * float * float) : list float :=
  [fmul (fst (fst xyz)) scale; fmul (snd (fst xyz)) scale;
   fmul (snd xyz) scale].

Definition less_one (refs : Z * Z * Z * Z) : list Z :=
  [fst (fst (fst refs)) - 1; snd (fst (fst refs)) - 1;
   snd (fst refs) - 1; snd refs - 1].

Section SavedText.

Context {PF : PyFloat}.

(** The XML text from the compartments on, and from the patches on. *)
Definition patches_text (m : Tetmesh) : str :=
  save_patches 0 (combine (mesh_patches m) (patch_members m))
  ++ tabs 1 ++ lit "</patches>" ++ [NL] ++ lit "</tetmesh>".

Definition comps_text (m : Tetmesh) : str :=
  save_comps 0 (combine (mesh_comps m) (comp_members m))
  ++ tabs 1 ++ lit "</compartments>" ++ [NL]
  ++ tabs 1 ++ attr_open "patches" "size"
  ++ py_str_int (len (mesh_patches m)) ++ attr_close ++ [NL]
  ++ patches_text m.

(** What is left of [loadXML] once the mesh arrays have been read. *)
Definition load_groups (m : Tetmesh) (mesh : LoadedMesh)
  : result (option (LoadedMesh * list TmComp * list TmPatch)) :=
  '(xmlfile, comps_out) <-
    load_comps (length (mesh_comps m)) 0 (file_lines (comps_text m)) [] ;;
  xmlfile <- expect_line (lit "</compartments>") xmlfile ;;
  '(npatches, xmlfile) <- read_size 19 17 xmlfile ;;
  '(xmlfile, patches_out) <-
    load_patches (Z.to_nat npatches) 0 xmlfile comps_out [] ;;
  xmlfile <- expect_line (lit "</patches>") xmlfile ;;
  Ok (Some (mesh, comps_out, patches_out)).

(** Once the compartments are read, what is left of [loadXML]. *)
Definition load_patch_groups (m : Tetmesh)
  : result (option (LoadedMesh * list TmComp * list TmPatch)) :=
  '(xmlfile, patches_out) <-
    load_patches (length (mesh_patches m)) 0 (file_lines (patches_text m))
      (expected_comps m) [] ;;
  xmlfile <- expect_line (lit "</patches>") xmlfile ;;
  Ok (Some (expected_mesh m, expected_comps m, patches_out)).

End SavedText.

(** ** Concrete meshes and files *)

Section Examples.

#[local] Existing Instance IntegralFloat.

(** A one-tetrahedron mesh with a compartment, a patch and labels. *)
Definition mesh_one_tet : @Tetmesh IntegralFloat := {|
  mesh_str := lit "<steps.geom.Tetmesh; proxy of <Swig Object> >";
  mesh_verts := [(0, 0, 0); (1, 0, 0); (0, 1, 0); (0, 0, 1)];
  mesh_tris :=
    [ {| tri_verts := (0, 1, 2); tri_area := 1; tri_norm := (0, 0, -1);
         tri_tetneighb := (0, -1); tri_patch := Some (lit "mem") |};
      {| tri_verts := (0, 1, 3); tri_area := 1; tri_norm := (0, -1, 0);
         tri_tetneighb := (0, -1); tri_patch := None |} ];
  mesh_tets :=
    [ {| tet_verts := (0, 1, 2, 3); tet_vol := 1; tet_baryc := (0, 0, 0);
         tet_trineighb := (0, 1, 2, 3); tet_tetneighb := (-1, -1, -1, -1);
         tet_comp := Some (lit "cyt") |} ];
  mesh_comps := [ {| mc_id := lit "cyt"; mc_volsys := [lit "vs1"; lit "vs2"] |} ];
  mesh_patches :=
    [ {| mp_id := lit "mem"; mp_surfsys := [lit "ss"]; mp_icomp := lit "cyt";
         mp_ocomp := None |} ]
|}.

(** The same mesh with a second compartment that owns no tetrahedron. *)
Definition mesh_memberless_comp : @Tetmesh IntegralFloat := {|
  mesh_str := mesh_str mesh_one_tet;
  mesh_verts := mesh_verts mesh_one_tet;
  mesh_tris := mesh_tris mesh_one_tet;
  mesh_tets := mesh_tets mesh_one_tet;
  mesh_comps := mesh_comps mesh_one_tet
                ++ [ {| mc_id := lit "er"; mc_volsys := [] |} ];
  mesh_patches := mesh_patches mesh_one_tet
|}.

(** The one-tetrahedron mesh with a label that holds a comma, and with
    an outer compartment by the name the writer uses for none. *)
Definition mesh_comma_label : @Tetmesh IntegralFloat := {|
  mesh_str := mesh_str mesh_one_tet;
  mesh_verts := mesh_verts mesh_one_tet;
  mesh_tris := mesh_tris mesh_one_tet;
  mesh_tets := mesh_tets mesh_one_tet;
  mesh_comps := [ {| mc_id := lit "cyt"; mc_volsys := [lit "a,b"] |} ];
  mesh_patches := mesh_patches mesh_one_tet
|}.

Definition mesh_outer_null : @Tetmesh IntegralFloat := {|
  mesh_str := mesh_str mesh_one_tet;
  mesh_verts := mesh_verts mesh_one_tet;
  mesh_tris := mesh_tris mesh_one_tet;
  mesh_tets := mesh_tets mesh_one_tet
    ++ [ {| tet_verts := (0, 1, 2, 3); tet_vol := 1; tet_baryc := (0, 0, 0);
            tet_trineighb := (0, 1, 2, 3); tet_tetneighb := (0, -1, -1, -1);
            tet_comp := Some (lit "null") |} ];
  mesh_comps := mesh_comps mesh_one_tet
                ++ [ {| mc_id := lit "null"; mc_volsys := [] |} ];
  mesh_patches :=
    [ {| mp_id := lit "mem"; mp_surfsys := [lit "ss"]; mp_icomp := lit "cyt";
         mp_ocomp := Some (lit "null") |} ]
|}.

(** The labels of the compartments and the outer compartments of the
    patches that a call returned. *)
Definition loaded_labels {M} (r : result (option (M * list TmComp * list TmPatch)))
  : list (list str) :=
  match r with
  | Ok (Some (_, comps, _)) => map comp_volsys comps
  | _ => []
  end.

Definition loaded_outer {M} (r : result (option (M * list TmComp * list TmPatch)))
  : list (option str) :=
  match r with
  | Ok (Some (_, _, patches)) =>
    map (fun p => option_map comp_id (patch_ocomp p)) patches
  | _ => []
  end.

(** Two nodes and one element, and no [.face] file. *)
Definition fs_node_ele : filesystem := fs_of
  [ ("m.node", ["2 3 0 0"; "1 0.0 0.0 0.0"; "2 1.0 0.0 0.0"]);
    ("m.ele", ["1 4 0"; "1 1 2 1 2"]) ]%string.

(** Three nodes, a blank line after the first record. *)
Definition fs_blank_line : filesystem := fs_of
  [ ("m.node", ["3 3 0 0"; "0 0.0 0.0 0.0"; ""; "1 1.0 0.0 0.0";
                "2 0.0 1.0 0.0"]);
    ("m.ele", ["1 4 0"; "0 0 1 2 0"]);
    ("m.face", ["1 0"; "0 0 1 2"]) ]%string.

(** The same three nodes without the blank line. *)
Definition fs_no_blank_line : filesystem := fs_of
  [ ("m.node", ["3 3 0 0"; "0 0.0 0.0 0.0"; "1 1.0 0.0 0.0";
                "2 0.0 1.0 0.0"]);
    ("m.ele", ["1 4 0"; "0 0 1 2 0"]);
    ("m.face", ["1 0"; "0 0 1 2"]) ]%string.

(** A file set numbered from 1, each file with a comment line under its
    header, and the same file set numbered from 0. *)
Definition fs_one_based : filesystem := fs_of
  [ ("m.node", ["2 3 0 0"; "# nodes"; "1 0.0 0.0 0.0"; "2 1.0 0.0 0.0"]);
    ("m.ele", ["2 4 0"; "# tets"; "1 1 2 1 2"; "2 2 1 2 1"]);
    ("m.face", ["2 0"; "# faces"; "1 1 2 1"; "2 2 1 2"]) ]%string.

Definition fs_zero_based : filesystem := fs_of
  [ ("m.node", ["2 3 0 0"; "# nodes"; "0 0.0 0.0 0.0"; "1 1.0 0.0 0.0"]);
    ("m.ele", ["2 4 0"; "# tets"; "0 0 1 0 1"; "1 1 0 1 0"]);
    ("m.face", ["2 0"; "# faces"; "0 0 1 0"; "1 1 0 1"]) ]%string.

(** The same two file sets with the comment line at the end of each
    file, where TetGen writes it. *)
Definition fs_one_based_tail : filesystem := fs_of
  [ ("m.node", ["2 3 0 0"; "1 0.0 0.0 0.0"; "2 1.0 0.0 0.0"; "# nodes"]);
    ("m.ele", ["2 4 0"; "1 1 2 1 2"; "2 2 1 2 1"; "# tets"]);
    ("m.face", ["2 0"; "1 1 2 1"; "2 2 1 2"; "# faces"]) ]%string.

Definition fs_zero_based_tail : filesystem := fs_of
  [ ("m.node", ["2 3 0 0"; "0 0.0 0.0 0.0"; "1 1.0 0.0 0.0"; "# nodes"]);
    ("m.ele", ["2 4 0"; "0 0 1 0 1"; "1 1 0 1 0"; "# tets"]);
    ("m.face", ["2 0"; "0 0 1 0"; "1 1 0 1"; "# faces"]) ]%string.

(** One ten-node element with region attribute 77; its fifth node
    reference is 5. *)
Definition ele_ten_node : list string :=
  ["1 10 1"; "1 1 2 1 2 5 6 7 8 9 10 77"]%string.

Definition fs_ten_node : filesystem := fs_of
  [ ("m.node", ["2 3 0 0"; "1 0.0 0.0 0.0"; "2 1.0 0.0 0.0"]);
    ("m.ele", ele_ten_node);
    ("m.face", ["1 0"; "1 1 2 1"]) ]%string.

(** Two elements declared with attributes, a blank line between them. *)
Definition ele_short_column : list string :=
  ["2 4 1"; "1 1 2 1 2 7"; ""; "2 2 1 2 1 7"]%string.

(** A CUBIT file with two nodes and one element; the node ids start
    at 7. *)
Definition cubit_lines : list string :=
  ["*HEADING"; "cubit(mesh.inp): 11/03/2008: 10:00:00"; "*NODE";
   "       7,    1.0,    2.0,    3.0";
   "       8,    0.0,    0.0,    1.0";
   "*ELEMENT, TYPE=C3D4, ELSET=EB1";
   "       1,       5,       1,       2,       3"]%string.

End Examples.

(** ** Notions for the further properties *)

(** The headers that let the import go on: every field an integer, a
    positive count, and the values the assertions ask for. *)
Definition node_header_ok (h : list (result Z)) : bool :=
  match h with
  | [Ok nnodes; Ok ndims; Ok _; Ok _] => (0 <? nnodes) && (ndims =? 3)
  | _ => false
  end.

Definition ele_header_ok (h : list (result Z)) : bool :=
  match h with
  | [Ok ntets; Ok nodespertet; Ok tetregattrib] =>
    (0 <? ntets) && ((nodespertet =? 4) || (nodespertet =? 10))
    && ((tetregattrib =? 0) || (tetregattrib =? 1))
  | _ => false
  end.

Definition face_header_ok (h : list (result Z)) : bool :=
  match h with
  | [Ok nfaces; Ok faceregattrib] =>
    (0 <? nfaces) && ((faceregattrib =? 0) || (faceregattrib =? 1))
  | _ => false
  end.

(** The count a header declares, 0 when there is none. *)
Definition declared_count (h : list (result Z)) : Z :=
  match h with
  | Ok n :: _ => n
  | _ => 0
  end.

(** A numpy array of [rows] rows and [cols] columns. *)
Definition has_shape {A} (rows cols : Z) (a : list (list A)) : Prop :=
  len a = rows /\ Forall (fun r => len r = cols) a.



(** Two files with the same header line whose record lines hold the same
    fields: they may differ in spacing and in what follows a [#]. *)
Definition same_fields (fa fb : file) : Prop :=
  fst (readline fa) = fst (readline fb)
  /\ Forall2 (fun la lb => data_tokens la = data_tokens lb)
       (snd (readline fa)) (snd (readline fb)).

Definition tetgen_same_fields (fsa fsb : filesystem) (pathroot : str)
  : Prop :=
  opt_rel (fun ta tb => same_fields (file_lines ta) (file_lines tb))
    (fsa (pathroot ++ lit ".node")) (fsb (pathroot ++ lit ".node"))
  /\ opt_rel (fun ta tb => same_fields (file_lines ta) (file_lines tb))
       (fsa (pathroot ++ lit ".ele")) (fsb (pathroot ++ lit ".ele"))
  /\ opt_rel (fun ta tb => same_fields (file_lines ta) (file_lines tb))
       (fsa (pathroot ++ lit ".face")) (fsb (pathroot ++ lit ".face")).

(** [c] is the first position at which [id] occurs in [ids]. *)
Definition first_at (ids : list str) (id : str) (c : nat) : Prop :=
  nth_error ids c = Some id /\ ~ In id (firstn c ids).

(** The element of index [x] is owned by the group of id [id]. *)
Definition owned_by (owners : list (option str)) (x : Z) (id : str) : Prop :=
  0 <= x /\ nth_error owners (Z.to_nat x) = Some (Some id).

(** ** Further concrete files *)

Section MoreExamples.

#[local] Existing Instance IntegralFloat.

(** A file set whose [.node] header declares two dimensions. *)
Definition fs_two_dims : filesystem := fs_of
  [ ("m.node", ["2 2 0 0"; "0 0.0 0.0"; "1 1.0 0.0"]);
    ("m.ele", ["1 4 0"; "0 0 1 0 1"]);
    ("m.face", ["1 0"; "0 0 1 0"]) ]%string.

(** What [readTetgen] makes of the three-node file set. *)
Definition mesh_three_nodes : @TetgenMesh IntegralFloat := {|
  tg_nodes := [Some 0; Some 0; Some 0; Some 1; Some 0; Some 0;
               Some 0; Some 1; Some 0];
  tg_tets := [Some 0; Some 1; Some 2; Some 0];
  tg_faces := [Some 0; Some 1; Some 2];
  tg_comps := []; tg_patches := []
|}.

(** The three-node file set written with comments behind the records and
    with other spacing. *)
Definition fs_commented : filesystem := fs_of
  [ ("m.node", ["3 3 0 0"; "0   0.0 0.0 0.0 # origin"; "1 1.0 0.0 0.0";
                "2 0.0   1.0 0.0# last"]);
    ("m.ele", ["1 4 0"; "  0 0 1 2 0  # the only one"]);
    ("m.face", ["1 0"; "0 0 1 2#"]) ]%string.




(** A CUBIT file that ends in its node section. *)
Definition cubit_lines_nodes_only : list string :=
  ["*HEADING"; "cubit(mesh.inp): 11/03/2008: 10:00:00"; "*NODE";
   "       7,    1.0,    2.0,    3.0";
   "       8,    0.0,    0.0,    1.0"]%string.

(** The two-node CUBIT file with a blank line at its end. *)
Definition cubit_lines_blank_end : list string :=
  (cubit_lines ++ [""%string])%list.

End MoreExamples.

(** ** Proof steps *)

(** One step through a [bind] chain that is known to return: a
    computation that is already a value is passed to what follows, any
    other is named, with the pairs it binds taken apart. *)
Ltac split_pairs v :=
  let T := type of v in
  let T := eval hnf in T in
  match T with
  | (_ * _)%type =>
    let a := fresh "a" in
    let b := fresh "b" in
    destruct v as [a b]; try split_pairs a
  | _ => idtac
  end.

Ltac bind_step H :=
  first
    [ progress cbn [bind] in H
    | match type of H with
      | bind ?r _ = Ok _ =>
        let E := fresh "E" in
        let v := fresh "v" in
        destruct r as [v|] eqn:E; cbn [bind] in H; [|discriminate H];
        try split_pairs v
      end ].

(** Two concrete file sets are relabellings of each other: every line
    is compared token by token. *)
Ltac relabelled_files :=
  unfold tetgen_relabelled, file_relabelled; cbn;
  repeat first [ split | constructor | reflexivity ].

(** * Text lemmas *)

Lemma str_eqb_refl (a : str) : str_eqb a a = true.
Proof. unfold str_eqb. destruct (list_eq_dec ascii_dec a a); congruence. Qed.

Lemma str_eqb_eq (a b : str) : str_eqb a b = true <-> a = b.
Proof.
  unfold str_eqb. destruct (list_eq_dec ascii_dec a b); split; congruence.
Qed.

Lemma str_eqb_neq (a b : str) : str_eqb a b = false <-> a <> b.
Proof.
  unfold str_eqb. destruct (list_eq_dec ascii_dec a b); split; congruence.
Qed.

Lemma nonl_app a b : nonl (a ++ b) = nonl a && nonl b.
Proof. apply forallb_app. Qed.

Lemma file_lines_line (body rest : str) :
  nonl body = true ->
  file_lines (body ++ [NL] ++ rest) = (body ++ [NL]) :: file_lines rest.
Proof.
  induction body as [|c body IH]; intros H.
  - reflexivity.
  - simpl in H. apply andb_true_iff in H as [Hc Hb].
    specialize (IH Hb).
    cbn [app file_lines] in *.
    destruct (Ascii.eqb c NL); [discriminate|].
    rewrite IH. reflexivity.
Qed.

(** Stripping *)

Lemma lstrip_all p a r :
  forallb p a = true -> lstrip_with p (a ++ r) = lstrip_with p r.
Proof.
  induction a as [|c a IH]; simpl; intros H; [reflexivity|].
  apply andb_true_iff in H as [-> H]. auto.
Qed.

Lemma lstrip_stop p c r : p c = false -> lstrip_with p (c :: r) = c :: r.
Proof. simpl. now intros ->. Qed.

Lemma rstrip_all p l b :
  forallb p b = true -> rstrip_with p (l ++ b) = rstrip_with p l.
Proof.
  intros H. unfold rstrip_with. rewrite rev_app_distr.
  rewrite lstrip_all; [reflexivity|].
  rewrite forallb_forall in *. intros x Hx. apply H. now apply in_rev.
Qed.

Lemma rstrip_stop p l c : p c = false -> rstrip_with p (l ++ [c]) = l ++ [c].
Proof.
  intros H. unfold rstrip_with. rewrite rev_app_distr. simpl.
  rewrite H. simpl. rewrite rev_involutive. reflexivity.
Qed.

Lemma lstrip_head_ok p s r :
  head_ok p s = true -> lstrip_with p (s ++ r) = s ++ r.
Proof.
  destruct s as [|c s]; simpl; [discriminate|].
  intros H. apply negb_true_iff in H. now rewrite H.
Qed.

Lemma rstrip_last_ok p l s :
  last_ok p s = true -> rstrip_with p (l ++ s) = l ++ s.
Proof.
  unfold last_ok. intros H.
  destruct (rev s) as [|c r] eqn:E; simpl in H; [discriminate|].
  apply negb_true_iff in H.
  assert (s = rev r ++ [c]) as ->.
  { rewrite <- (rev_involutive s), E. reflexivity. }
  rewrite app_assoc. now apply rstrip_stop.
Qed.

Lemma last_ok_app p a b : last_ok p b = true -> last_ok p (a ++ b) = true.
Proof.
  unfold last_ok. rewrite rev_app_distr.
  destruct (rev b); simpl; [discriminate|auto].
Qed.

Lemma head_ok_app p a b : head_ok p a = true -> head_ok p (a ++ b) = true.
Proof. destruct a; simpl; [discriminate|auto]. Qed.

(** A line of the writer: indentation, an opening literal, a body, a
    closing literal and the newline. *)
Lemma strip_tagged n o body c :
  head_ok is_space o = true -> last_ok is_space c = true ->
  strip (tabs n ++ o ++ body ++ c ++ [NL]) = o ++ body ++ c.
Proof.
  intros Ho Hc. unfold strip, strip_with.
  rewrite lstrip_all.
  2:{ unfold tabs. apply forallb_forall. intros x Hx.
      apply repeat_spec in Hx. now subst. }
  rewrite lstrip_head_ok by assumption.
  replace (o ++ body ++ c ++ [NL]) with ((o ++ body ++ c) ++ [NL])
    by now rewrite <- !app_assoc.
  rewrite rstrip_all by reflexivity.
  rewrite app_assoc. rewrite rstrip_last_ok by assumption.
  now rewrite <- app_assoc.
Qed.

Lemma strip_fixed n o :
  head_ok is_space o = true -> last_ok is_space o = true ->
  strip (tabs n ++ o ++ [NL]) = o.
Proof.
  intros Ho Hc. unfold strip, strip_with.
  rewrite lstrip_all.
  2:{ unfold tabs. apply forallb_forall. intros x Hx.
      apply repeat_spec in Hx. now subst. }
  rewrite lstrip_head_ok by assumption.
  rewrite rstrip_all by reflexivity.
  rewrite <- (app_nil_l o) at 1. rewrite rstrip_last_ok by assumption.
  reflexivity.
Qed.

(** Slices *)

Lemma len_app {A} (a b : list A) : len (a ++ b) = len a + len b.
Proof. unfold len. rewrite length_app. lia. Qed.

Lemma len_nonneg {A} (a : list A) : 0 <= len a.
Proof. unfold len. lia. Qed.

Lemma slice_middle {A} (o m c : list A) (lo hi : Z) :
  lo = len o -> hi = - len c -> hi < 0 ->
  py_slice (Some lo) (Some hi) (o ++ m ++ c) = m.
Proof.
  intros -> -> H. unfold py_slice, slice_bound.
  fold (len (o ++ m ++ c)). rewrite !len_app.
  pose proof (len_nonneg o). pose proof (len_nonneg m).
  pose proof (len_nonneg c).
  destruct (len o <? 0) eqn:E1; [apply Z.ltb_lt in E1; lia|].
  destruct (- len c <? 0) eqn:E2; [|apply Z.ltb_ge in E2; lia].
  rewrite (Z.min_l (len o)) by lia. rewrite (Z.max_r 0 (len o)) by lia.
  rewrite Z.min_l by lia. rewrite Z.max_r by lia.
  replace (Z.to_nat (len o)) with (length o) by (unfold len; lia).
  rewrite skipn_app, skipn_all, Nat.sub_diag. simpl.
  replace (Z.to_nat (- len c + (len o + (len m + len c)) - len o))
    with (length m + 0)%nat by (unfold len; lia).
  rewrite firstn_app_2. simpl. apply app_nil_r.
Qed.

Lemma slice_prefix {A} (o r : list A) (k : Z) :
  k = len o -> py_slice None (Some k) (o ++ r) = o.
Proof.
  intros ->. unfold py_slice, slice_bound.
  fold (len (o ++ r)). rewrite len_app.
  pose proof (len_nonneg o). pose proof (len_nonneg r).
  destruct (len o <? 0) eqn:E1; [apply Z.ltb_lt in E1; lia|].
  rewrite Z.min_l by lia. rewrite Z.max_r by lia.
  simpl skipn. rewrite Z.sub_0_r.
  replace (Z.to_nat (len o)) with (length o + 0)%nat by (unfold len; lia).
  rewrite firstn_app_2. simpl. apply app_nil_r.
Qed.

Lemma slice_suffix {A} (l c : list A) (k : Z) :
  k = - len c -> k < 0 -> py_slice (Some k) None (l ++ c) = c.
Proof.
  intros -> H. unfold py_slice, slice_bound.
  fold (len (l ++ c)). rewrite len_app.
  pose proof (len_nonneg l). pose proof (len_nonneg c).
  destruct (- len c <? 0) eqn:E2; [|apply Z.ltb_ge in E2; lia].
  rewrite Z.min_l by lia. rewrite Z.max_r by lia.
  replace (Z.to_nat (- len c + (len l + len c))) with (length l)
    by (unfold len; lia).
  rewrite skipn_app, skipn_all, Nat.sub_diag. simpl.
  apply firstn_all2. unfold len. lia.
Qed.

(** Splitting *)

Lemma lacks_app c0 a b : lacks c0 (a ++ b) = lacks c0 a && lacks c0 b.
Proof. apply forallb_app. Qed.

Section Split.

Variables (c0 : ascii) (sep' : str).
Let sep := c0 :: sep'.

Lemma split_go_token a : forall cur r,
  lacks c0 a = true ->
  split_go sep (a ++ r) O cur = split_go sep r O (rev a ++ cur).
Proof.
  induction a as [|c a IH]; intros cur r H; [reflexivity|].
  simpl in H. apply andb_true_iff in H as [Hc Ha].
  apply negb_true_iff in Hc.
  cbn [app split_go sep starts_with]. rewrite Hc. cbn [andb].
  rewrite IH by assumption. cbn [rev]. now rewrite <- app_assoc.
Qed.

Lemma split_go_skip s : forall r cur,
  split_go sep (s ++ r) (length s) cur = split_go sep r O cur.
Proof.
  induction s as [|c s IH]; intros r cur; [reflexivity|].
  cbn [app length split_go]. apply IH.
Qed.

Lemma starts_with_app s r : starts_with s (s ++ r) = true.
Proof.
  induction s as [|c s IH]; [reflexivity|].
  cbn [app starts_with]. now rewrite Ascii.eqb_refl, IH.
Qed.

Lemma split_go_sep r cur :
  split_go sep (sep ++ r) O cur = rev cur :: split_go sep r O [].
Proof.
  unfold sep at 2. cbn [app split_go].
  change (c0 :: sep' ++ r) with (sep ++ r).
  rewrite starts_with_app. f_equal.
  unfold sep at 2. cbn [length pred]. apply split_go_skip.
Qed.

Lemma split_on_cons a r :
  lacks c0 a = true -> split_on sep (a ++ sep ++ r) = a :: split_on sep r.
Proof.
  intros H. unfold split_on. rewrite split_go_token by assumption.
  rewrite split_go_sep. now rewrite app_nil_r, rev_involutive.
Qed.

Lemma split_on_last a :
  lacks c0 a = true -> split_on sep a = [a].
Proof.
  intros H. unfold split_on. rewrite <- (app_nil_r a) at 1.
  rewrite split_go_token by assumption. cbn [split_go].
  now rewrite app_nil_r, rev_involutive.
Qed.

End Split.

(** Plain text: what a number looks like. Non-empty, and free of
    whitespace, commas and parentheses. *)

Lemma plain_forall s : plain s = true -> forallb plain_char s = true.
Proof. destruct s; [discriminate|auto]. Qed.

Lemma plain_weaken (q : ascii -> bool) s :
  (forall c, plain_char c = true -> q c = true) ->
  plain s = true -> forallb q s = true.
Proof.
  intros Hq H. apply plain_forall in H.
  rewrite forallb_forall in *. auto.
Qed.

Lemma plain_nonl s : plain s = true -> nonl s = true.
Proof.
  apply plain_weaken. intros c. unfold plain_char.
  destruct (Ascii.eqb_spec c NL); [subst; discriminate|reflexivity].
Qed.

Lemma plain_lacks_sp s : plain s = true -> lacks SP s = true.
Proof.
  apply plain_weaken. intros c. unfold plain_char.
  destruct (Ascii.eqb_spec SP c); [subst; discriminate|reflexivity].
Qed.

Lemma plain_lacks_comma s : plain s = true -> lacks COMMA s = true.
Proof.
  apply plain_weaken. intros c. unfold plain_char.
  rewrite (Ascii.eqb_sym COMMA c).
  destruct (Ascii.eqb c COMMA); [|reflexivity].
  rewrite andb_false_r. discriminate.
Qed.

Lemma plain_head_ok (p : ascii -> bool) s :
  (forall c, plain_char c = true -> p c = false) ->
  plain s = true -> head_ok p s = true.
Proof.
  intros Hp H. destruct s as [|c s]; [discriminate|].
  simpl in *. apply andb_true_iff in H as [H _]. now rewrite (Hp c H).
Qed.

Lemma plain_last_ok (p : ascii -> bool) s :
  (forall c, plain_char c = true -> p c = false) ->
  plain s = true -> last_ok p s = true.
Proof.
  intros Hp H. unfold last_ok.
  assert (Hf : forallb plain_char (rev s) = true).
  { apply plain_forall in H. rewrite forallb_forall in *.
    intros x Hx. apply H. now apply in_rev. }
  destruct (rev s) as [|c r] eqn:E.
  - destruct s; [discriminate|]. simpl in E.
    now destruct (rev s).
  - simpl in *. apply andb_true_iff in Hf as [Hf _]. now rewrite (Hp c Hf).
Qed.

Lemma plain_not_space c : plain_char c = true -> is_space c = false.
Proof.
  unfold plain_char. destruct (is_space c); [discriminate|reflexivity].
Qed.

Lemma plain_not_rpar c : plain_char c = true -> Ascii.eqb RPAR c = false.
Proof.
  unfold plain_char. rewrite (Ascii.eqb_sym RPAR c).
  destruct (Ascii.eqb c RPAR); [|reflexivity].
  rewrite andb_false_r. discriminate.
Qed.

Lemma plain_not_lpar c : plain_char c = true -> Ascii.eqb LPAR c = false.
Proof.
  unfold plain_char. rewrite (Ascii.eqb_sym LPAR c).
  destruct (Ascii.eqb c LPAR); [|reflexivity].
  rewrite andb_false_r, andb_false_l. discriminate.
Qed.

(** Integers *)

Lemma digits_of_uint (d : Decimal.uint) :
  forallb digit_char
    (list_ascii_of_string (DecimalString.NilEmpty.string_of_uint d)) = true.
Proof. induction d; simpl; auto. Qed.

Lemma digit_plain c : digit_char c = true -> plain_char c = true.
Proof.
  destruct c as [[|] [|] [|] [|] [|] [|] [|] [|]]; simpl;
    (discriminate || reflexivity).
Qed.

Lemma pos_text_nonnil p :
  list_ascii_of_string
    (DecimalString.NilEmpty.string_of_uint (Pos.to_uint p)) <> [].
Proof.
  pose proof (DecimalPos.Unsigned.to_uint_nonnil p) as H.
  destruct (Pos.to_uint p); simpl; congruence.
Qed.

Lemma py_str_int_pos p :
  py_str_int (Zpos p) =
  list_ascii_of_string (DecimalString.NilEmpty.string_of_uint (Pos.to_uint p)).
Proof.
  unfold py_str_int. simpl.
  pose proof (DecimalPos.Unsigned.to_uint_nonnil p) as H.
  destruct (Pos.to_uint p); simpl; congruence.
Qed.

Lemma py_str_int_neg p :
  py_str_int (Zneg p) =
  "-"%char ::
  list_ascii_of_string (DecimalString.NilEmpty.string_of_uint (Pos.to_uint p)).
Proof.
  unfold py_str_int. simpl.
  pose proof (DecimalPos.Unsigned.to_uint_nonnil p) as H.
  destruct (Pos.to_uint p); simpl; congruence.
Qed.

Lemma forallb_impl {A} (p q : A -> bool) l :
  (forall x, p x = true -> q x = true) ->
  forallb p l = true -> forallb q l = true.
Proof. intros H. rewrite !forallb_forall. auto. Qed.

Lemma py_str_int_plain z : plain (py_str_int z) = true.
Proof.
  destruct z as [|p|p].
  - reflexivity.
  - rewrite py_str_int_pos. pose proof (pos_text_nonnil p) as Hn.
    pose proof (digits_of_uint (Pos.to_uint p)) as Hd.
    unfold plain. destruct (list_ascii_of_string _); [congruence|].
    revert Hd. apply forallb_impl, digit_plain.
  - rewrite py_str_int_neg. unfold plain. cbn [forallb].
    apply andb_true_iff. split; [reflexivity|].
    generalize (digits_of_uint (Pos.to_uint p)).
    apply forallb_impl, digit_plain.
Qed.

Lemma strip_plain s : plain s = true -> strip s = s.
Proof.
  intros H. unfold strip, strip_with.
  rewrite <- (app_nil_r s) at 1.
  rewrite lstrip_head_ok by (apply plain_head_ok; auto using plain_not_space).
  rewrite app_nil_r. rewrite <- (app_nil_l s) at 1.
  rewrite rstrip_last_ok by (apply plain_last_ok; auto using plain_not_space).
  reflexivity.
Qed.

Lemma digits_value_pos p :
  digits_value
    (list_ascii_of_string
       (DecimalString.NilEmpty.string_of_uint (Pos.to_uint p)))
  = Some (Zpos p).
Proof.
  unfold digits_value. pose proof (pos_text_nonnil p) as Hn.
  destruct (list_ascii_of_string _) eqn:E; [congruence|].
  rewrite <- E. rewrite string_of_list_ascii_of_string.
  rewrite DecimalString.NilEmpty.usu. simpl. unfold Z.of_uint.
  now rewrite DecimalPos.Unsigned.of_to.
Qed.

Lemma py_int_str z : py_int (py_str_int z) = Ok z.
Proof.
  unfold py_int. rewrite strip_plain by apply py_str_int_plain.
  destruct z as [|p|p].
  - reflexivity.
  - rewrite py_str_int_pos.
    pose proof (digits_value_pos p) as Hv.
    pose proof (digits_of_uint (Pos.to_uint p)) as Hd.
    pose proof (pos_text_nonnil p) as Hn.
    destruct (list_ascii_of_string _) as [|c r]; [congruence|].
    simpl in Hd. apply andb_true_iff in Hd as [Hc _].
    destruct c as [[|] [|] [|] [|] [|] [|] [|] [|]]; simpl in Hc;
      try discriminate; rewrite Hv; reflexivity.
  - rewrite py_str_int_neg. rewrite digits_value_pos. reflexivity.
Qed.

(** [int] reads a number followed by a newline. *)
Lemma strip_plain_ws s ws :
  plain s = true -> forallb is_space ws = true -> strip (s ++ ws) = s.
Proof.
  intros H Hws. unfold strip, strip_with.
  rewrite lstrip_head_ok by (apply plain_head_ok; auto using plain_not_space).
  rewrite rstrip_all by assumption.
  rewrite <- (app_nil_l s) at 1.
  rewrite rstrip_last_ok by (apply plain_last_ok; auto using plain_not_space).
  reflexivity.
Qed.

Lemma py_int_str_nl z : py_int (py_str_int z ++ [NL]) = Ok z.
Proof.
  assert (E : strip (py_str_int z ++ [NL]) = strip (py_str_int z)).
  { rewrite strip_plain_ws by (auto using py_str_int_plain).
    symmetry. apply strip_plain, py_str_int_plain. }
  unfold py_int. rewrite E. exact (py_int_str z).
Qed.

(** Tuples *)

Lemma tuple_body_plain (a : str) (mid : str) (c : str) :
  plain a = true -> plain c = true ->
  strip_chr LPAR (strip_chr RPAR ([LPAR] ++ a ++ mid ++ c ++ [RPAR]))
  = a ++ mid ++ c.
Proof.
  intros Ha Hc. unfold strip_chr, strip_with.
  (* strip(')') *)
  cbn [app]. rewrite lstrip_stop by reflexivity.
  replace (LPAR :: a ++ mid ++ c ++ [RPAR])
    with ((LPAR :: a ++ mid ++ c) ++ [RPAR])
    by (cbn [app]; now rewrite <- !app_assoc).
  rewrite rstrip_all by reflexivity.
  replace (LPAR :: a ++ mid ++ c) with ((LPAR :: a ++ mid) ++ c)
    by (cbn [app]; now rewrite <- !app_assoc).
  rewrite rstrip_last_ok by (apply plain_last_ok; auto using plain_not_rpar).
  (* strip('(') *)
  cbn [app]. cbn [lstrip_with]. rewrite Ascii.eqb_refl.
  rewrite <- app_assoc.
  rewrite lstrip_head_ok by (apply plain_head_ok; auto using plain_not_lpar).
  rewrite app_assoc.
  rewrite rstrip_last_ok by (apply plain_last_ok; auto using plain_not_lpar).
  now rewrite <- app_assoc.
Qed.

(** * The reader on the lines of the writer *)

Lemma nonl_tabs n : nonl (tabs n) = true.
Proof.
  apply forallb_forall. intros x Hx. apply repeat_spec in Hx. now subst.
Qed.

Lemma file_lines_tagged n o body c rest :
  nonl o = true -> nonl body = true -> nonl c = true ->
  file_lines (tabs n ++ o ++ body ++ c ++ [NL] ++ rest)
  = (tabs n ++ o ++ body ++ c ++ [NL]) :: file_lines rest.
Proof.
  intros Ho Hb Hc.
  replace (tabs n ++ o ++ body ++ c ++ [NL] ++ rest)
    with ((tabs n ++ o ++ body ++ c) ++ [NL] ++ rest)
    by now rewrite <- !app_assoc.
  rewrite file_lines_line.
  - now rewrite <- !app_assoc.
  - now rewrite !nonl_app, nonl_tabs, Ho, Hb, Hc.
Qed.

Lemma file_lines_fixed n o rest :
  nonl o = true ->
  file_lines (tabs n ++ o ++ [NL] ++ rest)
  = (tabs n ++ o ++ [NL]) :: file_lines rest.
Proof.
  intros Ho.
  replace (tabs n ++ o ++ [NL] ++ rest)
    with ((tabs n ++ o) ++ [NL] ++ rest)
    by now rewrite <- !app_assoc.
  rewrite file_lines_line.
  - now rewrite <- !app_assoc.
  - now rewrite !nonl_app, nonl_tabs, Ho.
Qed.

Lemma expect_line_saved n o rest :
  nonl o = true -> head_ok is_space o = true -> last_ok is_space o = true ->
  expect_line o (file_lines (tabs n ++ o ++ [NL] ++ rest))
  = Ok (file_lines rest).
Proof.
  intros Hn Hh Hl. rewrite file_lines_fixed by assumption.
  unfold expect_line. cbn [readline].
  rewrite strip_fixed by assumption. now rewrite str_eqb_refl.
Qed.

Lemma read_tagged_saved n ko o kc c body rest :
  nonl o = true -> nonl c = true -> nonl body = true ->
  head_ok is_space o = true -> last_ok is_space c = true ->
  ko = len o -> kc = len c -> 0 < kc ->
  read_tagged ko o kc c (file_lines (tabs n ++ o ++ body ++ c ++ [NL] ++ rest))
  = Ok (body, file_lines rest).
Proof.
  intros Ho Hc Hb Hh Hl -> -> Hk.
  rewrite file_lines_tagged by assumption.
  unfold read_tagged. cbn [readline].
  rewrite strip_tagged by assumption.
  rewrite slice_prefix by reflexivity.
  rewrite (app_assoc o body c) at 1.
  rewrite slice_suffix by (reflexivity || lia).
  rewrite !str_eqb_refl. cbn [andb py_assert bind].
  rewrite slice_middle by (reflexivity || lia). reflexivity.
Qed.

Lemma attr_close_facts :
  nonl attr_close = true /\ last_ok is_space attr_close = true
  /\ len attr_close = 2.
Proof. repeat split; reflexivity. Qed.

Lemma read_idx_saved n tag k i rest :
  k = len (attr_open tag "idx") -> nonl (attr_open tag "idx") = true ->
  read_idx k i
    (file_lines (tabs n ++ attr_open tag "idx" ++ py_str_int i
                   ++ attr_close ++ [NL] ++ rest))
  = Ok (file_lines rest).
Proof.
  intros -> Hn.
  rewrite file_lines_tagged
    by (auto using plain_nonl, py_str_int_plain).
  unfold read_idx. cbn [readline].
  rewrite strip_tagged by reflexivity.
  rewrite slice_middle by (reflexivity || lia).
  rewrite py_int_str. cbn [bind]. rewrite Z.eqb_refl. reflexivity.
Qed.

Lemma len_py_str_int_pos z : 0 < len (py_str_int z).
Proof.
  pose proof (py_str_int_plain z) as H.
  destruct (py_str_int z); [discriminate|]. unfold len. simpl. lia.
Qed.

Lemma read_size_saved n tag minlen k v rest :
  k = len (attr_open tag "size") -> nonl (attr_open tag "size") = true ->
  minlen <= k + 2 ->
  read_size minlen k
    (file_lines (tabs n ++ attr_open tag "size" ++ py_str_int v
                   ++ attr_close ++ [NL] ++ rest))
  = Ok (v, file_lines rest).
Proof.
  intros -> Hn Hm.
  rewrite file_lines_tagged
    by (auto using plain_nonl, py_str_int_plain).
  unfold read_size. cbn [readline].
  rewrite strip_tagged by reflexivity.
  assert (Hlen : (minlen
                  <? len (attr_open tag "size" ++ py_str_int v ++ attr_close))
                 = true).
  { apply Z.ltb_lt. rewrite !len_app.
    pose proof (len_py_str_int_pos v).
    change (len attr_close) with 2. lia. }
  rewrite Hlen. cbn [py_assert bind].
  rewrite (app_assoc (attr_open tag "size") (py_str_int v) attr_close) at 1.
  rewrite slice_suffix by (reflexivity || lia).
  rewrite str_eqb_refl. cbn [py_assert bind].
  rewrite slice_middle by (reflexivity || lia).
  rewrite py_int_str. reflexivity.
Qed.

(** Arrays filled from the left *)

Lemma py_setitem_app {A} (a : list A) (x : A) (b : list A) (v : A) (k : Z) :
  k = len a -> py_setitem (a ++ x :: b) k v = Ok (a ++ v :: b).
Proof.
  intros ->. unfold py_setitem. fold (len (a ++ x :: b)).
  rewrite len_app. pose proof (len_nonneg a).
  assert (0 < len (x :: b)) by (unfold len; simpl; lia).
  destruct (len a <? 0) eqn:E; [apply Z.ltb_lt in E; lia|].
  replace (0 <=? len a) with true by (symmetry; apply Z.leb_le; lia).
  replace (len a <? len a + len (x :: b)) with true
    by (symmetry; apply Z.ltb_lt; lia).
  cbn [andb]. f_equal.
  replace (Z.to_nat (len a)) with (length a) by (unfold len; lia).
  clear. induction a as [|y a IH]; simpl; [reflexivity|now rewrite IH].
Qed.

Lemma set3_app {A} (a : list A) (x1 x2 x3 : A) (b : list A) (x y z : A) k :
  k = len a ->
  set3 (a ++ x1 :: x2 :: x3 :: b) k x y z = Ok (a ++ x :: y :: z :: b).
Proof.
  intros ->. unfold set3.
  rewrite py_setitem_app by reflexivity. cbn [bind].
  replace (a ++ x :: x2 :: x3 :: b) with ((a ++ [x]) ++ x2 :: x3 :: b)
    by now rewrite <- app_assoc.
  rewrite py_setitem_app by (rewrite len_app; reflexivity). cbn [bind].
  replace ((a ++ [x]) ++ y :: x3 :: b) with ((a ++ [x; y]) ++ x3 :: b)
    by now rewrite <- !app_assoc.
  rewrite py_setitem_app
    by (rewrite len_app; change (len [x; y]) with 2; lia).
  now rewrite <- app_assoc.
Qed.

Lemma set4_app {A} (a : list A) (x1 x2 x3 x4 : A) (b : list A)
    (x y z w : A) k :
  k = len a ->
  set4 (a ++ x1 :: x2 :: x3 :: x4 :: b) k x y z w
  = Ok (a ++ x :: y :: z :: w :: b).
Proof.
  intros ->. unfold set4.
  rewrite py_setitem_app by reflexivity. cbn [bind].
  replace (a ++ x :: x2 :: x3 :: x4 :: b)
    with ((a ++ [x]) ++ x2 :: x3 :: x4 :: b) by now rewrite <- app_assoc.
  rewrite py_setitem_app by (rewrite len_app; reflexivity). cbn [bind].
  replace ((a ++ [x]) ++ y :: x3 :: x4 :: b)
    with ((a ++ [x; y]) ++ x3 :: x4 :: b) by now rewrite <- !app_assoc.
  rewrite py_setitem_app
    by (rewrite len_app; change (len [x; y]) with 2; lia).
  cbn [bind].
  replace ((a ++ [x; y]) ++ z :: x4 :: b)
    with ((a ++ [x; y; z]) ++ x4 :: b) by now rewrite <- !app_assoc.
  rewrite py_setitem_app
    by (rewrite len_app; change (len [x; y; z]) with 3; lia).
  now rewrite <- app_assoc.
Qed.

Lemma np_zeros_len {A} (zero : A) (n : nat) (k : Z) :
  k = Z.of_nat n -> np_zeros zero k = Ok (repeat zero n).
Proof.
  intros ->. unfold np_zeros.
  destruct (Z.of_nat n <? 0) eqn:E; [apply Z.ltb_lt in E; lia|].
  now rewrite Nat2Z.id.
Qed.

(** Tuples of plain items *)

Lemma join_head_ok p sep a items :
  (forall c, plain_char c = true -> p c = false) ->
  plain a = true -> head_ok p (join sep (a :: items)) = true.
Proof.
  intros Hp Ha. destruct items; cbn [join].
  - now apply plain_head_ok.
  - apply head_ok_app. now apply plain_head_ok.
Qed.

Lemma join_last_ok p sep items :
  (forall c, plain_char c = true -> p c = false) ->
  items <> [] -> forallb plain items = true ->
  last_ok p (join sep items) = true.
Proof.
  intros Hp. induction items as [|a items IH]; intros Hn H; [congruence|].
  cbn [forallb] in H. apply andb_true_iff in H as [Ha Hi].
  destruct items as [|b items].
  - cbn [join]. now apply plain_last_ok.
  - change (join sep (a :: b :: items))
      with (a ++ sep ++ join sep (b :: items)).
    rewrite app_assoc. apply last_ok_app. apply IH; [congruence|assumption].
Qed.

Lemma strip_with_join p sep items :
  (forall c, plain_char c = true -> p c = false) ->
  items <> [] -> forallb plain items = true ->
  strip_with p (join sep items) = join sep items.
Proof.
  intros Hp Hn H. unfold strip_with.
  destruct items as [|a items]; [congruence|].
  pose proof H as H'. cbn [forallb] in H'.
  apply andb_true_iff in H' as [Ha _].
  rewrite <- (app_nil_r (join sep (a :: items))) at 1.
  rewrite lstrip_head_ok by now apply join_head_ok.
  rewrite app_nil_r.
  rewrite <- (app_nil_l (join sep (a :: items))) at 1.
  rewrite rstrip_last_ok by now apply join_last_ok.
  reflexivity.
Qed.

Lemma tuple_body_join items :
  items <> [] -> forallb plain items = true ->
  tuple_body items = join (lit ", ") items.
Proof.
  intros Hn H. unfold tuple_body, str_tuple, strip_chr.
  set (J := join (lit ", ") items).
  assert (E1 : strip_with (Ascii.eqb RPAR) ([LPAR] ++ J ++ [RPAR])
               = LPAR :: J).
  { unfold strip_with. cbn [app]. rewrite lstrip_stop by reflexivity.
    change (LPAR :: J ++ [RPAR]) with ((LPAR :: J) ++ [RPAR]).
    rewrite rstrip_all by reflexivity.
    change (LPAR :: J) with ([LPAR] ++ J).
    apply rstrip_last_ok.
    apply join_last_ok; auto using plain_not_rpar. }
  rewrite E1. unfold strip_with. cbn [lstrip_with].
  rewrite Ascii.eqb_refl.
  apply (strip_with_join (Ascii.eqb LPAR)); auto using plain_not_lpar.
Qed.

Lemma split_join c0 sep' items :
  items <> [] -> forallb (lacks c0) items = true ->
  split_on (c0 :: sep') (join (c0 :: sep') items) = items.
Proof.
  induction items as [|a items IH]; intros Hn H; [congruence|].
  cbn [forallb] in H. apply andb_true_iff in H as [Ha Hi].
  destruct items as [|b items].
  - cbn [join]. now apply split_on_last.
  - change (join (c0 :: sep') (a :: b :: items))
      with (a ++ (c0 :: sep') ++ join (c0 :: sep') (b :: items)).
    rewrite split_on_cons by assumption.
    f_equal. apply IH; [congruence|assumption].
Qed.

Lemma split_join_comma_sp items :
  items <> [] -> forallb plain items = true ->
  split_on (lit ", ") (join (lit ", ") items) = items.
Proof.
  intros Hn H. apply (split_join COMMA [SP]); [assumption|].
  revert H. apply forallb_impl, plain_lacks_comma.
Qed.

Lemma nonl_join sep items :
  nonl sep = true -> forallb nonl items = true ->
  nonl (join sep items) = true.
Proof.
  intros Hs. induction items as [|a items IH]; intros H; [reflexivity|].
  cbn [forallb] in H. apply andb_true_iff in H as [Ha Hi].
  destruct items as [|b items].
  - cbn [join]. assumption.
  - change (join sep (a :: b :: items))
      with (a ++ sep ++ join sep (b :: items)).
    rewrite !nonl_app, Ha, Hs, IH by assumption. reflexivity.
Qed.

Lemma nonl_join_comma_sp items :
  forallb plain items = true -> nonl (join (lit ", ") items) = true.
Proof.
  induction items as [|a items IH]; intros H; [reflexivity|].
  cbn [forallb] in H. apply andb_true_iff in H as [Ha Hi].
  destruct items as [|b items].
  - cbn [join]. now apply plain_nonl.
  - change (join (lit ", ") (a :: b :: items))
      with (a ++ lit ", " ++ join (lit ", ") (b :: items)).
    rewrite !nonl_app, (plain_nonl a Ha), IH by assumption. reflexivity.
Qed.

Lemma nonl_spaced toks :
  forallb plain toks = true -> nonl (spaced toks []) = true.
Proof.
  induction toks as [|a toks IH]; intros H; [reflexivity|].
  cbn [forallb] in H. apply andb_true_iff in H as [Ha Hi].
  cbn [spaced fold_right]. fold (spaced toks []).
  now rewrite !nonl_app, (plain_nonl a Ha), IH.
Qed.

Lemma spaced_app toks tail : spaced toks tail = spaced toks [] ++ tail.
Proof.
  induction toks as [|a toks IH]; [reflexivity|].
  cbn [spaced fold_right]. fold (spaced toks tail) (spaced toks []).
  now rewrite IH, <- !app_assoc.
Qed.

Lemma file_lines_spaced toks rest :
  forallb plain toks = true ->
  file_lines (spaced toks ([NL] ++ rest))
  = spaced toks [NL] :: file_lines rest.
Proof.
  intros H. rewrite (spaced_app toks ([NL] ++ rest)).
  rewrite file_lines_line by now apply nonl_spaced.
  now rewrite <- spaced_app.
Qed.

(** The tokens followed by a space each, except that the last one is
    followed by [tail]. *)
Lemma split_spaced toks :
  toks <> [] -> forallb plain toks = true ->
  split_on [SP] (rstrip (spaced toks [NL])) = toks.
Proof.
  intros Hn H.
  assert (E : rstrip (spaced toks [NL]) = join [SP] toks).
  { clear Hn. unfold rstrip.
    assert (G : forall pre, rstrip_with is_space (pre ++ spaced toks [NL])
                = match toks with
                  | [] => rstrip_with is_space pre
                  | _ => pre ++ join [SP] toks
                  end).
    { induction toks as [|a toks IH]; intros pre.
      - cbn [spaced fold_right]. now rewrite rstrip_all.
      - cbn [forallb] in H. apply andb_true_iff in H as [Ha Hi].
        cbn [spaced fold_right]. fold (spaced toks [NL]).
        destruct toks as [|b toks].
        + cbn [spaced fold_right join]. rewrite app_assoc.
          rewrite rstrip_all by reflexivity.
          apply rstrip_last_ok, plain_last_ok;
            auto using plain_not_space.
        + rewrite !app_assoc. rewrite (IH Hi).
          change (join [SP] (a :: b :: toks))
            with (a ++ [SP] ++ join [SP] (b :: toks)).
          now rewrite <- !app_assoc. }
    specialize (G []). cbn [app] in G. rewrite G.
    destruct toks; [|reflexivity].
    reflexivity. }
  rewrite E. apply (split_join SP []); [assumption|].
  revert H. apply forallb_impl, plain_lacks_sp.
Qed.

Lemma py_index_nth {A} (l : list A) (k : Z) (x : A) :
  0 <= k -> nth_error l (Z.to_nat k) = Some x -> py_index l k = Ok x.
Proof.
  intros Hk Hn. unfold py_index.
  assert (Z.to_nat k < length l)%nat by (apply nth_error_Some; congruence).
  destruct (k <? 0) eqn:E; [apply Z.ltb_lt in E; lia|].
  replace (0 <=? k) with true by (symmetry; apply Z.leb_le; lia).
  replace (k <? Z.of_nat (length l)) with true
    by (symmetry; apply Z.ltb_lt; lia).
  cbn [andb]. now rewrite Hn.
Qed.

Section Loops.

Context {PF : PyFloat} {PL : PyFloatLaws PF}.

Lemma float_at_repr (toks : list str) (k : Z) (x : float) :
  0 <= k -> nth_error toks (Z.to_nat k) = Some (float_repr x) ->
  float_at toks k = Ok x.
Proof.
  intros Hk Hn. unfold float_at. rewrite (py_index_nth _ _ _ Hk Hn).
  cbn [bind]. apply float_repr_read.
Qed.

Lemma float_at_str (toks : list str) (k : Z) (x : float) :
  0 <= k -> nth_error toks (Z.to_nat k) = Some (float_str x) ->
  float_at toks k = Ok (float_reread x).
Proof.
  intros Hk Hn. unfold float_at. rewrite (py_index_nth _ _ _ Hk Hn).
  cbn [bind]. apply float_str_read.
Qed.

Lemma int_at_str (toks : list str) (k : Z) (z : Z) :
  0 <= k -> nth_error toks (Z.to_nat k) = Some (py_str_int z) ->
  int_at toks k = Ok z.
Proof.
  intros Hk Hn. unfold int_at. rewrite (py_index_nth _ _ _ Hk Hn).
  cbn [bind]. apply py_int_str.
Qed.

Lemma repeat_3S {A} (z : A) n :
  repeat z (3 * S n) = z :: z :: z :: repeat z (3 * n).
Proof. replace (3 * S n)%nat with (S (S (S (3 * n)))) by lia. reflexivity. Qed.

Lemma repeat_4S {A} (z : A) n :
  repeat z (4 * S n) = z :: z :: z :: z :: repeat z (4 * n).
Proof.
  replace (4 * S n)%nat with (S (S (S (S (4 * n))))) by lia. reflexivity.
Qed.

Lemma repeat_2S {A} (z : A) n :
  repeat z (2 * S n) = z :: z :: repeat z (2 * n).
Proof. replace (2 * S n)%nat with (S (S (2 * n))) by lia. reflexivity. Qed.

Lemma load_nodes_saved vs : forall i done rest,
  len done = i * 3 ->
  load_nodes (length vs) i (file_lines (save_nodes i vs ++ rest))
    (done ++ repeat fzero (3 * length vs))
  = Ok (file_lines rest, done ++ flat3 vs).
Proof.
  induction vs as [|[[x y] z] vs IH]; intros i done rest Hd.
  - cbn [save_nodes length load_nodes app]. reflexivity.
  - cbn [save_nodes length load_nodes]. rewrite <- !app_assoc.
    rewrite read_idx_saved by reflexivity. cbn [bind].
    assert (Hp : forallb plain [float_repr x; float_repr y; float_repr z]
                 = true)
      by (cbn [forallb]; now rewrite !float_repr_plain).
    rewrite tuple_body_join by (congruence || exact Hp).
    rewrite read_tagged_saved
      by (reflexivity || lia || now apply nonl_join_comma_sp).
    cbn [bind]. rewrite split_join_comma_sp by (congruence || exact Hp).
    rewrite (float_at_repr _ 0 x), (float_at_repr _ 1 y),
      (float_at_repr _ 2 z) by (reflexivity || lia).
    cbn [bind]. rewrite repeat_3S.
    rewrite set3_app by lia. cbn [bind].
    rewrite expect_line_saved by reflexivity. cbn [bind].
    replace (done ++ x :: y :: z :: repeat fzero (3 * length vs))
      with ((done ++ [x; y; z]) ++ repeat fzero (3 * length vs))
      by now rewrite <- app_assoc.
    rewrite IH.
    + cbn [flat3 flat_map]. now rewrite <- app_assoc.
    + rewrite len_app. change (len [x; y; z]) with 3. lia.
Qed.

Lemma load_tri_txt_saved i area n0 n1 n2 tn0 tn1 d1 d2 d3 r1 r2 r3 rest :
  len d1 = i -> len d2 = i * 3 -> len d3 = i * 2 ->
  load_tri_txt i
    (file_lines
       (float_str area ++ [SP] ++ float_str n0 ++ [SP] ++ float_str n1
          ++ [SP] ++ float_str n2 ++ [SP] ++ py_str_int tn0 ++ [SP]
          ++ py_str_int tn1 ++ [SP] ++ [NL] ++ rest))
    (Some (d1 ++ fzero :: r1, d2 ++ fzero :: fzero :: fzero :: r2,
           d3 ++ 0 :: 0 :: r3))
  = Ok (file_lines rest,
        Some (d1 ++ float_reread area :: r1,
              d2 ++ float_reread n0 :: float_reread n1 :: float_reread n2
                 :: r2,
              d3 ++ tn0 :: tn1 :: r3)).
Proof.
  intros H1 H2 H3.
  set (toks := [float_str area; float_str n0; float_str n1; float_str n2;
                py_str_int tn0; py_str_int tn1]).
  change (float_str area ++ [SP] ++ float_str n0 ++ [SP] ++ float_str n1
          ++ [SP] ++ float_str n2 ++ [SP] ++ py_str_int tn0 ++ [SP]
          ++ py_str_int tn1 ++ [SP] ++ [NL] ++ rest)
    with (spaced toks ([NL] ++ rest)).
  assert (Hp : forallb plain toks = true).
  { unfold toks. cbn [forallb].
    now rewrite !float_str_plain, !py_str_int_plain. }
  rewrite file_lines_spaced by exact Hp.
  unfold load_tri_txt. cbn [readline].
  rewrite split_spaced by (exact Hp || discriminate).
  change (len toks =? 6) with true. cbn [py_assert bind].
  unfold toks.
  rewrite (float_at_str _ 0 area), (float_at_str _ 1 n0),
    (float_at_str _ 2 n1), (float_at_str _ 3 n2) by (reflexivity || lia).
  cbn [bind of_option].
  rewrite py_setitem_app by lia. cbn [bind].
  rewrite set3_app by lia. cbn [bind].
  rewrite (int_at_str _ 4 tn0), (int_at_str _ 5 tn1) by (reflexivity || lia).
  cbn [bind].
  rewrite py_setitem_app by lia. cbn [bind].
  replace (d3 ++ tn0 :: 0 :: r3) with ((d3 ++ [tn0]) ++ 0 :: r3)
    by now rewrite <- app_assoc.
  rewrite py_setitem_app
    by (rewrite len_app; change (len [tn0]) with 1; lia).
  cbn [bind]. now rewrite <- app_assoc.
Qed.

Lemma load_tris_saved ts : forall i xml txt d0 d1 d2 d3 xrest trest,
  save_tris i ts = (xml, txt) ->
  len d0 = i * 3 -> len d1 = i -> len d2 = i * 3 -> len d3 = i * 2 ->
  load_tris (length ts) i true
    (file_lines (xml ++ xrest)) (file_lines (txt ++ trest))
    (d0 ++ repeat 0 (3 * length ts))
    (Some (d1 ++ repeat fzero (length ts),
           d2 ++ repeat fzero (3 * length ts),
           d3 ++ repeat 0 (2 * length ts)))
  = Ok (file_lines xrest, file_lines trest,
        d0 ++ flat3 (map tri_verts ts),
        Some (d1 ++ map (fun t => float_reread (tri_area t)) ts,
              d2 ++ map float_reread (flat3 (map tri_norm ts)),
              d3 ++ flat2 (map tri_tetneighb ts))).
Proof.
  induction ts as [|t ts IH];
    intros i xml txt d0 d1 d2 d3 xrest trest Hs H0 H1 H2 H3.
  - cbn [save_tris] in Hs. apply pair_equal_spec in Hs as [<- <-].
    cbn [length load_tris app]. reflexivity.
  - destruct t as [[[a b] c] area [[n0 n1] n2] [tn0 tn1] patch].
    cbn [save_tris tri_verts tri_norm tri_tetneighb tri_area] in Hs.
    destruct (save_tris (i + 1) ts) as [xml' txt'] eqn:E.
    apply pair_equal_spec in Hs as [<- <-].
    cbn [length load_tris]. rewrite <- !app_assoc.
    rewrite read_idx_saved by reflexivity. cbn [bind].
    assert (Hp : forallb plain [py_str_int a; py_str_int b; py_str_int c]
                 = true)
      by (cbn [forallb]; now rewrite !py_str_int_plain).
    rewrite tuple_body_join by (congruence || exact Hp).
    rewrite read_tagged_saved
      by (reflexivity || lia || now apply nonl_join_comma_sp).
    cbn [bind]. rewrite split_join_comma_sp by (congruence || exact Hp).
    rewrite (int_at_str _ 0 a), (int_at_str _ 1 b), (int_at_str _ 2 c)
      by (reflexivity || lia).
    cbn [bind]. rewrite repeat_3S.
    rewrite set3_app by lia. cbn [bind].
    rewrite expect_line_saved by reflexivity. cbn [bind].
    rewrite repeat_3S, repeat_2S. cbn [repeat].
    rewrite load_tri_txt_saved by assumption. cbn [bind].
    replace (d0 ++ a :: b :: c :: repeat 0 (3 * length ts))
      with ((d0 ++ [a; b; c]) ++ repeat 0 (3 * length ts))
      by now rewrite <- app_assoc.
    replace (d1 ++ float_reread area :: repeat fzero (length ts))
      with ((d1 ++ [float_reread area]) ++ repeat fzero (length ts))
      by now rewrite <- app_assoc.
    replace (d2 ++ float_reread n0 :: float_reread n1 :: float_reread n2
               :: repeat fzero (3 * length ts))
      with ((d2 ++ [float_reread n0; float_reread n1; float_reread n2])
              ++ repeat fzero (3 * length ts))
      by now rewrite <- app_assoc.
    replace (d3 ++ tn0 :: tn1 :: repeat 0 (2 * length ts))
      with ((d3 ++ [tn0; tn1]) ++ repeat 0 (2 * length ts))
      by now rewrite <- app_assoc.
    rewrite (IH (i + 1) xml' txt') by
      (assumption || (rewrite len_app; unfold len at 2; cbn [length]; lia)).
    cbn [map flat3 flat2 flat_map tri_verts tri_area tri_norm tri_tetneighb
         app].
    now rewrite <- !app_assoc.
Qed.

Lemma load_tet_txt_saved i vol b0 b1 b2 r0 r1 r2 r3 e0 e1 e2 e3
    d1 d2 d3 d4 q1 q2 q3 q4 rest :
  len d1 = i -> len d2 = i * 3 -> len d3 = i * 4 -> len d4 = i * 4 ->
  load_tet_txt i
    (file_lines
       (float_str vol ++ [SP] ++ float_str b0 ++ [SP] ++ float_str b1
          ++ [SP] ++ float_str b2 ++ [SP]
          ++ py_str_int r0 ++ [SP] ++ py_str_int r1 ++ [SP]
          ++ py_str_int r2 ++ [SP] ++ py_str_int r3 ++ [SP]
          ++ py_str_int e0 ++ [SP] ++ py_str_int e1 ++ [SP]
          ++ py_str_int e2 ++ [SP] ++ py_str_int e3 ++ [SP]
          ++ [NL] ++ rest))
    (Some (d1 ++ fzero :: q1, d2 ++ fzero :: fzero :: fzero :: q2,
           d3 ++ 0 :: 0 :: 0 :: 0 :: q3, d4 ++ 0 :: 0 :: 0 :: 0 :: q4))
  = Ok (file_lines rest,
        Some (d1 ++ float_reread vol :: q1,
              d2 ++ float_reread b0 :: float_reread b1 :: float_reread b2
                 :: q2,
              d3 ++ r0 :: r1 :: r2 :: r3 :: q3,
              d4 ++ e0 :: e1 :: e2 :: e3 :: q4)).
Proof.
  intros H1 H2 H3 H4.
  set (toks := [float_str vol; float_str b0; float_str b1; float_str b2;
                py_str_int r0; py_str_int r1; py_str_int r2; py_str_int r3;
                py_str_int e0; py_str_int e1; py_str_int e2; py_str_int e3]).
  change (float_str vol ++ [SP] ++ float_str b0 ++ [SP] ++ float_str b1
          ++ [SP] ++ float_str b2 ++ [SP]
          ++ py_str_int r0 ++ [SP] ++ py_str_int r1 ++ [SP]
          ++ py_str_int r2 ++ [SP] ++ py_str_int r3 ++ [SP]
          ++ py_str_int e0 ++ [SP] ++ py_str_int e1 ++ [SP]
          ++ py_str_int e2 ++ [SP] ++ py_str_int e3 ++ [SP]
          ++ [NL] ++ rest)
    with (spaced toks ([NL] ++ rest)).
  assert (Hp : forallb plain toks = true).
  { unfold toks. cbn [forallb].
    now rewrite !float_str_plain, !py_str_int_plain. }
  rewrite file_lines_spaced by exact Hp.
  unfold load_tet_txt. cbn [readline].
  rewrite split_spaced by (exact Hp || discriminate).
  change (len toks =? 12) with true. cbn [py_assert bind].
  unfold toks.
  rewrite (float_at_str _ 0 vol), (float_at_str _ 1 b0),
    (float_at_str _ 2 b1), (float_at_str _ 3 b2) by (reflexivity || lia).
  cbn [bind of_option].
  rewrite py_setitem_app by lia. cbn [bind].
  rewrite set3_app by lia. cbn [bind].
  rewrite (int_at_str _ 4 r0), (int_at_str _ 5 r1), (int_at_str _ 6 r2),
    (int_at_str _ 7 r3) by (reflexivity || lia).
  cbn [bind]. rewrite set4_app by lia. cbn [bind].
  rewrite (int_at_str _ 8 e0), (int_at_str _ 9 e1), (int_at_str _ 10 e2),
    (int_at_str _ 11 e3) by (reflexivity || lia).
  cbn [bind]. rewrite set4_app by lia. reflexivity.
Qed.

Lemma load_tets_saved ts : forall i xml txt d0 d1 d2 d3 d4 xrest trest,
  save_tets i ts = (xml, txt) ->
  len d0 = i * 4 -> len d1 = i -> len d2 = i * 3 -> len d3 = i * 4 ->
  len d4 = i * 4 ->
  load_tets (length ts) i true
    (file_lines (xml ++ xrest)) (file_lines (txt ++ trest))
    (d0 ++ repeat 0 (4 * length ts))
    (Some (d1 ++ repeat fzero (length ts),
           d2 ++ repeat fzero (3 * length ts),
           d3 ++ repeat 0 (4 * length ts),
           d4 ++ repeat 0 (4 * length ts)))
  = Ok (file_lines xrest, file_lines trest,
        d0 ++ flat4 (map tet_verts ts),
        Some (d1 ++ map (fun t => float_reread (tet_vol t)) ts,
              d2 ++ map float_reread (flat3 (map tet_baryc ts)),
              d3 ++ flat4 (map tet_trineighb ts),
              d4 ++ flat4 (map tet_tetneighb ts))).
Proof.
  induction ts as [|t ts IH];
    intros i xml txt d0 d1 d2 d3 d4 xrest trest Hs H0 H1 H2 H3 H4.
  - cbn [save_tets] in Hs. apply pair_equal_spec in Hs as [<- <-].
    cbn [length load_tets app]. reflexivity.
  - destruct t as [[[[a b] c] d] vol [[b0 b1] b2] [[[r0 r1] r2] r3]
                     [[[e0 e1] e2] e3] comp].
    cbn [save_tets tet_verts tet_vol tet_baryc tet_trineighb tet_tetneighb]
      in Hs.
    destruct (save_tets (i + 1) ts) as [xml' txt'] eqn:E.
    apply pair_equal_spec in Hs as [<- <-].
    cbn [length load_tets]. rewrite <- !app_assoc.
    rewrite read_idx_saved by reflexivity. cbn [bind].
    assert (Hp : forallb plain [py_str_int a; py_str_int b; py_str_int c;
                                py_str_int d] = true)
      by (cbn [forallb]; now rewrite !py_str_int_plain).
    rewrite tuple_body_join by (congruence || exact Hp).
    rewrite read_tagged_saved
      by (reflexivity || lia || now apply nonl_join_comma_sp).
    cbn [bind]. rewrite split_join_comma_sp by (congruence || exact Hp).
    rewrite (int_at_str _ 0 a), (int_at_str _ 1 b), (int_at_str _ 2 c),
      (int_at_str _ 3 d) by (reflexivity || lia).
    cbn [bind]. rewrite repeat_4S.
    rewrite set4_app by lia. cbn [bind].
    rewrite expect_line_saved by reflexivity. cbn [bind].
    rewrite repeat_3S, ?repeat_4S. cbn [repeat].
    rewrite load_tet_txt_saved by assumption. cbn [bind].
    replace (d0 ++ a :: b :: c :: d :: repeat 0 (4 * length ts))
      with ((d0 ++ [a; b; c; d]) ++ repeat 0 (4 * length ts))
      by now rewrite <- app_assoc.
    replace (d1 ++ float_reread vol :: repeat fzero (length ts))
      with ((d1 ++ [float_reread vol]) ++ repeat fzero (length ts))
      by now rewrite <- app_assoc.
    replace (d2 ++ float_reread b0 :: float_reread b1 :: float_reread b2
               :: repeat fzero (3 * length ts))
      with ((d2 ++ [float_reread b0; float_reread b1; float_reread b2])
              ++ repeat fzero (3 * length ts))
      by now rewrite <- app_assoc.
    replace (d3 ++ r0 :: r1 :: r2 :: r3 :: repeat 0 (4 * length ts))
      with ((d3 ++ [r0; r1; r2; r3]) ++ repeat 0 (4 * length ts))
      by now rewrite <- app_assoc.
    replace (d4 ++ e0 :: e1 :: e2 :: e3 :: repeat 0 (4 * length ts))
      with ((d4 ++ [e0; e1; e2; e3]) ++ repeat 0 (4 * length ts))
      by now rewrite <- app_assoc.
    rewrite (IH (i + 1) xml' txt') by
      (assumption || (rewrite len_app; unfold len at 2; cbn [length]; lia)).
    cbn [map flat3 flat4 flat_map tet_verts tet_vol tet_baryc tet_trineighb
         tet_tetneighb app].
    now rewrite <- !app_assoc.
Qed.

End Loops.

(** Comma-separated lists *)

Lemma write_commas_join {A} (eqb : A -> A -> bool) (text : A -> str)
    (first : A) (rest : list A) :
  eqb first first = true ->
  existsb (fun v => eqb v first) rest = false ->
  write_commas eqb text (first :: rest)
  = join [COMMA] (map text (first :: rest)).
Proof.
  intros Hr Hn. unfold write_commas. cbn [map concat]. rewrite Hr.
  cbn [app].
  assert (G : concat (map (fun v => (if eqb v first then []
                                     else [COMMA]) ++ text v) rest)
              = match rest with
                | [] => []
                | _ => [COMMA] ++ join [COMMA] (map text rest)
                end).
  { clear Hr. induction rest as [|b rest IH]; [reflexivity|].
    cbn [existsb] in Hn. apply orb_false_iff in Hn as [Hb Hn].
    cbn [map concat]. rewrite Hb, (IH Hn).
    destruct rest as [|c rest]; cbn [map join];
      rewrite <- ?app_assoc, ?app_nil_r; reflexivity. }
  rewrite G. destruct rest; cbn [map join];
    rewrite <- ?app_assoc, ?app_nil_r; reflexivity.
Qed.

Lemma existsb_str_eqb_sym first rest :
  existsb (fun v => str_eqb v first) rest = existsb (str_eqb first) rest.
Proof.
  induction rest as [|b rest IH]; [reflexivity|]. cbn [existsb].
  rewrite IH. f_equal. unfold str_eqb.
  destruct (list_eq_dec ascii_dec b first), (list_eq_dec ascii_dec first b);
    congruence.
Qed.

Lemma labels_ok_text (l : list str) :
  labels_ok l = true ->
  nonl (write_commas str_eqb (fun v => v) l) = true
  /\ read_labels (write_commas str_eqb (fun v => v) l) = Ok l.
Proof.
  unfold labels_ok. intros H. apply andb_true_iff in H as [Hl Hf].
  destruct l as [|first rest]; [split; reflexivity|].
  apply andb_true_iff in Hf as [Hne Hnd].
  apply negb_true_iff in Hnd.
  rewrite write_commas_join
    by (apply str_eqb_refl || now rewrite existsb_str_eqb_sym).
  rewrite map_id. split.
  - apply nonl_join; [reflexivity|]. revert Hl. apply forallb_impl.
    intros x Hx. unfold label_ok in Hx. now apply andb_true_iff in Hx.
  - unfold read_labels. rewrite split_join; [|discriminate|].
    + cbn [py_index]. rewrite (py_index_nth _ 0 first) by (reflexivity || lia).
      cbn [bind]. destruct first; [discriminate|reflexivity].
    + revert Hl. apply forallb_impl.
      intros x Hx. unfold label_ok in Hx. now apply andb_true_iff in Hx.
Qed.

Lemma fill_ints_saved (todo : list Z) : forall done,
  fill_ints (map py_str_int (done ++ todo)) (length todo) (len done)
    (done ++ repeat 0 (length todo))
  = Ok (done ++ todo).
Proof.
  induction todo as [|t todo IH]; intros done.
  - cbn [length fill_ints repeat]. reflexivity.
  - cbn [length fill_ints repeat].
    rewrite (int_at_str _ _ t).
    2:{ apply len_nonneg. }
    2:{ unfold len. rewrite Nat2Z.id, map_app, nth_error_app2
          by (rewrite length_map; lia).
        rewrite length_map, Nat.sub_diag. reflexivity. }
    cbn [bind]. rewrite py_setitem_app by reflexivity. cbn [bind].
    replace (done ++ t :: todo) with ((done ++ [t]) ++ todo)
      by now rewrite <- app_assoc.
    replace (done ++ t :: repeat 0 (length todo))
      with ((done ++ [t]) ++ repeat 0 (length todo))
      by now rewrite <- app_assoc.
    replace (len done + 1) with (len (done ++ [t]))
      by (rewrite len_app; reflexivity).
    apply IH.
Qed.

Lemma members_ok_text (ts : list Z) :
  members_ok ts = true ->
  nonl (write_commas Z.eqb py_str_int ts) = true
  /\ read_members (write_commas Z.eqb py_str_int ts) = Ok ts.
Proof.
  destruct ts as [|first rest]; [discriminate|]. cbn [members_ok].
  intros H. apply negb_true_iff in H.
  rewrite write_commas_join by (apply Z.eqb_refl || assumption).
  assert (Hp : forallb plain (map py_str_int (first :: rest)) = true).
  { apply forallb_forall. intros x Hx. apply in_map_iff in Hx as [z [<- _]].
    apply py_str_int_plain. }
  split.
  - apply nonl_join; [reflexivity|]. revert Hp.
    apply forallb_impl, plain_nonl.
  - unfold read_members. rewrite split_join; [|discriminate|].
    2:{ revert Hp. apply forallb_impl, plain_lacks_comma. }
    unfold len. rewrite length_map.
    rewrite np_zeros_len with (n := length (first :: rest)) by reflexivity.
    cbn [bind]. rewrite Nat2Z.id.
    apply (fill_ints_saved (first :: rest) []).
Qed.


Lemma fold_addVolsys labels c :
  fold_left addVolsys labels c
  = {| comp_id := comp_id c; comp_tets := comp_tets c;
       comp_volsys := comp_volsys c ++ labels |}.
Proof.
  revert c. induction labels as [|v labels IH]; intros c.
  - cbn [fold_left]. rewrite app_nil_r. now destruct c.
  - cbn [fold_left]. rewrite IH. cbn [addVolsys comp_id comp_tets comp_volsys].
    now rewrite <- app_assoc.
Qed.

Lemma fold_addSurfsys labels p :
  fold_left addSurfsys labels p
  = {| patch_id := patch_id p; patch_tris := patch_tris p;
       patch_icomp := patch_icomp p; patch_ocomp := patch_ocomp p;
       patch_surfsys := patch_surfsys p ++ labels |}.
Proof.
  revert p. induction labels as [|v labels IH]; intros p.
  - cbn [fold_left]. rewrite app_nil_r. now destruct p.
  - cbn [fold_left]. rewrite IH.
    cbn [addSurfsys patch_id patch_tris patch_icomp patch_ocomp
         patch_surfsys].
    now rewrite <- app_assoc.
Qed.

Section Groups.

Context {PF : PyFloat}.

(** The compartment loop *)

Lemma load_comps_step n i c ts cs rest acc :
  comp_names_ok c = true -> members_ok ts = true ->
  load_comps (S n) i (file_lines (save_comps i ((c, ts) :: cs) ++ rest)) acc
  = load_comps n (i + 1) (file_lines (save_comps (i + 1) cs ++ rest))
      (acc ++ [expected_comp (c, ts)]).
Proof.
  intros Hc Ht. unfold comp_names_ok in Hc.
  apply andb_true_iff in Hc as [Hid Hl].
  destruct (labels_ok_text _ Hl) as [Hl1 Hl2].
  destruct (members_ok_text _ Ht) as [Ht1 Ht2].
  cbn [save_comps load_comps]. rewrite <- !app_assoc.
  rewrite read_idx_saved by reflexivity. cbn [bind].
  rewrite read_tagged_saved by (reflexivity || lia || assumption).
  cbn [bind].
  rewrite read_tagged_saved by (reflexivity || lia || assumption).
  cbn [bind]. rewrite Hl2. cbn [bind].
  rewrite read_tagged_saved by (reflexivity || lia || assumption).
  cbn [bind]. rewrite Ht2. cbn [bind].
  rewrite expect_line_saved by reflexivity. cbn [bind].
  rewrite fold_addVolsys. reflexivity.
Qed.


Lemma load_comps_saved cs : forall i acc rest,
  forallb comp_pair_ok cs = true ->
  load_comps (length cs) i (file_lines (save_comps i cs ++ rest)) acc
  = Ok (file_lines rest, acc ++ map expected_comp cs).
Proof.
  induction cs as [|[c ts] cs IH]; intros i acc rest H.
  - cbn [length load_comps save_comps map app]. now rewrite app_nil_r.
  - cbn [forallb] in H. apply andb_true_iff in H as [H1 H2].
    unfold comp_pair_ok in H1. cbn [fst snd] in H1.
    apply andb_true_iff in H1 as [Hc Ht].
    cbn [length]. rewrite load_comps_step by assumption.
    rewrite IH by assumption. cbn [map]. now rewrite <- app_assoc.
Qed.


(** The patch loop *)

Lemma lookup_comp_ok comps name :
  is_ok (getComp comps name) = true ->
  getComp comps name = Ok (lookup_comp comps name).
Proof.
  unfold lookup_comp. destruct (getComp comps name); [reflexivity|discriminate].
Qed.

Lemma load_patches_step n i p ts ps rest comps acc :
  patch_text_ok p = true -> patch_resolves comps p = true ->
  members_ok ts = true ->
  load_patches (S n) i
    (file_lines (save_patches i ((p, ts) :: ps) ++ rest)) comps acc
  = load_patches n (i + 1)
      (file_lines (save_patches (i + 1) ps ++ rest)) comps
      (acc ++ [expected_patch comps (p, ts)]).
Proof.
  intros Hp Hr Ht. unfold patch_text_ok in Hp.
  apply andb_true_iff in Hp as [Hp Hoc].
  apply andb_true_iff in Hp as [Hp Hic].
  apply andb_true_iff in Hp as [Hid Hl].
  destruct (labels_ok_text _ Hl) as [Hl1 Hl2].
  destruct (members_ok_text _ Ht) as [Ht1 Ht2].
  unfold patch_resolves in Hr. apply andb_true_iff in Hr as [Hri Hro].
  cbn [save_patches load_patches]. fold (ocomp_text p).
  rewrite <- !app_assoc.
  rewrite read_idx_saved by reflexivity. cbn [bind].
  rewrite read_tagged_saved by (reflexivity || lia || assumption).
  cbn [bind].
  rewrite read_tagged_saved by (reflexivity || lia || assumption).
  cbn [bind]. rewrite Hl2. cbn [bind].
  rewrite read_tagged_saved by (reflexivity || lia || assumption).
  cbn [bind].
  rewrite read_tagged_saved by (reflexivity || lia || assumption).
  cbn [bind].
  rewrite read_tagged_saved by (reflexivity || lia || assumption).
  cbn [bind]. rewrite Ht2. cbn [bind]. unfold make_patch.
  rewrite (lookup_comp_ok _ _ Hri).
  unfold expected_patch. cbn [fst snd].
  unfold ocomp_text in *. destruct (mp_ocomp p) as [o|].
  - apply andb_true_iff in Hro as [Hnull Hro]. rewrite Hnull.
    cbn [bind]. rewrite (lookup_comp_ok _ _ Hro). cbn [bind].
    rewrite expect_line_saved by reflexivity. cbn [bind].
    rewrite fold_addSurfsys. reflexivity.
  - rewrite str_eqb_refl. cbn [negb bind].
    rewrite expect_line_saved by reflexivity. cbn [bind].
    rewrite fold_addSurfsys. reflexivity.
Qed.


Lemma load_patches_saved comps ps : forall i acc rest,
  forallb (patch_pair_ok comps) ps = true ->
  load_patches (length ps) i (file_lines (save_patches i ps ++ rest))
    comps acc
  = Ok (file_lines rest, acc ++ map (expected_patch comps) ps).
Proof.
  induction ps as [|[p ts] ps IH]; intros i acc rest H.
  - cbn [length load_patches save_patches map app]. now rewrite app_nil_r.
  - cbn [forallb] in H. apply andb_true_iff in H as [H1 H2].
    unfold patch_pair_ok in H1. cbn [fst snd] in H1.
    apply andb_true_iff in H1 as [H1 Ht].
    apply andb_true_iff in H1 as [Hp Hr].
    cbn [length]. rewrite load_patches_step by assumption.
    rewrite IH by assumption. cbn [map]. now rewrite <- app_assoc.
Qed.


End Groups.

(** * The members the writer derives *)

Lemma append_first_match_length ids : forall groups idtemp x,
  length (append_first_match ids groups idtemp x) = length groups.
Proof.
  induction ids as [|id ids IH]; intros [|g groups] idtemp x;
    cbn [append_first_match]; try reflexivity.
  destruct (str_eqb idtemp id); cbn [length]; [reflexivity|].
  now rewrite IH.
Qed.

Lemma scan_members_length owners : forall x ids groups,
  length (scan_members owners x ids groups) = length groups.
Proof.
  induction owners as [|[o|] owners IH]; intros x ids groups;
    cbn [scan_members]; [reflexivity| |apply IH].
  rewrite IH. apply append_first_match_length.
Qed.

Lemma derived_members_length owners ids :
  length (derived_members owners ids) = length ids.
Proof.
  unfold derived_members. now rewrite scan_members_length, length_map.
Qed.

Lemma ascending_next x g : ascending x g -> ascending (x + 1) g.
Proof. intros [H1 H2]. split; [|exact H2]. intros y Hy. apply H1 in Hy. lia. Qed.

Lemma ascending_snoc x g : ascending x g -> ascending (x + 1) (g ++ [x]).
Proof.
  intros [H1 H2]. split.
  - intros y Hy. apply in_app_iff in Hy as [Hy|[<-|[]]]; [|lia].
    apply H1 in Hy. lia.
  - destruct g as [|f r]; cbn [app]; [tauto|].
    intros Hin. apply in_app_iff in Hin as [Hin|[E|[]]]; [tauto|].
    specialize (H1 f (or_introl eq_refl)). lia.
Qed.

Lemma append_first_match_ascending ids : forall groups idtemp x,
  Forall (ascending x) groups ->
  Forall (ascending (x + 1)) (append_first_match ids groups idtemp x).
Proof.
  induction ids as [|id ids IH]; intros [|g groups] idtemp x H;
    cbn [append_first_match];
    try (revert H; apply Forall_impl; intros a; apply ascending_next).
  inversion H as [|? ? Hg Hgs]; subst.
  destruct (str_eqb idtemp id).
  - constructor; [now apply ascending_snoc|].
    revert Hgs. apply Forall_impl. intros a; apply ascending_next.
  - constructor; [now apply ascending_next|]. now apply IH.
Qed.

Lemma scan_members_ascending owners : forall x ids groups,
  Forall (ascending x) groups ->
  exists x', Forall (ascending x') (scan_members owners x ids groups).
Proof.
  induction owners as [|[o|] owners IH]; intros x ids groups H;
    cbn [scan_members].
  - now exists x.
  - apply IH. now apply append_first_match_ascending.
  - apply IH. revert H. apply Forall_impl. intros a; apply ascending_next.
Qed.

Lemma ascending_members_ok x g :
  ascending x g -> members_ok g = negb (is_nil g).
Proof.
  intros [_ H]. destruct g as [|f r]; [reflexivity|].
  cbn [members_ok is_nil]. f_equal.
  destruct (existsb (fun v => v =? f) r) eqn:E; [|reflexivity].
  apply existsb_exists in E as [v [Hv Ev]]. apply Z.eqb_eq in Ev.
  subst. contradiction.
Qed.

Lemma derived_members_ok owners ids :
  forallb members_ok (derived_members owners ids)
  = forallb (fun ts => negb (is_nil ts)) (derived_members owners ids).
Proof.
  unfold derived_members.
  destruct (scan_members_ascending owners 0 ids (map (fun _ => []) ids))
    as [x Hx].
  { apply Forall_forall. intros g Hg. apply in_map_iff in Hg as [_ [<- _]].
    split; [intros y []|exact I]. }
  revert Hx. generalize (scan_members owners 0 ids (map (fun _ => []) ids)).
  intros l Hl. induction Hl as [|g l Hg Hl IH]; [reflexivity|].
  cbn [forallb]. now rewrite IH, (ascending_members_ok x g Hg).
Qed.

(** * Lists of pairs *)

Lemma forallb_combine {A B} (f : A -> bool) (g : B -> bool) :
  forall (l : list A) (r : list B), length l = length r ->
  forallb (fun ab => f (fst ab) && g (snd ab)) (combine l r)
  = forallb f l && forallb g r.
Proof.
  induction l as [|a l IH]; intros [|b r] Hlen; try discriminate.
  - reflexivity.
  - cbn [combine forallb fst snd]. rewrite IH by (simpl in Hlen; lia).
    destruct (f a), (g b), (forallb f l), (forallb g r); reflexivity.
Qed.

Lemma forallb_ext_in {A} (f g : A -> bool) (l : list A) :
  (forall x, In x l -> f x = g x) -> forallb f l = forallb g l.
Proof.
  induction l as [|a l IH]; intros H; [reflexivity|]. cbn [forallb].
  rewrite (H a (or_introl eq_refl)), IH; [reflexivity|].
  intros x Hx. apply H. now right.
Qed.


Lemma save_comps_if {PF : PyFloat} (cs : list MeshComp) (ms : list (list Z)) :
  (if 0 <? len cs then save_comps 0 (combine cs ms) else [])
  = save_comps 0 (combine cs ms).
Proof. destruct cs; reflexivity. Qed.

Lemma save_patches_if {PF : PyFloat} (ps : list MeshPatch)
    (ms : list (list Z)) :
  (if 0 <? len ps then save_patches 0 (combine ps ms) else [])
  = save_patches 0 (combine ps ms).
Proof. destruct ps; reflexivity. Qed.

Lemma getComp_known {PF : PyFloat} (cs : list MeshComp) :
  forall (ms : list (list Z)) name,
  length cs = length ms -> known_comp cs name = true ->
  is_ok (getComp (map expected_comp (combine cs ms)) name) = true.
Proof.
  induction cs as [|c cs IH]; intros [|t ms] name Hlen H; try discriminate.
  cbn [known_comp existsb] in H. cbn [combine map getComp].
  change (comp_id (expected_comp (c, t))) with (mc_id c).
  destruct (str_eqb (mc_id c) name); [reflexivity|].
  apply IH; [simpl in Hlen; lia|exact H].
Qed.

(** * Paths *)

Lemma xml_txt_distinct (pathname : str) :
  str_eqb (pathname ++ lit ".xml") (pathname ++ lit ".txt") = false.
Proof.
  apply str_eqb_neq. intros H. apply app_inv_head in H. discriminate.
Qed.

Section RoundTrip.

Context {PF : PyFloat} {PL : PyFloatLaws PF}.

Lemma open_saved_xml fs pathname xml txt :
  open_r (write_file (write_file fs (pathname ++ lit ".xml") xml)
            (pathname ++ lit ".txt") txt) (pathname ++ lit ".xml")
  = Ok (file_lines xml).
Proof.
  unfold open_r, write_file. rewrite xml_txt_distinct, str_eqb_refl.
  reflexivity.
Qed.

Lemma open_saved_txt fs pathname xml txt :
  open_r (write_file (write_file fs (pathname ++ lit ".xml") xml)
            (pathname ++ lit ".txt") txt) (pathname ++ lit ".txt")
  = Ok (file_lines txt).
Proof. unfold open_r, write_file. now rewrite str_eqb_refl. Qed.

Lemma file_lines_number z rest :
  file_lines (py_str_int z ++ [NL] ++ rest)
  = (py_str_int z ++ [NL]) :: file_lines rest.
Proof. apply file_lines_line, plain_nonl, py_str_int_plain. Qed.

Lemma file_lines_blank rest :
  file_lines ([NL] ++ rest) = [NL] :: file_lines rest.
Proof. exact (file_lines_line [] rest eq_refl). Qed.

Lemma repeat_mul3 {A} (z : A) (l : nat) :
  Z.to_nat (Z.of_nat l * 3) = (3 * l)%nat.
Proof. lia. Qed.

Lemma loadXML_saved_arrays fs pathname m :
  is_tetmesh m = true ->
  loadXML (saveXML fs pathname m) pathname = load_groups m (expected_mesh m).
Proof.
  intros Hm. unfold saveXML. fold (is_tetmesh m). rewrite Hm. cbn [negb].
  unfold xml_text.
  destruct (save_tris 0 (mesh_tris m)) as [trixml tritxt] eqn:Etri.
  destruct (save_tets 0 (mesh_tets m)) as [tetxml tettxt] eqn:Etet.
  unfold loadXML. rewrite open_saved_xml, open_saved_txt. cbn [bind].
  rewrite save_comps_if, save_patches_if.
  rewrite <- !app_assoc.
  rewrite (file_lines_line xml_decl) by reflexivity.
  rewrite (file_lines_line (lit "<tetmesh>")) by reflexivity.
  cbn [readline].
  replace (str_eqb (rstrip (lit "<tetmesh>" ++ [NL])) (lit "<tetmesh>"))
    with true by reflexivity.
  cbn [negb].
  (* nodes *)
  rewrite read_size_saved by (reflexivity || lia). cbn [bind].
  unfold check_txt_size at 1. rewrite file_lines_number. cbn [readline].
  rewrite py_int_str_nl. cbn [bind]. rewrite Z.eqb_refl. cbn [py_assert bind].
  rewrite (np_zeros_len fzero (3 * length (mesh_verts m)))
    by (unfold len; lia).
  cbn [bind]. unfold len at 1. rewrite Nat2Z.id.
  rewrite (load_nodes_saved (mesh_verts m) 0 []) by reflexivity.
  cbn [bind]. rewrite ?app_nil_l.
  rewrite expect_line_saved by reflexivity. cbn [bind].
  (* triangles *)
  rewrite read_size_saved by (reflexivity || lia). cbn [bind].
  unfold check_txt_size at 1. cbn [snd].
  rewrite file_lines_blank. cbn [readline snd].
  rewrite file_lines_number. cbn [readline].
  rewrite py_int_str_nl. cbn [bind]. rewrite Z.eqb_refl. cbn [py_assert bind].
  rewrite (np_zeros_len 0 (3 * length (mesh_tris m))) by (unfold len; lia).
  cbn [bind].
  rewrite (np_zeros_len fzero (length (mesh_tris m))) by reflexivity.
  rewrite (np_zeros_len fzero (3 * length (mesh_tris m)))
    by (unfold len; lia).
  rewrite (np_zeros_len 0 (2 * length (mesh_tris m))) by (unfold len; lia).
  cbn [bind]. unfold len at 1. rewrite Nat2Z.id.
  rewrite (load_tris_saved (mesh_tris m) 0 trixml tritxt [] [] [] [])
    by (reflexivity || assumption).
  cbn [bind]. rewrite ?app_nil_l.
  rewrite expect_line_saved by reflexivity. cbn [bind].
  (* tetrahedra *)
  rewrite read_size_saved by (reflexivity || lia). cbn [bind].
  unfold check_txt_size at 1. cbn [snd].
  rewrite file_lines_blank. cbn [readline snd].
  rewrite file_lines_number. cbn [readline].
  rewrite py_int_str_nl. cbn [bind]. rewrite Z.eqb_refl. cbn [py_assert bind].
  rewrite (np_zeros_len 0 (4 * length (mesh_tets m))) by (unfold len; lia).
  cbn [bind].
  rewrite (np_zeros_len fzero (length (mesh_tets m))) by reflexivity.
  rewrite (np_zeros_len fzero (3 * length (mesh_tets m)))
    by (unfold len; lia).
  cbn [bind]. unfold len at 1. rewrite Nat2Z.id.
  rewrite <- (app_nil_r tettxt).
  rewrite (load_tets_saved (mesh_tets m) 0 tetxml tettxt [] [] [] [] [])
    by (reflexivity || assumption).
  cbn [bind of_option]. rewrite ?app_nil_l.
  rewrite expect_line_saved by reflexivity. cbn [bind].
  (* compartments *)
  rewrite read_size_saved by (reflexivity || lia). cbn [bind].
  unfold len at 1. rewrite Nat2Z.id.
  reflexivity.
Qed.

Lemma comp_members_length m :
  length (comp_members m) = length (mesh_comps m).
Proof. unfold comp_members. now rewrite derived_members_length, length_map. Qed.

Lemma patch_members_length m :
  length (patch_members m) = length (mesh_patches m).
Proof.
  unfold patch_members. now rewrite derived_members_length, length_map.
Qed.

Lemma comp_pairs_length m :
  length (combine (mesh_comps m) (comp_members m)) = length (mesh_comps m).
Proof. rewrite length_combine, comp_members_length. lia. Qed.

Lemma patch_pairs_length m :
  length (combine (mesh_patches m) (patch_members m))
  = length (mesh_patches m).
Proof. rewrite length_combine, patch_members_length. lia. Qed.

Lemma comp_pairs_ok m :
  forallb comp_pair_ok (combine (mesh_comps m) (comp_members m))
  = forallb comp_names_ok (mesh_comps m)
    && forallb (fun ts => negb (is_nil ts)) (comp_members m).
Proof.
  unfold comp_members at 2. rewrite <- derived_members_ok.
  fold (comp_members m).
  apply (forallb_combine comp_names_ok members_ok).
  now rewrite comp_members_length.
Qed.

Lemma patch_names_resolve m p :
  patch_names_ok (mesh_comps m) p = true ->
  patch_text_ok p = true /\ patch_resolves (expected_comps m) p = true.
Proof.
  unfold patch_names_ok, patch_text_ok, patch_resolves, ocomp_text.
  intros H. apply andb_true_iff in H as [H Ho].
  apply andb_true_iff in H as [H Hk].
  apply andb_true_iff in H as [H Hic].
  apply andb_true_iff in H as [Hid Hl].
  assert (Len : length (mesh_comps m) = length (comp_members m))
    by now rewrite comp_members_length.
  unfold expected_comps. rewrite Hid, Hl, Hic.
  rewrite (getComp_known _ _ _ Len Hk). cbn [andb].
  destruct (mp_ocomp p) as [o|]; [|split; reflexivity].
  apply andb_true_iff in Ho as [Ho Hko].
  apply andb_true_iff in Ho as [Hno Hnull].
  rewrite Hno, Hnull, (getComp_known _ _ _ Len Hko). split; reflexivity.
Qed.

Lemma patch_pairs_ok m :
  forallb (patch_names_ok (mesh_comps m)) (mesh_patches m) = true ->
  forallb (patch_pair_ok (expected_comps m))
    (combine (mesh_patches m) (patch_members m))
  = forallb (fun ts => negb (is_nil ts)) (patch_members m).
Proof.
  intros H.
  transitivity
    (forallb (fun pm => patch_names_ok (mesh_comps m) (fst pm)
                        && members_ok (snd pm))
       (combine (mesh_patches m) (patch_members m))).
  - apply forallb_ext_in.
    intros [p ts] Hin. unfold patch_pair_ok. cbn [fst snd].
    apply in_combine_l in Hin.
    rewrite forallb_forall in H. specialize (H p Hin).
    destruct (patch_names_resolve m p H) as [-> ->]. now rewrite H.
  - rewrite (forallb_combine (patch_names_ok (mesh_comps m)) members_ok)
      by now rewrite patch_members_length.
    rewrite H. cbn [andb]. apply derived_members_ok.
Qed.

Lemma load_groups_comps_ok m :
  forallb comp_names_ok (mesh_comps m) = true ->
  forallb (fun ts => negb (is_nil ts)) (comp_members m) = true ->
  load_groups m (expected_mesh m) = load_patch_groups m.
Proof.
  intros Hn Hp. unfold load_groups, comps_text.
  rewrite <- (comp_pairs_length m) at 1.
  rewrite load_comps_saved by now rewrite comp_pairs_ok, Hn, Hp.
  cbn [bind]. rewrite app_nil_l. fold (expected_comps m).
  rewrite expect_line_saved by reflexivity. cbn [bind].
  rewrite read_size_saved by (reflexivity || lia). cbn [bind].
  unfold len. rewrite Nat2Z.id. reflexivity.
Qed.


Lemma load_patch_groups_ok m :
  forallb (patch_names_ok (mesh_comps m)) (mesh_patches m) = true ->
  forallb (fun ts => negb (is_nil ts)) (patch_members m) = true ->
  load_patch_groups m
  = Ok (Some (expected_mesh m, expected_comps m, expected_patches m)).
Proof.
  intros Hn Hp. unfold load_patch_groups, patches_text.
  rewrite <- (patch_pairs_length m) at 1.
  rewrite load_patches_saved by now rewrite patch_pairs_ok, Hp.
  cbn [bind]. rewrite app_nil_l. fold (expected_patches m).
  rewrite <- (app_nil_r (lit "</tetmesh>")).
  replace (tabs 1 ++ lit "</patches>" ++ [NL] ++ lit "</tetmesh>" ++ [])
    with (tabs 1 ++ lit "</patches>" ++ [NL] ++ lit "</tetmesh>")
    by now rewrite app_nil_r.
  rewrite expect_line_saved by reflexivity. reflexivity.
Qed.


End RoundTrip.

(** * Whole lines in the text of the writer *)










Section SavedLines.

Context {PF : PyFloat}.












End SavedLines.

(** * The integral float model, and saving and loading *)

#[local] Existing Instance IntegralFloat.

Lemma integral_text_plain z : plain (integral_text z) = true.
Proof.
  unfold integral_text. pose proof (py_str_int_plain z) as H.
  unfold plain in *. destruct (py_str_int z) as [|c s] eqn:E; [discriminate|].
  cbn [app]. change (c :: s ++ lit ".0") with ((c :: s) ++ lit ".0").
  rewrite forallb_app, H. reflexivity.
Qed.

Lemma integral_text_read z : integral_of_text (integral_text z) = Ok z.
Proof.
  unfold integral_of_text.
  rewrite strip_plain by apply integral_text_plain.
  unfold integral_text. rewrite rev_app_distr.
  change (rev (lit ".0")) with ["0"%char; "."%char]. cbn [app].
  rewrite rev_involutive. apply py_int_str.
Qed.

#[local] Instance IntegralFloat_laws : PyFloatLaws IntegralFloat.
Proof.
  assert (R : forall x : Z, @float_reread IntegralFloat x = x).
  { intros x. unfold float_reread. cbn [py_float float_str IntegralFloat].
    now rewrite integral_text_read. }
  constructor; cbn [float py_float float_repr float_str IntegralFloat];
    intros x.
  - apply integral_text_plain.
  - apply integral_text_read.
  - apply integral_text_plain.
  - rewrite R. apply integral_text_read.
  - now rewrite R.
Qed.

Section SaveLoad.

Context {PF : PyFloat}.

Lemma map_float_str_reread {PL : PyFloatLaws PF} (l : list float) :
  map float_str (map float_reread l) = map float_str l.
Proof.
  rewrite map_map. apply map_ext. intros x. apply float_str_stable.
Qed.

Lemma expected_derived_text {PL : PyFloatLaws PF} (m : Tetmesh) :
  loaded_derived_text (expected_mesh m) = mesh_derived_text m.
Proof.
  unfold loaded_derived_text, mesh_derived_text, expected_mesh.
  cbn [triareas_out trinorms_out tetvols_out tetbarycs_out].
  rewrite !map_app, !map_map.
  f_equal; [|f_equal; [|f_equal]]; apply map_ext; intros x;
    apply float_str_stable.
Qed.

Lemma names_ok_parts (m : Tetmesh) :
  names_ok m = true ->
  is_tetmesh m = true /\ forallb comp_names_ok (mesh_comps m) = true
  /\ forallb (patch_names_ok (mesh_comps m)) (mesh_patches m) = true.
Proof.
  unfold names_ok. intros H. apply andb_true_iff in H as [H H3].
  apply andb_true_iff in H as [H1 H2]. auto.
Qed.

(** C1, as amended. Saving a mesh and loading it back gives the vertex
    coordinates, the triangle and tetrahedron index tuples in order, the
    compartments and patches with their ids, label lists and derived
    members, and derived quantities whose text is the text of the
    originals -- for every mesh whose names fit the text format and whose
    compartments and patches all have at least one member. *)
Theorem saveXML_loadXML_roundtrip {PL : PyFloatLaws PF}
    (fs : filesystem) (pathname : str) (m : Tetmesh) :
  names_ok m = true -> populated m = true ->
  loadXML (saveXML fs pathname m) pathname
  = Ok (Some (expected_mesh m, expected_comps m, expected_patches m))
  /\ loaded_derived_text (expected_mesh m) = mesh_derived_text m.
Proof.
  intros Hn Hp. destruct (names_ok_parts m Hn) as (Hm & Hc & Hpn).
  unfold populated in Hp. apply andb_true_iff in Hp as [Hpc Hpp].
  split; [|apply expected_derived_text].
  rewrite loadXML_saved_arrays by assumption.
  rewrite load_groups_comps_ok by assumption.
  now apply load_patch_groups_ok.
Qed.


End SaveLoad.

(** C1, witness: the one-tetrahedron mesh. *)
Lemma saveXML_loadXML_roundtrip_witness :
  loadXML (saveXML empty_fs (lit "m") mesh_one_tet) (lit "m")
  = Ok (Some (expected_mesh mesh_one_tet, expected_comps mesh_one_tet,
              expected_patches mesh_one_tet))
  /\ loaded_derived_text (expected_mesh mesh_one_tet)
     = mesh_derived_text mesh_one_tet.
Proof.
  assert (Hn : names_ok mesh_one_tet = true) by reflexivity.
  assert (Hp : populated mesh_one_tet = true) by reflexivity.
  exact (saveXML_loadXML_roundtrip empty_fs (lit "m") mesh_one_tet Hn Hp).
Defined.

(** C1, counterexample: a mesh with a compartment that owns no
    tetrahedron is saved, and loading it back raises [ValueError]. *)
Lemma roundtrip_fails_on_memberless_compartment :
  loadXML (saveXML empty_fs (lit "m") mesh_memberless_comp) (lit "m")
  = Raise ValueError.
Proof. reflexivity. Qed.

(** Names outside [names_ok] are not carried by the text: a label with a
    comma comes back as two labels, and an outer compartment called
    [null] comes back as no outer compartment. *)
Lemma label_with_comma_loads_as_two :
  loaded_labels (loadXML (saveXML empty_fs (lit "m") mesh_comma_label)
                   (lit "m"))
  = [[lit "a"; lit "b"]].
Proof. reflexivity. Qed.

Lemma outer_compartment_null_is_dropped :
  loaded_outer (loadXML (saveXML empty_fs (lit "m") mesh_outer_null)
                  (lit "m"))
  = [None].
Proof. reflexivity. Qed.


Section CompanionFile.

Context {PF : PyFloat}.

Lemma load_tris_without_txt n : forall i xmlfile textfile tris_out r,
  load_tris n i false xmlfile textfile tris_out None = Ok r ->
  snd r = None.
Proof.
  induction n as [|n IH]; intros i xmlfile textfile tris_out r H.
  - cbn [load_tris] in H. injection H as <-. reflexivity.
  - cbn [load_tris] in H. repeat bind_step H. now apply IH in H.
Qed.

Lemma load_tets_without_txt n : forall i xmlfile textfile tets_out r,
  load_tets n i false xmlfile textfile tets_out None = Ok r ->
  snd r = None.
Proof.
  induction n as [|n IH]; intros i xmlfile textfile tets_out r H.
  - cbn [load_tets] in H. injection H as <-. reflexivity.
  - cbn [load_tets] in H. repeat bind_step H. now apply IH in H.
Qed.

(** C2, on the code: without the companion file, whatever the XML file
    holds, [loadXML] does not come back with a mesh. The arrays of derived
    quantities are assigned only when the companion file was opened, and
    the constructor call names them all. *)
Theorem loadXML_without_companion_returns_no_mesh
    (fs : filesystem) (pathname : str) :
  isfile fs (pathname ++ lit ".txt") = false ->
  returns_mesh (loadXML fs pathname) = false.
Proof.
  intros Ht.
  assert (Et : open_r fs (pathname ++ lit ".txt") = Raise IOError).
  { unfold isfile in Ht. unfold open_r.
    now destruct (fs (pathname ++ lit ".txt")). }
  destruct (loadXML fs pathname) as [[r|]|e] eqn:H; try reflexivity.
  exfalso. unfold loadXML in H.
  destruct (open_r fs (pathname ++ lit ".xml")) as [xml|];
    [|discriminate H].
  rewrite Et in H. cbn [bind] in H.
  destruct (readline xml) as [info xmlfile].
  destruct (readline xmlfile) as [l xmlfile1].
  destruct (negb (str_eqb (rstrip l) (lit "<tetmesh>"))); [discriminate|].
  cbn [check_txt_size] in H.
  repeat
    (bind_step H;
     try match goal with
         | E : load_tris _ _ false _ _ _ None = Ok _ |- _ =>
           apply load_tris_without_txt in E; cbn [snd] in E; subst
         end;
     try (cbn [of_option bind] in H; discriminate H)).
Qed.

End CompanionFile.

(** C2, witness: the XML file that [saveXML] wrote for the
    one-tetrahedron mesh, its companion file removed. *)
Lemma loadXML_without_companion_returns_no_mesh_witness :
  returns_mesh
    (loadXML (xml_only (lit "m") (fst (xml_text mesh_one_tet))) (lit "m"))
  = false.
Proof.
  exact (loadXML_without_companion_returns_no_mesh
           (xml_only (lit "m") (fst (xml_text mesh_one_tet))) (lit "m")
           eq_refl).
Defined.

(** C2, at the same input: the exception is the [NameError] of the
    constructor call. *)
Lemma loadXML_without_companion_example :
  loadXML (xml_only (lit "m") (fst (xml_text mesh_one_tet))) (lit "m")
  = Raise NameError.
Proof. reflexivity. Qed.





Section Patches.

Context {PF : PyFloat}.



End Patches.


Section Tetgen.

Context {PF : PyFloat}.

(** C3, on the code: with the [.node] and [.ele] files in place and no
    [.face] file, whatever the two files hold, [readTetgen] does not
    return: [faces] stays [None] and [faces.flatten()] raises. *)
Theorem readTetgen_without_face_file_raises
    (fs : filesystem) (pathroot : str)
    (compmap patchmap : option (list (Z * str)))
    (patchiomap : option (list (str * (str * option str)))) :
  isfile fs (pathroot ++ lit ".node") = true ->
  isfile fs (pathroot ++ lit ".ele") = true ->
  isfile fs (pathroot ++ lit ".face") = false ->
  is_ok (readTetgen fs pathroot compmap patchmap patchiomap) = false.
Proof.
  unfold readTetgen, isfile, open_r.
  destruct (fs (pathroot ++ lit ".node")) as [node|];
    [intros _|discriminate].
  destruct (fs (pathroot ++ lit ".ele")) as [ele|]; [intros _|discriminate].
  destruct (fs (pathroot ++ lit ".face")); [discriminate|intros _].
  cbn [negb option_map of_option bind].
  destruct (read_node_file (file_lines node)) as [[idxshift nodes]|];
    [cbn [bind]|reflexivity].
  destruct (read_ele_file (file_lines ele) idxshift)
    as [[[ntets tets] comps]|]; [cbn [bind]|reflexivity].
  reflexivity.
Qed.

End Tetgen.

(** C3, witness: two nodes and one element, no [.face] file. *)
Lemma readTetgen_without_face_file_raises_witness :
  is_ok (readTetgen fs_node_ele (lit "m") None None None) = false.
Proof.
  exact (readTetgen_without_face_file_raises fs_node_ele (lit "m")
           None None None eq_refl eq_refl eq_refl).
Defined.

(** C3, at the same input: the exception is the [AttributeError] of
    [faces.flatten()]. *)
Lemma readTetgen_without_face_file_example :
  readTetgen fs_node_ele (lit "m") None None None = Raise AttributeError.
Proof. reflexivity. Qed.

(** * Content-free lines *)

Lemma readline_firstn n (f : file) :
  readline (firstn (S n) f) = (fst (readline f), firstn n (snd (readline f))).
Proof. destruct f; [now rewrite !firstn_nil|reflexivity]. Qed.

Section CountedLoops.

Context {PF : PyFloat}.

Lemma read_node_records_firstn n : forall nodeno f s nodes,
  read_node_records n nodeno (firstn n f) s nodes
  = read_node_records n nodeno f s nodes.
Proof.
  induction n as [|n IH]; intros nodeno f s nodes; [reflexivity|].
  cbn [read_node_records]. rewrite readline_firstn.
  destruct (readline f) as [l f']. cbn [fst snd].
  destruct (len (data_tokens l) =? 0); [apply IH|].
  repeat match goal with
         | |- bind ?r _ = bind ?r _ =>
           destruct r; cbn [bind]; [|reflexivity]
         end.
  apply IH.
Qed.

Lemma read_ele_records_firstn n : forall f s attridx flag tets comps,
  read_ele_records n (firstn n f) s attridx flag tets comps
  = read_ele_records n f s attridx flag tets comps.
Proof.
  induction n as [|n IH]; intros f s attridx flag tets comps; [reflexivity|].
  cbn [read_ele_records]. rewrite readline_firstn.
  destruct (readline f) as [l f']. cbn [fst snd].
  destruct (len (data_tokens l) =? 0); [apply IH|].
  repeat match goal with
         | |- bind ?r _ = bind ?r _ =>
           destruct r; cbn [bind]; [|reflexivity]
         end.
  apply IH.
Qed.

Lemma read_face_records_firstn n : forall f s flag faces patches,
  read_face_records n (firstn n f) s flag faces patches
  = read_face_records n f s flag faces patches.
Proof.
  induction n as [|n IH]; intros f s flag faces patches; [reflexivity|].
  cbn [read_face_records]. rewrite readline_firstn.
  destruct (readline f) as [l f']. cbn [fst snd].
  destruct (len (data_tokens l) =? 0); [apply IH|].
  repeat match goal with
         | |- bind ?r _ = bind ?r _ =>
           destruct r; cbn [bind]; [|reflexivity]
         end.
  apply IH.
Qed.

End CountedLoops.

(** C6, on the code. A record loop makes as many passes as records are
    declared and reads one line on each, whatever the line holds: what
    lies past the first [n] lines is never read. So a content-free line
    among the records costs a record: with three nodes declared and a
    blank line after the first record, the record of node 2 is never
    read and its row is left unassigned; without the blank line all
    three rows are assigned. *)
Theorem blank_line_loses_last_record :
  (forall (PF : PyFloat) n nodeno f s nodes,
      @read_node_records PF n nodeno f s nodes
      = @read_node_records PF n nodeno (firstn n f) s nodes)
  /\ (forall n f s attridx flag tets comps,
         read_ele_records n f s attridx flag tets comps
         = read_ele_records n (firstn n f) s attridx flag tets comps)
  /\ (forall n f s flag faces patches,
         read_face_records n f s flag faces patches
         = read_face_records n (firstn n f) s flag faces patches)
  /\ readTetgen fs_blank_line (lit "m") None None None
     = Ok (Some ({| tg_nodes := [Some 0; Some 0; Some 0;
                                 Some 1; Some 0; Some 0;
                                 None; None; None];
                    tg_tets := [Some 0; Some 1; Some 2; Some 0];
                    tg_faces := [Some 0; Some 1; Some 2];
                    tg_comps := []; tg_patches := [] |}, None, None))
  /\ readTetgen fs_no_blank_line (lit "m") None None None
     = Ok (Some ({| tg_nodes := [Some 0; Some 0; Some 0;
                                 Some 1; Some 0; Some 0;
                                 Some 0; Some 1; Some 0];
                    tg_tets := [Some 0; Some 1; Some 2; Some 0];
                    tg_faces := [Some 0; Some 1; Some 2];
                    tg_comps := []; tg_patches := [] |}, None, None)).
Proof.
  split; [|split; [|split; [|split]]].
  - intros PF n nodeno f s nodes. symmetry. apply read_node_records_firstn.
  - intros n f s attridx flag tets comps. symmetry.
    apply read_ele_records_firstn.
  - intros n f s flag faces patches. symmetry.
    apply read_face_records_firstn.
  - reflexivity.
  - reflexivity.
Qed.

(** * Index relabelling *)

Lemma py_index_nonneg {A} (s : list A) (z : Z) :
  0 <= z -> py_index s z = of_option IndexError (nth_error s (Z.to_nat z)).
Proof.
  intros Hz. unfold py_index.
  replace (z <? 0) with false by (symmetry; apply Z.ltb_ge; lia).
  replace (0 <=? z) with true by (symmetry; apply Z.leb_le; lia).
  cbn [andb]. destruct (z <? Z.of_nat (length s)) eqn:E; [reflexivity|].
  apply Z.ltb_ge in E.
  replace (nth_error s (Z.to_nat z)) with (@None A); [reflexivity|].
  symmetry. apply nth_error_None. lia.
Qed.

Lemma cols_relabelled_length k n : forall ta tb,
  cols_relabelled k n ta tb -> length ta = length tb.
Proof.
  induction n as [|n IH]; intros ta tb H; cbn [cols_relabelled] in H.
  - now subst.
  - destruct ta as [|a ra], tb as [|b rb]; try reflexivity; try contradiction.
    destruct H as [_ H]. cbn [length]. f_equal. now apply IH.
Qed.

Lemma cols_relabelled_nth k n : forall ta tb (i : nat),
  cols_relabelled k n ta tb -> (i < n)%nat ->
  match nth_error ta i, nth_error tb i with
  | Some a, Some b => shifted k a b
  | None, None => True
  | _, _ => False
  end.
Proof.
  induction n as [|n IH]; intros ta tb i H Hi; [lia|].
  cbn [cols_relabelled] in H.
  destruct ta as [|a ra], tb as [|b rb]; try contradiction.
  - now destruct i.
  - destruct H as [Hs H]. destruct i as [|i]; [exact Hs|].
    cbn [nth_error]. apply IH; [exact H|lia].
Qed.

Lemma cols_relabelled_same k n : forall ta tb (i : nat),
  cols_relabelled k n ta tb -> (n <= i)%nat ->
  nth_error tb i = nth_error ta i.
Proof.
  induction n as [|n IH]; intros ta tb i H Hi; cbn [cols_relabelled] in H.
  - now subst.
  - destruct ta as [|a ra], tb as [|b rb]; try contradiction; [reflexivity|].
    destruct H as [_ H]. destruct i as [|i]; [lia|].
    cbn [nth_error]. apply IH; [exact H|lia].
Qed.

(** An index column read from the relabelled record. *)
Lemma int_at_relabelled k n ta tb (z : Z) :
  cols_relabelled k n ta tb -> 0 <= z < Z.of_nat n ->
  forall {B} (f g : Z -> result B),
    (forall v, g (v + k) = f v) ->
    (t <- py_index tb z ;; v <- py_int t ;; g v)
    = (t <- py_index ta z ;; v <- py_int t ;; f v).
Proof.
  intros H Hz B f g Hfg. rewrite !py_index_nonneg by lia.
  pose proof (cols_relabelled_nth k n ta tb (Z.to_nat z) H ltac:(lia)) as Hn.
  destruct (nth_error ta (Z.to_nat z)) as [a|],
           (nth_error tb (Z.to_nat z)) as [b|]; try contradiction;
    [|reflexivity].
  cbn [of_option bind]. unfold shifted in Hn. rewrite Hn.
  destruct (py_int a) as [v|e]; cbn [bind]; [apply Hfg|reflexivity].
Qed.

(** A column past the index columns. *)
Lemma py_index_relabelled k n ta tb (z : Z) :
  cols_relabelled k n ta tb -> Z.of_nat n <= z ->
  py_index tb z = py_index ta z.
Proof.
  intros H Hz. rewrite !py_index_nonneg by lia.
  now rewrite (cols_relabelled_same k n ta tb (Z.to_nat z) H) by lia.
Qed.

Lemma store_ref_relabelled k n ta tb (z s : Z) a row col :
  cols_relabelled k n ta tb -> 0 <= z < Z.of_nat n ->
  store_ref tb z (s + k) a row col = store_ref ta z s a row col.
Proof.
  intros H Hz. unfold store_ref.
  apply (int_at_relabelled k n ta tb z H Hz).
  intros v. f_equal. lia.
Qed.

Lemma len_relabelled k n ta tb :
  cols_relabelled k n ta tb -> len tb = len ta.
Proof.
  intros H. unfold len. now rewrite (cols_relabelled_length k n ta tb H).
Qed.

Lemma readline_relabelled k n fa fb :
  Forall2 (line_relabelled k n) fa fb ->
  line_relabelled k n (fst (readline fa)) (fst (readline fb))
  /\ Forall2 (line_relabelled k n) (snd (readline fa)) (snd (readline fb)).
Proof.
  intros [|la lb fa' fb' Hl Hf]; cbn [readline fst snd].
  - split; [|constructor]. unfold line_relabelled.
    change (data_tokens []) with (@nil str). now destruct n.
  - now split.
Qed.

Section Relabelling.

Context {PF : PyFloat}.

Variable k : Z.

Lemma read_node_records_relabelled n : forall nodeno fa fb sa sb nodes,
  Forall2 (line_relabelled k 1) fa fb ->
  (0 < nodeno /\ sb = sa + k)
  \/ (nodeno = 0 /\ (0 < n)%nat /\ data_tokens (fst (readline fa)) <> []) ->
  read_node_records n nodeno fb sb nodes
  = ('(s, ns) <- read_node_records n nodeno fa sa nodes ;; Ok (s + k, ns)).
Proof.
  induction n as [|n IH]; intros nodeno fa fb sa sb nodes Hf Hs.
  - cbn [read_node_records bind]. destruct Hs as [[_ ->]|(_ & Hn & _)];
      [reflexivity|lia].
  - cbn [read_node_records].
    destruct (readline_relabelled k 1 fa fb Hf) as [Hl Hf'].
    destruct (readline fa) as [la fa'], (readline fb) as [lb fb'].
    cbn [fst snd] in *. unfold line_relabelled in Hl.
    rewrite (len_relabelled _ _ _ _ Hl).
    destruct (len (data_tokens la) =? 0) eqn:Eb.
    + apply IH; [exact Hf'|]. left.
      destruct Hs as [[Hn ->]|(_ & _ & Hne)]; [split; lia|].
      exfalso. apply Hne. apply Z.eqb_eq in Eb. unfold len in Eb.
      destruct (data_tokens la); [reflexivity|discriminate].
    + rewrite !(py_index_relabelled k 1 _ _ 1 Hl),
        !(py_index_relabelled k 1 _ _ 2 Hl),
        !(py_index_relabelled k 1 _ _ 3 Hl) by lia.
      rewrite !(py_index_nonneg _ 0) by lia.
      pose proof (cols_relabelled_nth k 1 _ _ (Z.to_nat 0) Hl ltac:(lia))
        as Hn.
      destruct (nth_error (data_tokens la) (Z.to_nat 0)) as [a|],
               (nth_error (data_tokens lb) (Z.to_nat 0)) as [b|];
        try contradiction; [|reflexivity].
      cbn [of_option bind]. unfold shifted in Hn. rewrite Hn.
      destruct (py_int a) as [v|e]; cbn [bind]; [|reflexivity].
      assert (Ei : v + k - (if nodeno =? 0 then v + k else sb)
                   = v - (if nodeno =? 0 then v else sa)).
      { destruct Hs as [[Hn' ->]|(-> & _)]; [|cbn; lia].
        replace (nodeno =? 0) with false
          by (symmetry; apply Z.eqb_neq; lia). lia. }
      rewrite Ei.
      repeat match goal with
             | |- bind ?r _ = bind (bind ?r _) _ =>
               destruct r; cbn [bind]; [|reflexivity]
             end.
      apply IH; [exact Hf'|]. left. split.
      * destruct Hs as [[Hn' _]|(-> & _)]; lia.
      * destruct Hs as [[Hn' ->]|(-> & _)]; [|reflexivity].
        replace (nodeno =? 0) with false
          by (symmetry; apply Z.eqb_neq; lia). reflexivity.
Qed.

Lemma read_node_file_relabelled fa fb :
  file_relabelled k 1 fa fb ->
  data_tokens (fst (readline (snd (readline fa)))) <> [] ->
  read_node_file fb
  = ('(s, ns) <- read_node_file fa ;; Ok (s + k, ns)).
Proof.
  intros [Hh Hf] Hr. unfold read_node_file.
  destruct (readline fa) as [la fa'], (readline fb) as [lb fb'].
  cbn [fst snd] in *. subst lb.
  destruct (py_assert (len (split_ws la) =? 4)); cbn [bind]; [|reflexivity].
  destruct (py_index (split_ws la) 0) as [t0|]; cbn [bind]; [|reflexivity].
  destruct (py_int t0) as [nnodes|]; cbn [bind]; [|reflexivity].
  destruct (py_assert (0 <? nnodes)) eqn:En; cbn [bind]; [|reflexivity].
  destruct (py_index (split_ws la) 1) as [t1|]; cbn [bind]; [|reflexivity].
  destruct (py_int t1) as [ndims|]; cbn [bind]; [|reflexivity].
  destruct (py_assert (ndims =? 3)); cbn [bind]; [|reflexivity].
  destruct (py_index (split_ws la) 2) as [t2|]; cbn [bind]; [|reflexivity].
  destruct (py_int t2) as [nattribs|]; cbn [bind]; [|reflexivity].
  destruct (py_index (split_ws la) 3) as [t3|]; cbn [bind]; [|reflexivity].
  destruct (py_int t3) as [bmarkers|]; cbn [bind]; [|reflexivity].
  apply read_node_records_relabelled; [exact Hf|]. right.
  split; [reflexivity|]. split; [|exact Hr].
  unfold py_assert in En. destruct (0 <? nnodes) eqn:E; [|discriminate].
  apply Z.ltb_lt in E. lia.
Qed.

Lemma read_ele_records_relabelled n : forall fa fb s attridx flag tets comps,
  5 <= attridx ->
  Forall2 (line_relabelled k (Z.to_nat attridx)) fa fb ->
  read_ele_records n fb (s + k) attridx flag tets comps
  = read_ele_records n fa s attridx flag tets comps.
Proof.
  induction n as [|n IH]; intros fa fb s attridx flag tets comps Ha Hf;
    [reflexivity|].
  cbn [read_ele_records].
  destruct (readline_relabelled k _ fa fb Hf) as [Hl Hf'].
  destruct (readline fa) as [la fa'], (readline fb) as [lb fb'].
  cbn [fst snd] in *. unfold line_relabelled in Hl.
  rewrite (len_relabelled _ _ _ _ Hl).
  destruct (len (data_tokens la) =? 0); [now apply IH|].
  apply (int_at_relabelled k _ _ _ 0 Hl); [lia|]. intros v.
  replace (v + k - (s + k)) with (v - s) by lia.
  rewrite !(store_ref_relabelled k _ _ _ 1 s _ _ _ Hl) by lia.
  destruct (store_ref _ 1 _ _ _ _) as [tets1|]; cbn [bind]; [|reflexivity].
  rewrite !(store_ref_relabelled k _ _ _ 2 s _ _ _ Hl) by lia.
  destruct (store_ref _ 2 _ _ _ _) as [tets2|]; cbn [bind]; [|reflexivity].
  rewrite !(store_ref_relabelled k _ _ _ 3 s _ _ _ Hl) by lia.
  destruct (store_ref _ 3 _ _ _ _) as [tets3|]; cbn [bind]; [|reflexivity].
  rewrite !(store_ref_relabelled k _ _ _ 4 s _ _ _ Hl) by lia.
  destruct (store_ref _ 4 _ _ _ _) as [tets4|]; cbn [bind]; [|reflexivity].
  rewrite (py_index_relabelled k _ _ _ attridx Hl) by lia.
  match goal with
  | |- bind ?r _ = bind ?r _ => destruct r; cbn [bind]; [|reflexivity]
  end.
  now apply IH.
Qed.

Lemma read_face_records_relabelled n : forall fa fb s flag faces patches,
  Forall2 (line_relabelled k 4) fa fb ->
  read_face_records n fb (s + k) flag faces patches
  = read_face_records n fa s flag faces patches.
Proof.
  induction n as [|n IH]; intros fa fb s flag faces patches Hf;
    [reflexivity|].
  cbn [read_face_records].
  destruct (readline_relabelled k _ fa fb Hf) as [Hl Hf'].
  destruct (readline fa) as [la fa'], (readline fb) as [lb fb'].
  cbn [fst snd] in *. unfold line_relabelled in Hl.
  rewrite (len_relabelled _ _ _ _ Hl).
  destruct (len (data_tokens la) =? 0); [now apply IH|].
  apply (int_at_relabelled k _ _ _ 0 Hl); [lia|]. intros v.
  replace (v + k - (s + k)) with (v - s) by lia.
  rewrite !(store_ref_relabelled k _ _ _ 1 s _ _ _ Hl) by lia.
  destruct (store_ref _ 1 _ _ _ _) as [f1|]; cbn [bind]; [|reflexivity].
  rewrite !(store_ref_relabelled k _ _ _ 2 s _ _ _ Hl) by lia.
  destruct (store_ref _ 2 _ _ _ _) as [f2|]; cbn [bind]; [|reflexivity].
  rewrite !(store_ref_relabelled k _ _ _ 3 s _ _ _ Hl) by lia.
  destruct (store_ref _ 3 _ _ _ _) as [f3|]; cbn [bind]; [|reflexivity].
  rewrite (py_index_relabelled k _ _ _ 4 Hl) by lia.
  match goal with
  | |- bind ?r _ = bind ?r _ => destruct r; cbn [bind]; [|reflexivity]
  end.
  now apply IH.
Qed.

Lemma read_ele_file_relabelled fa fb s :
  file_relabelled k (ele_index_columns fa) fa fb ->
  read_ele_file fb (s + k) = read_ele_file fa s.
Proof.
  intros [Hh Hf]. unfold read_ele_file.
  unfold ele_index_columns, header_ints in Hf.
  destruct (readline fa) as [la fa'], (readline fb) as [lb fb'].
  cbn [fst snd] in *. subst lb.
  destruct (py_assert (len (split_ws la) =? 3)) eqn:E3; cbn [bind];
    [|reflexivity].
  destruct (split_ws la) as [|t0 [|t1 [|t2 [|t3 r]]]];
    try discriminate E3.
  2:{ exfalso. unfold py_assert, len in E3. cbn [length] in E3.
      destruct (Z.of_nat (S (S (S (S (length r))))) =? 3) eqn:E;
        [apply Z.eqb_eq in E; lia|discriminate]. }
  change (py_index [t0; t1; t2] 0) with (Ok t0).
  change (py_index [t0; t1; t2] 1) with (Ok t1).
  change (py_index [t0; t1; t2] 2) with (Ok t2).
  cbn [bind map] in *.
  destruct (py_int t0) as [ntets|]; cbn [bind]; [|reflexivity].
  destruct (py_assert (0 <? ntets)); cbn [bind]; [|reflexivity].
  destruct (py_int t1) as [nodespertet|]; cbn [bind]; [|reflexivity].
  destruct (py_assert ((nodespertet =? 4) || (nodespertet =? 10))) eqn:En;
    cbn [bind]; [|reflexivity].
  destruct (py_int t2) as [tetregattrib|]; cbn [bind]; [|reflexivity].
  destruct (py_assert ((tetregattrib =? 0) || (tetregattrib =? 1)));
    cbn [bind]; [|reflexivity].
  assert (Ha : 5 <= 1 + nodespertet).
  { unfold py_assert in En.
    destruct ((nodespertet =? 4) || (nodespertet =? 10)) eqn:E;
      [|discriminate].
    apply orb_true_iff in E as [E|E]; apply Z.eqb_eq in E; lia. }
  now rewrite (read_ele_records_relabelled _ fa' fb' s _ _ _ _ Ha Hf).
Qed.

Lemma read_face_file_relabelled fa fb s :
  file_relabelled k 4 fa fb ->
  read_face_file fb (s + k) = read_face_file fa s.
Proof.
  intros [Hh Hf]. unfold read_face_file.
  destruct (readline fa) as [la fa'], (readline fb) as [lb fb'].
  cbn [fst snd] in *. subst lb.
  repeat match goal with
         | |- bind ?r _ = bind ?r _ =>
           destruct r; cbn [bind]; [|reflexivity]
         end.
  now rewrite (read_face_records_relabelled _ fa' fb' s _ _ _ Hf).
Qed.

(** Relabelling invariance: when the line under the header of the
    [.node] file is a record, a file set and the same file set with
    every index raised by [k] import alike. *)
Lemma readTetgen_relabelled fsa fsb pathroot compmap patchmap patchiomap :
  tetgen_relabelled k fsa fsb pathroot ->
  first_line_is_record fsa pathroot ->
  readTetgen fsb pathroot compmap patchmap patchiomap
  = readTetgen fsa pathroot compmap patchmap patchiomap.
Proof.
  intros (Hn & He & Hf) Hr.
  unfold readTetgen, isfile, open_r, first_line_is_record in *.
  destruct (fsa (pathroot ++ lit ".node")) as [na|],
           (fsb (pathroot ++ lit ".node")) as [nb|];
    try contradiction; [|reflexivity].
  destruct (fsa (pathroot ++ lit ".ele")) as [ea|],
           (fsb (pathroot ++ lit ".ele")) as [eb|];
    try contradiction; [|reflexivity].
  cbn [opt_rel negb option_map of_option bind] in *.
  rewrite (read_node_file_relabelled _ _ Hn).
  2:{ destruct (snd (readline (file_lines na))) as [|l f];
        [contradiction|exact Hr]. }
  destruct (read_node_file (file_lines na)) as [[s nodes]|]; cbn [bind];
    [|reflexivity].
  rewrite (read_ele_file_relabelled _ _ s He).
  destruct (read_ele_file (file_lines ea) s) as [[[ntets tets] comps]|];
    cbn [bind]; [|reflexivity].
  destruct (fsa (pathroot ++ lit ".face")) as [fa|] eqn:Efa,
           (fsb (pathroot ++ lit ".face")) as [fb|] eqn:Efb;
    try contradiction; [|reflexivity].
  cbn [opt_rel negb] in *.
  destruct (0 <? len (pathroot ++ lit ".face")); [|reflexivity].
  rewrite Efa, Efb. cbn [option_map of_option bind].
  now rewrite (read_face_file_relabelled _ _ s Hf).
Qed.

End Relabelling.

(** C4, on the code. A file set and the same file set with every index
    raised by [k] import alike whenever the line under the header of
    the [.node] file is a record. The shift is taken on the first pass of
    the node loop only: in the file sets numbered from 1 and from 0 that
    have a comment line under each header, that pass meets the comment,
    the shift stays 0, and the two imports differ. *)
Theorem relabelling_invariance_needs_first_record :
  (forall (PF : PyFloat) k fsa fsb pathroot compmap patchmap patchiomap,
      tetgen_relabelled k fsa fsb pathroot ->
      first_line_is_record fsa pathroot ->
      @readTetgen PF fsb pathroot compmap patchmap patchiomap
      = @readTetgen PF fsa pathroot compmap patchmap patchiomap)
  /\ tetgen_relabelled 1 fs_zero_based fs_one_based (lit "m")
  /\ readTetgen fs_one_based (lit "m") None None None
     = Ok (Some ({| tg_nodes := [None; None; None; Some 0; Some 0; Some 0];
                    tg_tets := [None; None; None; None;
                                Some 1; Some 2; Some 1; Some 2];
                    tg_faces := [None; None; None; Some 1; Some 2; Some 1];
                    tg_comps := []; tg_patches := [] |}, None, None))
  /\ readTetgen fs_zero_based (lit "m") None None None
     = Ok (Some ({| tg_nodes := [Some 0; Some 0; Some 0; None; None; None];
                    tg_tets := [Some 0; Some 1; Some 0; Some 1;
                                None; None; None; None];
                    tg_faces := [Some 0; Some 1; Some 0; None; None; None];
                    tg_comps := []; tg_patches := [] |}, None, None)).
Proof.
  split; [|split; [|split]].
  - intros PF k. apply readTetgen_relabelled.
  - relabelled_files.
  - reflexivity.
  - reflexivity.
Qed.

(** C4, witness: the two file sets with the comment line at the end
    import alike. *)
Lemma relabelling_invariance_needs_first_record_witness :
  readTetgen fs_one_based_tail (lit "m") None None None
  = readTetgen fs_zero_based_tail (lit "m") None None None.
Proof.
  assert (H : tetgen_relabelled 1 fs_zero_based_tail fs_one_based_tail
                (lit "m")) by relabelled_files.
  assert (Hr : first_line_is_record fs_zero_based_tail (lit "m"))
    by (cbn; discriminate).
  exact (proj1 relabelling_invariance_needs_first_record IntegralFloat 1
           fs_zero_based_tail fs_one_based_tail (lit "m") None None None
           H Hr).
Defined.

(** C5, counterexample: for a ten-node element the attribute collected
    is the token after all ten node references (77), not the token that
    follows the first four (5). *)
Lemma ten_node_attribute_is_token_eleven :
  readTetgen fs_ten_node (lit "m") None None None
  = Ok (Some ({| tg_nodes := [Some 0; Some 0; Some 0; Some 1; Some 0; Some 0];
                 tg_tets := [Some 0; Some 1; Some 0; Some 1];
                 tg_faces := [Some 0; Some 1; Some 0];
                 tg_comps := []; tg_patches := [] |}, Some [77], None))
  /\ int_at (data_tokens (lit "1 1 2 1 2 5 6 7 8 9 10 77")) 5 = Ok 5.
Proof. split; reflexivity. Qed.

(** * Region attributes and boundary markers *)

Lemma record_tokens_nil n : record_tokens n [] = [].
Proof. unfold record_tokens. now rewrite firstn_nil. Qed.

Lemma record_tokens_blank n l f :
  (len (data_tokens l) =? 0) = true ->
  record_tokens (S n) (l :: f) = record_tokens n f.
Proof.
  intros H. unfold record_tokens. cbn [firstn map filter]. now rewrite H.
Qed.

Lemma record_tokens_record n l f :
  (len (data_tokens l) =? 0) = false ->
  record_tokens (S n) (l :: f) = data_tokens l :: record_tokens n f.
Proof.
  intros H. unfold record_tokens. cbn [firstn map filter]. now rewrite H.
Qed.

Lemma data_tokens_eof : data_tokens [] = [].
Proof. reflexivity. Qed.

(** Every record read in a loop that collects attributes adds exactly
    one value, the integer at [attridx]. *)
Lemma read_ele_records_attrs n :
  forall f idxshift attridx tets comps tets' comps',
  read_ele_records n f idxshift attridx 1 tets comps = Ok (tets', comps') ->
  exists new,
    comps' = comps ++ new
    /\ Forall2 (fun toks a => int_at toks attridx = Ok a)
         (record_tokens n f) new.
Proof.
  induction n as [|n IH]; intros f idxshift attridx tets comps tets' comps' H.
  - cbn [read_ele_records] in H. injection H as <- <-.
    exists []. split; [now rewrite app_nil_r|constructor].
  - destruct f as [|l f]; cbn [read_ele_records readline] in H.
    + rewrite data_tokens_eof in H. cbn [len length Z.of_nat Z.eqb] in H.
      apply IH in H. now rewrite record_tokens_nil in *.
    + destruct (len (data_tokens l) =? 0) eqn:Eb.
      * rewrite record_tokens_blank by assumption. now apply IH in H.
      * rewrite record_tokens_record by assumption.
        repeat bind_step H.
        match goal with
        | E : (if 1 =? 1 then _ else _) = Ok _ |- _ =>
          cbn [Z.eqb Pos.eqb] in E; repeat bind_step E; injection E as <-
        end.
        apply IH in H. destruct H as (new & -> & Hnew).
        eexists (_ :: new). split; [now rewrite <- app_assoc|].
        constructor; [|exact Hnew].
        unfold int_at.
        match goal with
        | E : py_index (data_tokens l) attridx = Ok _ |- _ => rewrite E
        end.
        cbn [bind]. assumption.
Qed.

Lemma read_face_records_attrs n :
  forall f idxshift faces patches faces' patches',
  read_face_records n f idxshift 1 faces patches = Ok (faces', patches') ->
  exists new,
    patches' = patches ++ new
    /\ Forall2 (fun toks a => int_at toks 4 = Ok a)
         (record_tokens n f) new.
Proof.
  induction n as [|n IH]; intros f idxshift faces patches faces' patches' H.
  - cbn [read_face_records] in H. injection H as <- <-.
    exists []. split; [now rewrite app_nil_r|constructor].
  - destruct f as [|l f]; cbn [read_face_records readline] in H.
    + rewrite data_tokens_eof in H. cbn [len length Z.of_nat Z.eqb] in H.
      apply IH in H. now rewrite record_tokens_nil in *.
    + destruct (len (data_tokens l) =? 0) eqn:Eb.
      * rewrite record_tokens_blank by assumption. now apply IH in H.
      * rewrite record_tokens_record by assumption.
        repeat bind_step H.
        match goal with
        | E : (if 1 =? 1 then _ else _) = Ok _ |- _ =>
          cbn [Z.eqb Pos.eqb] in E; repeat bind_step E; injection E as <-
        end.
        apply IH in H. destruct H as (new & -> & Hnew).
        eexists (_ :: new). split; [now rewrite <- app_assoc|].
        constructor; [|exact Hnew].
        unfold int_at.
        match goal with
        | E : py_index (data_tokens l) 4 = Ok _ |- _ => rewrite E
        end.
        cbn [bind]. assumption.
Qed.

(** What a header of three, respectively two, integers says about the
    tokens of the header line. *)
Lemma header_three f a b c :
  header_ints f = [Ok a; Ok b; Ok c] ->
  exists t0 t1 t2,
    split_ws (fst (readline f)) = [t0; t1; t2]
    /\ py_int t0 = Ok a /\ py_int t1 = Ok b /\ py_int t2 = Ok c.
Proof.
  unfold header_ints. intros H.
  destruct (split_ws (fst (readline f))) as [|t0 [|t1 [|t2 [|t3 r]]]];
    try discriminate.
  injection H as H0 H1 H2. now exists t0, t1, t2.
Qed.

Lemma header_two f a b :
  header_ints f = [Ok a; Ok b] ->
  exists t0 t1,
    split_ws (fst (readline f)) = [t0; t1]
    /\ py_int t0 = Ok a /\ py_int t1 = Ok b.
Proof.
  unfold header_ints. intros H.
  destruct (split_ws (fst (readline f))) as [|t0 [|t1 [|t2 r]]];
    try discriminate.
  injection H as H0 H1. now exists t0, t1.
Qed.

(** [read_ele_file] on a file whose header declares attributes. *)
Lemma read_ele_file_declared elefile idxshift n k :
  header_ints elefile = [Ok n; Ok k; Ok 1] ->
  read_ele_file elefile idxshift
  = (_ <- py_assert (0 <? n) ;;
     _ <- py_assert ((k =? 4) || (k =? 10)) ;;
     '(tets, comps) <-
       read_ele_records (Z.to_nat n) (snd (readline elefile)) idxshift
         (1 + k) 1 (np_empty Z n 4) [] ;;
     _ <- py_assert (len comps =? n) ;;
     Ok (n, tets, comps)).
Proof.
  intros H. destruct (header_three _ _ _ _ H) as (t0 & t1 & t2 & E & H0 & H1 & H2).
  unfold read_ele_file. destruct (readline elefile) as [line rest].
  cbn [fst snd] in *. rewrite E.
  change (len [t0; t1; t2] =? 3) with true. cbn [py_assert bind].
  rewrite (py_index_nth _ 0 t0), (py_index_nth _ 1 t1),
    (py_index_nth _ 2 t2) by (reflexivity || lia).
  cbn [bind]. rewrite H0. cbn [bind].
  destruct (py_assert (0 <? n)); [cbn [bind]|reflexivity].
  rewrite H1. cbn [bind].
  destruct (py_assert ((k =? 4) || (k =? 10))); [cbn [bind]|reflexivity].
  rewrite H2. cbn [bind]. reflexivity.
Qed.

Lemma read_face_file_declared facefile idxshift n :
  header_ints facefile = [Ok n; Ok 1] ->
  read_face_file facefile idxshift
  = (_ <- py_assert (0 <? n) ;;
     '(faces, patches) <-
       read_face_records (Z.to_nat n) (snd (readline facefile)) idxshift
         1 (np_empty Z n 3) [] ;;
     _ <- py_assert (len patches =? n) ;;
     Ok (n, faces, patches)).
Proof.
  intros H. destruct (header_two _ _ _ H) as (t0 & t1 & E & H0 & H1).
  unfold read_face_file. destruct (readline facefile) as [line rest].
  cbn [fst snd] in *. rewrite E.
  change (len [t0; t1] =? 2) with true. cbn [py_assert bind].
  rewrite (py_index_nth _ 0 t0), (py_index_nth _ 1 t1)
    by (reflexivity || lia).
  cbn [bind]. rewrite H0. cbn [bind].
  destruct (py_assert (0 <? n)); [cbn [bind]|reflexivity].
  rewrite H1. cbn [bind]. reflexivity.
Qed.

(** C5, as amended. In a file that declares region attributes, the
    attribute collected for every element record is the integer in the
    column after all of its node references, token [1 + nodespertet]:
    token 5 for four-node and token 11 for ten-node elements. *)
Theorem region_attribute_follows_node_references
    (elefile : file) (idxshift n nodespertet ntets : Z)
    (tets : list (list (cell Z))) (comps : list Z) :
  header_ints elefile = [Ok n; Ok nodespertet; Ok 1] ->
  read_ele_file elefile idxshift = Ok (ntets, tets, comps) ->
  Forall2 (fun toks a => int_at toks (1 + nodespertet) = Ok a)
    (record_tokens (Z.to_nat ntets) (snd (readline elefile))) comps.
Proof.
  intros Hh H. rewrite (read_ele_file_declared _ _ _ _ Hh) in H.
  repeat bind_step H. injection H as <- <- <-.
  match goal with
  | E : read_ele_records _ _ _ _ _ _ _ = Ok _ |- _ =>
    apply read_ele_records_attrs in E; destruct E as (new & -> & Hnew)
  end.
  exact Hnew.
Qed.

(** C5, witness: the ten-node element. *)
Lemma region_attribute_follows_node_references_witness :
  Forall2 (fun toks a => int_at toks (1 + 10) = Ok a)
    (record_tokens (Z.to_nat 1)
       (snd (readline (file_lines (lines_text ele_ten_node))))) [77].
Proof.
  exact (region_attribute_follows_node_references
           (file_lines (lines_text ele_ten_node)) 1 1 10 1
           [[Some 0; Some 1; Some 0; Some 1]] [77] eq_refl eq_refl).
Defined.

Lemma py_assert_ok c u : py_assert c = Ok u -> c = true.
Proof. destruct c; [reflexivity|discriminate]. Qed.

Lemma read_ele_file_count elefile idxshift n k ntets tets comps :
  header_ints elefile = [Ok n; Ok k; Ok 1] ->
  read_ele_file elefile idxshift = Ok (ntets, tets, comps) ->
  0 < n /\ len comps = n.
Proof.
  intros Hh H. rewrite (read_ele_file_declared _ _ _ _ Hh) in H.
  destruct (py_assert (0 <? n)) eqn:E0; [cbn [bind] in H|discriminate].
  apply py_assert_ok, Z.ltb_lt in E0.
  repeat bind_step H. injection H as <- <- <-.
  match goal with
  | E : py_assert (len _ =? n) = Ok _ |- _ =>
    apply py_assert_ok, Z.eqb_eq in E
  end.
  split; assumption.
Qed.

Lemma read_face_file_count facefile idxshift n nfaces faces patches :
  header_ints facefile = [Ok n; Ok 1] ->
  read_face_file facefile idxshift = Ok (nfaces, faces, patches) ->
  0 < n /\ len patches = n.
Proof.
  intros Hh H. rewrite (read_face_file_declared _ _ _ Hh) in H.
  destruct (py_assert (0 <? n)) eqn:E0; [cbn [bind] in H|discriminate].
  apply py_assert_ok, Z.ltb_lt in E0.
  repeat bind_step H. injection H as <- <- <-.
  match goal with
  | E : py_assert (len _ =? n) = Ok _ |- _ =>
    apply py_assert_ok, Z.eqb_eq in E
  end.
  split; assumption.
Qed.

Section Cardinality.

Context {PF : PyFloat}.

(** C7. In a file whose header declares attributes, the count of the
    values collected decides the outcome of the read: equal to the
    declared element count it returns them, any other count is an
    [AssertionError]; the same for the boundary markers of the [.face]
    file. And whenever [readTetgen] returns, a declared attribute column
    comes back as a list exactly as long as the declared count. *)
Theorem attribute_count_enforced :
  (forall elefile idxshift n k tets comps,
      header_ints elefile = [Ok n; Ok k; Ok 1] ->
      0 < n -> k = 4 \/ k = 10 ->
      read_ele_records (Z.to_nat n) (snd (readline elefile)) idxshift
        (1 + k) 1 (np_empty Z n 4) [] = Ok (tets, comps) ->
      read_ele_file elefile idxshift
      = if len comps =? n then Ok (n, tets, comps)
        else Raise AssertionError)
  /\ (forall facefile idxshift n faces patches,
         header_ints facefile = [Ok n; Ok 1] ->
         0 < n ->
         read_face_records (Z.to_nat n) (snd (readline facefile)) idxshift
           1 (np_empty Z n 3) [] = Ok (faces, patches) ->
         read_face_file facefile idxshift
         = if len patches =? n then Ok (n, faces, patches)
           else Raise AssertionError)
  /\ (forall fs pathroot compmap patchmap patchiomap mesh comps patches,
         readTetgen fs pathroot compmap patchmap patchiomap
         = Ok (Some (mesh, comps, patches)) ->
         (forall n k,
             tetgen_header fs (pathroot ++ lit ".ele")
             = [Ok n; Ok k; Ok 1] ->
             exists l, comps = Some l /\ len l = n)
         /\ (forall n,
                tetgen_header fs (pathroot ++ lit ".face")
                = [Ok n; Ok 1] ->
                exists l, patches = Some l /\ len l = n)).
Proof.
  split; [|split].
  - intros elefile idxshift n k tets comps Hh Hn Hk Hr.
    rewrite (read_ele_file_declared _ _ _ _ Hh), Hr.
    apply Z.ltb_lt in Hn. rewrite Hn.
    assert (Ek : (k =? 4) || (k =? 10) = true)
      by (destruct Hk; subst; reflexivity).
    rewrite Ek. cbn [py_assert bind].
    now destruct (len comps =? n).
  - intros facefile idxshift n faces patches Hh Hn Hr.
    rewrite (read_face_file_declared _ _ _ Hh), Hr.
    apply Z.ltb_lt in Hn. rewrite Hn. cbn [py_assert bind].
    now destruct (len patches =? n).
  - intros fs pathroot compmap patchmap patchiomap mesh comps patches H.
    unfold readTetgen, isfile, open_r, tetgen_header in *.
    destruct (fs (pathroot ++ lit ".node")) as [node|]; [|discriminate].
    destruct (fs (pathroot ++ lit ".ele")) as [ele|]; [|discriminate].
    cbn [negb option_map of_option bind] in H.
    destruct (read_node_file (file_lines node)) as [[idxshift nodes]|];
      [cbn [bind] in H|discriminate].
    destruct (read_ele_file (file_lines ele) idxshift)
      as [[[ntets tets] comps0]|] eqn:Ee; [cbn [bind] in H|discriminate].
    destruct (fs (pathroot ++ lit ".face")) as [face|] eqn:Eface.
    + cbn [negb] in H.
      replace (0 <? len (pathroot ++ lit ".face")) with true in H.
      2:{ symmetry. apply Z.ltb_lt. rewrite len_app.
          pose proof (len_nonneg pathroot).
          change (len (lit ".face")) with 5. lia. }
      rewrite Eface in H. cbn [option_map of_option bind] in H.
      destruct (read_face_file (file_lines face) idxshift)
        as [[[nfaces faces] patches0]|] eqn:Ef;
        cbn [bind] in H; [|discriminate].
      repeat bind_step H. injection H as _ <- <-.
      split.
      * intros n k Hh.
        destruct (read_ele_file_count _ _ _ _ _ _ _ Hh Ee) as [Hn Hl].
        exists comps0. split; [|exact Hl].
        replace (len comps0 =? 0) with false
          by (symmetry; apply Z.eqb_neq; lia).
        reflexivity.
      * intros n Hh.
        destruct (read_face_file_count _ _ _ _ _ _ Hh Ef) as [Hn Hl].
        exists patches0. split; [|exact Hl].
        replace (len patches0 =? 0) with false
          by (symmetry; apply Z.eqb_neq; lia).
        reflexivity.
    + cbn [negb len length Z.of_nat Z.ltb Z.compare bind] in H.
      discriminate.
Qed.

End Cardinality.

(** C7, witness: two elements declared with attributes and a blank line
    between their records; one value is collected and the read raises. *)
Lemma attribute_count_enforced_witness :
  read_ele_file (file_lines (lines_text ele_short_column)) 1
  = Raise AssertionError.
Proof.
  exact (proj1 (@attribute_count_enforced IntegralFloat)
           (file_lines (lines_text ele_short_column)) 1 2 4
           [[Some 0; Some 1; Some 0; Some 1];
            [None; None; None; None]] [7]
           eq_refl eq_refl (or_introl eq_refl) eq_refl).
Defined.

Section CubitImport.

Context {PF : PyFloat}.

Lemma cubit_nodes_eq cubfile line scale pnts :
  cubit_nodes cubfile line scale pnts
  = (t0 <- py_index line 0 ;;
     if str_eqb t0 (lit "*ELEMENT") then Ok (pnts, cubfile)
     else
       node <- cubit_node line scale ;;
       match cubfile with
       | [] => Raise IndexError
       | l :: cubfile' =>
         cubit_nodes cubfile' (cubit_tokens l) scale (pnts ++ node)
       end).
Proof. destruct cubfile; reflexivity. Qed.

Lemma cubit_node_reads l xyz scale :
  node_line_reads l xyz ->
  (exists t0, py_index (cubit_tokens l) 0 = Ok t0
              /\ str_eqb t0 (lit "*ELEMENT") = false)
  /\ cubit_node (cubit_tokens l) scale = Ok (scaled scale xyz).
Proof.
  intros (t0 & t1 & t2 & t3 & id & E & Hn & H0 & H1 & H2 & H3).
  rewrite E. split.
  - exists t0. split; [reflexivity|]. now apply str_eqb_neq.
  - unfold cubit_node. change (len [t0; t1; t2; t3] =? 4) with true.
    cbn [py_assert bind].
    rewrite (py_index_nth _ 0 t0), (py_index_nth _ 1 t1),
      (py_index_nth _ 2 t2), (py_index_nth _ 3 t3) by (reflexivity || lia).
    cbn [bind]. rewrite H0, H1, H2, H3. reflexivity.
Qed.

Lemma cubit_nodes_reads scale marker rest
    (nodes : list (str * (float * float * float))) :
  (exists more, cubit_tokens marker = lit "*ELEMENT" :: more) ->
  Forall (fun nl => node_line_reads (fst nl) (snd nl)) nodes ->
  forall pnts l f,
    l :: f = map fst nodes ++ marker :: rest ->
    cubit_nodes f (cubit_tokens l) scale pnts
    = Ok (pnts ++ flat_map (fun nl => scaled scale (snd nl)) nodes, rest).
Proof.
  intros [more Hm] Hn. induction Hn as [|[l0 xyz] nodes Hl Hn IH];
    intros pnts l f E.
  - cbn [map app] in E. injection E as -> ->.
    rewrite cubit_nodes_eq, Hm.
    rewrite (py_index_nth _ 0 (lit "*ELEMENT")) by (reflexivity || lia).
    cbn [bind]. rewrite str_eqb_refl. cbn [flat_map].
    now rewrite app_nil_r.
  - cbn [map app fst] in E. injection E as -> ->.
    cbn [fst snd] in Hl.
    destruct (cubit_node_reads l0 xyz scale Hl) as ((t0 & E0 & En) & Ec).
    rewrite cubit_nodes_eq, E0. cbn [bind]. rewrite En, Ec. cbn [bind].
    destruct (map fst nodes ++ marker :: rest) as [|l' f'] eqn:E'.
    + destruct nodes; discriminate.
    + rewrite (IH _ l' f' eq_refl). cbn [flat_map snd].
      now rewrite <- app_assoc.
Qed.

Lemma cubit_element_reads l refs :
  element_line_reads l refs -> cubit_element l = Ok (less_one refs).
Proof.
  intros (_ & t0 & t1 & t2 & t3 & t4 & id & E & H0 & H1 & H2 & H3 & H4).
  unfold cubit_element. rewrite E.
  change (len [t0; t1; t2; t3; t4] =? 5) with true. cbn [py_assert bind].
  rewrite (py_index_nth _ 0 t0), (py_index_nth _ 1 t1),
    (py_index_nth _ 2 t2), (py_index_nth _ 3 t3), (py_index_nth _ 4 t4)
    by (reflexivity || lia).
  cbn [bind]. rewrite H0, H1, H2, H3, H4. reflexivity.
Qed.

Lemma cubit_elements_reads (elements : list (str * (Z * Z * Z * Z))) :
  Forall (fun el => element_line_reads (fst el) (snd el)) elements ->
  forall tets,
    cubit_elements (map fst elements) tets
    = Ok (tets ++ flat_map (fun el => less_one (snd el)) elements).
Proof.
  induction 1 as [|[l refs] elements Hl He IH]; intros tets.
  - cbn [map cubit_elements flat_map]. now rewrite app_nil_r.
  - cbn [map fst]. cbn [fst snd] in Hl.
    pose proof (cubit_element_reads l refs Hl) as Ec.
    destruct Hl as [Hne _]. destruct l as [|c l]; [congruence|].
    cbn [cubit_elements]. rewrite Ec. cbn [bind]. rewrite IH.
    cbn [flat_map snd]. now rewrite <- app_assoc.
Qed.

Lemma len_flat_map_scaled scale
    (nodes : list (str * (float * float * float))) :
  len (flat_map (fun nl => scaled scale (snd nl)) nodes) = 3 * len nodes.
Proof.
  unfold len. induction nodes as [|nl nodes IH]; [reflexivity|].
  cbn [flat_map]. rewrite length_app. cbn [scaled length]. lia.
Qed.

Lemma len_flat_map_less_one (elements : list (str * (Z * Z * Z * Z))) :
  len (flat_map (fun el => less_one (snd el)) elements) = 4 * len elements.
Proof.
  unfold len. induction elements as [|el elements IH]; [reflexivity|].
  cbn [flat_map]. rewrite length_app. cbn [less_one length]. lia.
Qed.

(** C8. For a file made of the two section markers, node lines that read
    as coordinates, the element marker and element lines that read as
    node references, [readCubit] returns the mesh whose points are the
    coordinates times [scale], node line after node line, and whose
    tetrahedra are the references less one; the ids on the lines play
    no part. *)
Theorem readCubit_scales_and_decrements
    (fs : filesystem) (filename : str) (scale : float)
    (comment marker : str)
    (nodes : list (str * (float * float * float)))
    (elements : list (str * (Z * Z * Z * Z))) :
  open_r fs filename
  = Ok ((lit "*HEADING" ++ [NL]) :: comment :: (lit "*NODE" ++ [NL])
          :: map fst nodes ++ marker :: map fst elements) ->
  Forall (fun nl => node_line_reads (fst nl) (snd nl)) nodes ->
  (exists more, cubit_tokens marker = lit "*ELEMENT" :: more) ->
  Forall (fun el => element_line_reads (fst el) (snd el)) elements ->
  readCubit fs filename scale
  = Ok {| cb_pnts := flat_map (fun nl => scaled scale (snd nl)) nodes;
          cb_tets := flat_map (fun el => less_one (snd el)) elements |}.
Proof.
  intros Ho Hn Hm He. unfold readCubit. rewrite Ho.
  cbn [bind readline]. rewrite !str_eqb_refl. cbn [py_assert bind].
  destruct (map fst nodes ++ marker :: map fst elements) as [|l f] eqn:E.
  { destruct nodes; discriminate. }
  cbn [readline].
  rewrite (cubit_nodes_reads scale marker (map fst elements) nodes Hm Hn
             [] l f (eq_sym E)).
  cbn [bind app]. rewrite len_flat_map_scaled.
  replace (3 * len nodes mod 3 =? 0) with true
    by (symmetry; apply Z.eqb_eq; rewrite Z.mul_comm; apply Z_mod_mult).
  cbn [py_assert bind]. rewrite (cubit_elements_reads elements He []).
  cbn [bind app]. rewrite len_flat_map_less_one.
  replace (4 * len elements mod 4 =? 0) with true
    by (symmetry; apply Z.eqb_eq; rewrite Z.mul_comm; apply Z_mod_mult).
  cbn [py_assert bind]. unfold cb_nverts, cb_ntets. cbn [cb_pnts cb_tets].
  rewrite ?len_flat_map_scaled, ?len_flat_map_less_one, !Z.eqb_refl.
  reflexivity.
Qed.

End CubitImport.

(** C8, witness: coordinates (1, 2, 3) and (0, 0, 1) at scale 2, and an
    element that refers to nodes 5, 1, 2, 3. *)
Lemma readCubit_scales_and_decrements_witness :
  readCubit (fs_of [("mesh.inp"%string, cubit_lines)]) (lit "mesh.inp") 2
  = Ok {| cb_pnts := [2; 4; 6; 0; 0; 2]; cb_tets := [4; 0; 1; 2] |}.
Proof.
  refine (readCubit_scales_and_decrements
            (fs_of [("mesh.inp"%string, cubit_lines)]) (lit "mesh.inp") 2
            (lit "cubit(mesh.inp): 11/03/2008: 10:00:00" ++ [NL])
            (lit "*ELEMENT, TYPE=C3D4, ELSET=EB1" ++ [NL])
            [(lit "       7,    1.0,    2.0,    3.0" ++ [NL], (1, 2, 3));
             (lit "       8,    0.0,    0.0,    1.0" ++ [NL], (0, 0, 1))]
            [(lit "       1,       5,       1,       2,       3" ++ [NL],
              (5, 1, 2, 3))]
            eq_refl _ _ _).
  - constructor; [|constructor; [|constructor]].
    + exists (lit "7"), (lit "1.0"), (lit "2.0"), (lit "3.0"), 7.
      repeat split; try reflexivity. intros H; discriminate H.
    + exists (lit "8"), (lit "0.0"), (lit "0.0"), (lit "1.0"), 8.
      repeat split; try reflexivity. intros H; discriminate H.
  - exists [lit "TYPE=C3D4"; lit "ELSET=EB1"]. reflexivity.
  - constructor; [|constructor]. split; [intros H; discriminate H|].
    exists (lit "1"), (lit "5"), (lit "1"), (lit "2"), (lit "3"), 1.
    repeat split; reflexivity.
Defined.

(** * Further properties of the TetGen import *)

Section TetgenEdges.

Context {PF : PyFloat}.

(** X1. [readTetgen] comes back with the bare [None] exactly when the
    [.node] or the [.ele] file is missing: with both in place it returns
    a mesh or raises. *)
Theorem readTetgen_none_iff_missing fs pathroot compmap patchmap patchiomap :
  readTetgen fs pathroot compmap patchmap patchiomap = Ok None
  <-> isfile fs (pathroot ++ lit ".node") = false
      \/ isfile fs (pathroot ++ lit ".ele") = false.
Proof.
  unfold readTetgen. split.
  - intros H.
    destruct (isfile fs (pathroot ++ lit ".node")); [|now left].
    destruct (isfile fs (pathroot ++ lit ".ele")); [|now right].
    exfalso. cbn [negb] in H. repeat bind_step H. discriminate H.
  - intros [E|E].
    + now rewrite E.
    + rewrite E. now destruct (isfile fs (pathroot ++ lit ".node")).
Qed.

End TetgenEdges.

Lemma header_shape4 (toks : list str) :
  len toks = 4 -> exists t0 t1 t2 t3, toks = [t0; t1; t2; t3].
Proof.
  unfold len. destruct toks as [|t0 [|t1 [|t2 [|t3 [|t4 r]]]]];
    cbn [length]; try lia. intros _. now exists t0, t1, t2, t3.
Qed.

Lemma header_shape3 (toks : list str) :
  len toks = 3 -> exists t0 t1 t2, toks = [t0; t1; t2].
Proof.
  unfold len. destruct toks as [|t0 [|t1 [|t2 [|t3 r]]]];
    cbn [length]; try lia. intros _. now exists t0, t1, t2.
Qed.

Lemma header_shape2 (toks : list str) :
  len toks = 2 -> exists t0 t1, toks = [t0; t1].
Proof.
  unfold len. destruct toks as [|t0 [|t1 [|t2 r]]];
    cbn [length]; try lia. intros _. now exists t0, t1.
Qed.

Section Headers.

Context {PF : PyFloat}.

Lemma read_node_file_ok f r :
  read_node_file f = Ok r -> node_header_ok (header_ints f) = true.
Proof.
  unfold read_node_file, header_ints.
  destruct (readline f) as [line rest]. cbn [fst]. intros H.
  destruct (py_assert (len (split_ws line) =? 4)) eqn:E4;
    [cbn [bind] in H|discriminate H].
  apply py_assert_ok, Z.eqb_eq, header_shape4 in E4
    as (t0 & t1 & t2 & t3 & E).
  rewrite E in *. clear E.
  change (py_index [t0; t1; t2; t3] 0) with (Ok t0) in H.
  change (py_index [t0; t1; t2; t3] 1) with (Ok t1) in H.
  change (py_index [t0; t1; t2; t3] 2) with (Ok t2) in H.
  change (py_index [t0; t1; t2; t3] 3) with (Ok t3) in H.
  cbn [bind map] in *.
  destruct (py_int t0) as [n|]; [cbn [bind] in H|discriminate H].
  destruct (py_assert (0 <? n)) eqn:En; [cbn [bind] in H|discriminate H].
  destruct (py_int t1) as [d|]; [cbn [bind] in H|discriminate H].
  destruct (py_assert (d =? 3)) eqn:Ed; [cbn [bind] in H|discriminate H].
  destruct (py_int t2) as [nattribs|]; [cbn [bind] in H|discriminate H].
  destruct (py_int t3) as [bmarkers|]; [cbn [bind] in H|discriminate H].
  apply py_assert_ok in En, Ed. cbn [node_header_ok]. now rewrite En, Ed.
Qed.

Lemma read_ele_file_ok f s r :
  read_ele_file f s = Ok r -> ele_header_ok (header_ints f) = true.
Proof.
  unfold read_ele_file, header_ints.
  destruct (readline f) as [line rest]. cbn [fst]. intros H.
  destruct (py_assert (len (split_ws line) =? 3)) eqn:E3;
    [cbn [bind] in H|discriminate H].
  apply py_assert_ok, Z.eqb_eq, header_shape3 in E3 as (t0 & t1 & t2 & E).
  rewrite E in *. clear E.
  change (py_index [t0; t1; t2] 0) with (Ok t0) in H.
  change (py_index [t0; t1; t2] 1) with (Ok t1) in H.
  change (py_index [t0; t1; t2] 2) with (Ok t2) in H.
  cbn [bind map] in *.
  destruct (py_int t0) as [n|]; [cbn [bind] in H|discriminate H].
  destruct (py_assert (0 <? n)) eqn:En; [cbn [bind] in H|discriminate H].
  destruct (py_int t1) as [k|]; [cbn [bind] in H|discriminate H].
  destruct (py_assert ((k =? 4) || (k =? 10))) eqn:Ek;
    [cbn [bind] in H|discriminate H].
  destruct (py_int t2) as [flag|]; [cbn [bind] in H|discriminate H].
  destruct (py_assert ((flag =? 0) || (flag =? 1))) eqn:Ea;
    [cbn [bind] in H|discriminate H].
  apply py_assert_ok in En, Ek, Ea. cbn [ele_header_ok].
  now rewrite En, Ek, Ea.
Qed.

Lemma read_face_file_ok f s r :
  read_face_file f s = Ok r -> face_header_ok (header_ints f) = true.
Proof.
  unfold read_face_file, header_ints.
  destruct (readline f) as [line rest]. cbn [fst]. intros H.
  destruct (py_assert (len (split_ws line) =? 2)) eqn:E2;
    [cbn [bind] in H|discriminate H].
  apply py_assert_ok, Z.eqb_eq, header_shape2 in E2 as (t0 & t1 & E).
  rewrite E in *. clear E.
  change (py_index [t0; t1] 0) with (Ok t0) in H.
  change (py_index [t0; t1] 1) with (Ok t1) in H.
  cbn [bind map] in *.
  destruct (py_int t0) as [n|]; [cbn [bind] in H|discriminate H].
  destruct (py_assert (0 <? n)) eqn:En; [cbn [bind] in H|discriminate H].
  destruct (py_int t1) as [flag|]; [cbn [bind] in H|discriminate H].
  destruct (py_assert ((flag =? 0) || (flag =? 1))) eqn:Ea;
    [cbn [bind] in H|discriminate H].
  apply py_assert_ok in En, Ea. cbn [face_header_ok]. now rewrite En, Ea.
Qed.

(** What a call of [readTetgen] that returned a mesh went through: the
    three files read, in this order. *)
Lemma readTetgen_returned fs pathroot compmap patchmap patchiomap
    mesh comps patches :
  readTetgen fs pathroot compmap patchmap patchiomap
  = Ok (Some (mesh, comps, patches)) ->
  exists node ele face s nodes ntets tets comps0 nfaces faces patches0,
    fs (pathroot ++ lit ".node") = Some node
    /\ fs (pathroot ++ lit ".ele") = Some ele
    /\ fs (pathroot ++ lit ".face") = Some face
    /\ read_node_file (file_lines node) = Ok (s, nodes)
    /\ read_ele_file (file_lines ele) s = Ok (ntets, tets, comps0)
    /\ read_face_file (file_lines face) s = Ok (nfaces, faces, patches0)
    /\ tg_nodes mesh = np_flatten nodes
    /\ tg_tets mesh = np_flatten tets
    /\ tg_faces mesh = np_flatten faces
    /\ comps = (if len comps0 =? 0 then None else Some comps0)
    /\ patches = (if len patches0 =? 0 then None else Some patches0)
    /\ match compmap with
       | Some compmap =>
         if 0 <? len comps0
         then
           cs <- annotate_comps ntets comps0 compmap ;;
           ps <- match patchmap, patchiomap with
                 | Some patchmap, Some patchiomap =>
                   if 0 <? len patches0
                   then annotate_patches nfaces patches0 patchmap
                          patchiomap cs
                   else Ok []
                 | _, _ => Ok []
                 end ;;
           Ok (cs, ps)
         else Ok ([], [])
       | None => Ok ([], [])
       end = Ok (tg_comps mesh, tg_patches mesh).
Proof.
  intros H. unfold readTetgen, isfile, open_r in H.
  destruct (fs (pathroot ++ lit ".node")) as [node|] eqn:Enode;
    [|discriminate].
  destruct (fs (pathroot ++ lit ".ele")) as [ele|] eqn:Eele;
    [|discriminate].
  cbn [negb option_map of_option bind] in H.
  destruct (read_node_file (file_lines node)) as [[s nodes]|] eqn:Rn;
    [cbn [bind] in H|discriminate].
  destruct (read_ele_file (file_lines ele) s)
    as [[[ntets tets] comps0]|] eqn:Re; [cbn [bind] in H|discriminate].
  destruct (fs (pathroot ++ lit ".face")) as [face|] eqn:Eface.
  2:{ cbn [negb len length Z.of_nat Z.ltb Z.compare bind] in H.
      discriminate. }
  cbn [negb] in H.
  replace (0 <? len (pathroot ++ lit ".face")) with true in H.
  2:{ symmetry. apply Z.ltb_lt. rewrite len_app.
      pose proof (len_nonneg pathroot).
      change (len (lit ".face")) with 5. lia. }
  rewrite Eface in H. cbn [option_map of_option bind] in H.
  destruct (read_face_file (file_lines face) s)
    as [[[nfaces faces] patches0]|] eqn:Rf; cbn [bind] in H;
    [|discriminate].
  repeat bind_step H. injection H as <- <- <-.
  exists node, ele, face, s, nodes, ntets, tets, comps0, nfaces, faces,
    patches0.
  cbn [tg_nodes tg_tets tg_faces tg_comps tg_patches].
  repeat split; reflexivity || assumption.
Qed.

End Headers.

Lemma set_nth_length {A} (s : list A) : forall k v,
  length (set_nth s k v) = length s.
Proof.
  induction s as [|x s IH]; intros [|k] v; cbn [set_nth length];
    try reflexivity. now rewrite IH.
Qed.

Lemma py_setitem_length {A} (s s' : list A) i v :
  py_setitem s i v = Ok s' -> len s' = len s.
Proof.
  unfold py_setitem, len.
  destruct ((0 <=? (if i <? 0 then i + Z.of_nat (length s) else i))
            && ((if i <? 0 then i + Z.of_nat (length s) else i)
                <? Z.of_nat (length s))); [|discriminate].
  intros [= <-]. now rewrite set_nth_length.
Qed.

Lemma py_index_In {A} (s : list A) i x : py_index s i = Ok x -> In x s.
Proof.
  unfold py_index.
  destruct ((0 <=? (if i <? 0 then i + Z.of_nat (length s) else i))
            && ((if i <? 0 then i + Z.of_nat (length s) else i)
                <? Z.of_nat (length s))); [|discriminate].
  destruct (nth_error s _) as [y|] eqn:E; [|discriminate].
  intros [= <-]. eapply nth_error_In; eassumption.
Qed.

Lemma set_nth_Forall {A} (P : A -> Prop) (s : list A) : forall k v,
  Forall P s -> P v -> Forall P (set_nth s k v).
Proof.
  induction s as [|x s IH]; intros [|k] v Hs Hv; cbn [set_nth];
    try assumption; inversion Hs; subst; constructor; auto.
Qed.

Lemma py_setitem_Forall {A} (P : A -> Prop) (s s' : list A) i v :
  py_setitem s i v = Ok s' -> Forall P s -> P v -> Forall P s'.
Proof.
  unfold py_setitem.
  destruct ((0 <=? (if i <? 0 then i + Z.of_nat (length s) else i))
            && ((if i <? 0 then i + Z.of_nat (length s) else i)
                <? Z.of_nat (length s))); [|discriminate].
  intros [= <-]. apply set_nth_Forall.
Qed.

(** An assignment [a[i, j] = v] that goes through leaves the shape of the
    array as it was. *)
Lemma np_set2_shape {A} rows cols (a a' : list (list (cell A))) i j v :
  np_set2 a i j v = Ok a' -> has_shape rows cols a -> has_shape rows cols a'.
Proof.
  unfold np_set2, has_shape. intros H [Hr Hc].
  destruct (py_index a i) as [row|] eqn:Ei; [cbn [bind] in H|discriminate].
  destruct (py_setitem row j (Some v)) as [row'|] eqn:Ej;
    [cbn [bind] in H|discriminate].
  split.
  - now rewrite (py_setitem_length _ _ _ _ H).
  - eapply py_setitem_Forall; [exact H|exact Hc|].
    rewrite (py_setitem_length _ _ _ _ Ej).
    apply py_index_In in Ei. rewrite Forall_forall in Hc. now apply Hc.
Qed.

Lemma np_empty_shape A rows cols :
  0 <= rows -> 0 <= cols -> has_shape rows cols (np_empty A rows cols).
Proof.
  intros Hr Hc. unfold has_shape, np_empty, len. split.
  - rewrite repeat_length. lia.
  - apply Forall_forall. intros r Hin. apply repeat_spec in Hin. subst.
    rewrite repeat_length. lia.
Qed.

Lemma np_flatten_len {A} rows cols (a : list (list (cell A))) :
  has_shape rows cols a -> len (np_flatten a) = rows * cols.
Proof.
  unfold has_shape, np_flatten, len. intros [Hr Hc]. subst rows.
  induction Hc as [|r a Hrc Hc IH]; [reflexivity|].
  cbn [concat length]. rewrite length_app. lia.
Qed.

Lemma store_ref_shape rows cols tokens k s (a a' : list (list (cell Z)))
    row col :
  store_ref tokens k s a row col = Ok a' ->
  has_shape rows cols a -> has_shape rows cols a'.
Proof.
  unfold store_ref. intros H Ha. repeat bind_step H.
  eapply np_set2_shape; eassumption.
Qed.

Section Shapes.

Context {PF : PyFloat}.

Lemma read_node_records_shape rows cols n : forall nodeno f s nodes r,
  read_node_records n nodeno f s nodes = Ok r ->
  has_shape rows cols nodes -> has_shape rows cols (snd r).
Proof.
  induction n as [|n IH]; intros nodeno f s nodes r H Hs.
  - cbn [read_node_records] in H. injection H as <-. exact Hs.
  - cbn [read_node_records] in H. destruct (readline f) as [l f'].
    destruct (len (data_tokens l) =? 0); [now apply IH in H|].
    repeat bind_step H. apply IH in H; [exact H|].
    repeat match goal with
           | E : np_set2 _ _ _ _ = Ok _ |- _ =>
             apply (np_set2_shape rows cols) in E; [|assumption]
           end.
    assumption.
Qed.

End Shapes.

Lemma read_ele_records_shape rows cols n :
  forall f s attridx flag tets comps r,
  read_ele_records n f s attridx flag tets comps = Ok r ->
  has_shape rows cols tets -> has_shape rows cols (fst r).
Proof.
  induction n as [|n IH]; intros f s attridx flag tets comps r H Hs.
  - cbn [read_ele_records] in H. injection H as <-. exact Hs.
  - cbn [read_ele_records] in H. destruct (readline f) as [l f'].
    destruct (len (data_tokens l) =? 0); [now apply IH in H|].
    repeat bind_step H. apply IH in H; [exact H|].
    repeat match goal with
           | E : store_ref _ _ _ _ _ _ = Ok _ |- _ =>
             apply (store_ref_shape rows cols) in E; [|assumption]
           end.
    assumption.
Qed.

Lemma read_face_records_shape rows cols n :
  forall f s flag faces patches r,
  read_face_records n f s flag faces patches = Ok r ->
  has_shape rows cols faces -> has_shape rows cols (fst r).
Proof.
  induction n as [|n IH]; intros f s flag faces patches r H Hs.
  - cbn [read_face_records] in H. injection H as <-. exact Hs.
  - cbn [read_face_records] in H. destruct (readline f) as [l f'].
    destruct (len (data_tokens l) =? 0); [now apply IH in H|].
    repeat bind_step H. apply IH in H; [exact H|].
    repeat match goal with
           | E : store_ref _ _ _ _ _ _ = Ok _ |- _ =>
             apply (store_ref_shape rows cols) in E; [|assumption]
           end.
    assumption.
Qed.

Lemma read_ele_records_untagged n : forall f s attridx flag tets comps r,
  flag <> 1 ->
  read_ele_records n f s attridx flag tets comps = Ok r -> snd r = comps.
Proof.
  induction n as [|n IH]; intros f s attridx flag tets comps r Hf H.
  - cbn [read_ele_records] in H. now injection H as <-.
  - cbn [read_ele_records] in H. destruct (readline f) as [l f'].
    destruct (len (data_tokens l) =? 0); [now apply IH in H|].
    replace (flag =? 1) with false in H by (symmetry; apply Z.eqb_neq; lia).
    repeat bind_step H. now apply IH in H.
Qed.

Lemma read_face_records_untagged n : forall f s flag faces patches r,
  flag <> 1 ->
  read_face_records n f s flag faces patches = Ok r -> snd r = patches.
Proof.
  induction n as [|n IH]; intros f s flag faces patches r Hf H.
  - cbn [read_face_records] in H. now injection H as <-.
  - cbn [read_face_records] in H. destruct (readline f) as [l f'].
    destruct (len (data_tokens l) =? 0); [now apply IH in H|].
    replace (flag =? 1) with false in H by (symmetry; apply Z.eqb_neq; lia).
    repeat bind_step H. now apply IH in H.
Qed.

Section Files.

Context {PF : PyFloat}.

Lemma read_node_file_shape f s nodes :
  read_node_file f = Ok (s, nodes) ->
  has_shape (declared_count (header_ints f)) 3 nodes.
Proof.
  unfold read_node_file, header_ints.
  destruct (readline f) as [line rest]. cbn [fst]. intros H.
  destruct (py_assert (len (split_ws line) =? 4)) eqn:E4;
    [cbn [bind] in H|discriminate H].
  apply py_assert_ok, Z.eqb_eq, header_shape4 in E4
    as (t0 & t1 & t2 & t3 & E).
  rewrite E in *. clear E.
  change (py_index [t0; t1; t2; t3] 0) with (Ok t0) in H.
  change (py_index [t0; t1; t2; t3] 1) with (Ok t1) in H.
  change (py_index [t0; t1; t2; t3] 2) with (Ok t2) in H.
  change (py_index [t0; t1; t2; t3] 3) with (Ok t3) in H.
  cbn [bind map declared_count] in *.
  destruct (py_int t0) as [n|]; [cbn [bind] in H|discriminate H].
  destruct (py_assert (0 <? n)) eqn:En; [cbn [bind] in H|discriminate H].
  destruct (py_int t1) as [d|]; [cbn [bind] in H|discriminate H].
  destruct (py_assert (d =? 3)) eqn:Ed; [cbn [bind] in H|discriminate H].
  destruct (py_int t2) as [nattribs|]; [cbn [bind] in H|discriminate H].
  destruct (py_int t3) as [bmarkers|]; [cbn [bind] in H|discriminate H].
  apply py_assert_ok in En, Ed. apply Z.ltb_lt in En. apply Z.eqb_eq in Ed.
  subst d.
  apply (read_node_records_shape n 3) in H; [exact H|].
  apply np_empty_shape; lia.
Qed.

End Files.

Lemma read_ele_file_shape f s ntets tets comps :
  read_ele_file f s = Ok (ntets, tets, comps) ->
  ntets = declared_count (header_ints f)
  /\ has_shape ntets 4 tets
  /\ (nth_error (header_ints f) 2 <> Some (Ok 1) -> comps = []).
Proof.
  unfold read_ele_file, header_ints.
  destruct (readline f) as [line rest]. cbn [fst]. intros H.
  destruct (py_assert (len (split_ws line) =? 3)) eqn:E3;
    [cbn [bind] in H|discriminate H].
  apply py_assert_ok, Z.eqb_eq, header_shape3 in E3 as (t0 & t1 & t2 & E).
  rewrite E in *. clear E.
  change (py_index [t0; t1; t2] 0) with (Ok t0) in H.
  change (py_index [t0; t1; t2] 1) with (Ok t1) in H.
  change (py_index [t0; t1; t2] 2) with (Ok t2) in H.
  cbn [bind map declared_count nth_error] in *.
  destruct (py_int t0) as [n|]; [cbn [bind] in H|discriminate H].
  destruct (py_assert (0 <? n)) eqn:En; [cbn [bind] in H|discriminate H].
  destruct (py_int t1) as [k|]; [cbn [bind] in H|discriminate H].
  destruct (py_assert ((k =? 4) || (k =? 10))) eqn:Ek;
    [cbn [bind] in H|discriminate H].
  destruct (py_int t2) as [flag|]; [cbn [bind] in H|discriminate H].
  destruct (py_assert ((flag =? 0) || (flag =? 1))) eqn:Ea;
    [cbn [bind] in H|discriminate H].
  apply py_assert_ok, Z.ltb_lt in En.
  destruct (read_ele_records (Z.to_nat n) rest s (1 + k) flag
              (np_empty Z n 4) []) as [[tets' comps']|] eqn:R;
    [cbn [bind] in H|discriminate H].
  repeat bind_step H. injection H as <- <- <-.
  split; [reflexivity|]. split.
  - apply (read_ele_records_shape n 4) in R; [exact R|].
    apply np_empty_shape; lia.
  - intros Hf. apply read_ele_records_untagged in R; [exact R|].
    intros ->. now apply Hf.
Qed.

Lemma read_face_file_shape f s nfaces faces patches :
  read_face_file f s = Ok (nfaces, faces, patches) ->
  nfaces = declared_count (header_ints f)
  /\ has_shape nfaces 3 faces
  /\ (nth_error (header_ints f) 1 <> Some (Ok 1) -> patches = []).
Proof.
  unfold read_face_file, header_ints.
  destruct (readline f) as [line rest]. cbn [fst]. intros H.
  destruct (py_assert (len (split_ws line) =? 2)) eqn:E2;
    [cbn [bind] in H|discriminate H].
  apply py_assert_ok, Z.eqb_eq, header_shape2 in E2 as (t0 & t1 & E).
  rewrite E in *. clear E.
  change (py_index [t0; t1] 0) with (Ok t0) in H.
  change (py_index [t0; t1] 1) with (Ok t1) in H.
  cbn [bind map declared_count nth_error] in *.
  destruct (py_int t0) as [n|]; [cbn [bind] in H|discriminate H].
  destruct (py_assert (0 <? n)) eqn:En; [cbn [bind] in H|discriminate H].
  destruct (py_int t1) as [flag|]; [cbn [bind] in H|discriminate H].
  destruct (py_assert ((flag =? 0) || (flag =? 1))) eqn:Ea;
    [cbn [bind] in H|discriminate H].
  apply py_assert_ok, Z.ltb_lt in En.
  destruct (read_face_records (Z.to_nat n) rest s flag
              (np_empty Z n 3) []) as [[faces' patches']|] eqn:R;
    [cbn [bind] in H|discriminate H].
  repeat bind_step H. injection H as <- <- <-.
  split; [reflexivity|]. split.
  - apply (read_face_records_shape n 3) in R; [exact R|].
    apply np_empty_shape; lia.
  - intros Hf. apply read_face_records_untagged in R; [exact R|].
    intros ->. now apply Hf.
Qed.

Section TetgenResults.

Context {PF : PyFloat}.

(** X2. A malformed header in any of the files that are there keeps
    [readTetgen] from returning a mesh. *)
Theorem readTetgen_headers_checked fs pathroot compmap patchmap patchiomap :
  node_header_ok (tetgen_header fs (pathroot ++ lit ".node")) = false
  \/ ele_header_ok (tetgen_header fs (pathroot ++ lit ".ele")) = false
  \/ face_header_ok (tetgen_header fs (pathroot ++ lit ".face")) = false ->
  returns_mesh (readTetgen fs pathroot compmap patchmap patchiomap) = false.
Proof.
  intros Hbad.
  destruct (readTetgen fs pathroot compmap patchmap patchiomap)
    as [[[[mesh comps] patches]|]|] eqn:H; try reflexivity.
  exfalso.
  destruct (readTetgen_returned _ _ _ _ _ _ _ _ H)
    as (node & ele & face & s & nodes & ntets & tets & comps0 & nfaces
        & faces & patches0 & En & Ee & Ef & Rn & Re & Rf & _).
  unfold tetgen_header in Hbad. rewrite En, Ee, Ef in Hbad.
  apply read_node_file_ok in Rn. apply read_ele_file_ok in Re.
  apply read_face_file_ok in Rf.
  destruct Hbad as [Hb|[Hb|Hb]]; congruence.
Qed.

(** X3. The arrays of a mesh that [readTetgen] returns have the sizes the
    headers declare: three coordinates for every declared node, four
    references for every declared element, three for every declared
    face -- whatever the records are. *)
Theorem readTetgen_array_sizes fs pathroot compmap patchmap patchiomap
    mesh comps patches :
  readTetgen fs pathroot compmap patchmap patchiomap
  = Ok (Some (mesh, comps, patches)) ->
  len (tg_nodes mesh)
  = declared_count (tetgen_header fs (pathroot ++ lit ".node")) * 3
  /\ len (tg_tets mesh)
     = declared_count (tetgen_header fs (pathroot ++ lit ".ele")) * 4
  /\ len (tg_faces mesh)
     = declared_count (tetgen_header fs (pathroot ++ lit ".face")) * 3.
Proof.
  intros H.
  destruct (readTetgen_returned _ _ _ _ _ _ _ _ H)
    as (node & ele & face & s & nodes & ntets & tets & comps0 & nfaces
        & faces & patches0 & En & Ee & Ef & Rn & Re & Rf & -> & -> & ->
        & _).
  unfold tetgen_header. rewrite En, Ee, Ef.
  apply read_node_file_shape in Rn.
  apply read_ele_file_shape in Re as (-> & Re & _).
  apply read_face_file_shape in Rf as (-> & Rf & _).
  repeat split; now apply np_flatten_len.
Qed.

End TetgenResults.














Section Annotation.

Context {PF : PyFloat}.

(** X4. Tags and annotation go together: a file whose header declares no
    tag column gives no tag list, and without tags or without a map no
    compartment and no patch is created. *)
Theorem readTetgen_without_tags fs pathroot compmap patchmap patchiomap
    mesh comps patches :
  readTetgen fs pathroot compmap patchmap patchiomap
  = Ok (Some (mesh, comps, patches)) ->
  (nth_error (tetgen_header fs (pathroot ++ lit ".ele")) 2 <> Some (Ok 1) ->
   comps = None)
  /\ (nth_error (tetgen_header fs (pathroot ++ lit ".face")) 1
      <> Some (Ok 1) -> patches = None)
  /\ (comps = None \/ compmap = None ->
      tg_comps mesh = [] /\ tg_patches mesh = [])
  /\ (patches = None \/ patchmap = None \/ patchiomap = None ->
      tg_patches mesh = []).
Proof.
  intros H.
  destruct (readTetgen_returned _ _ _ _ _ _ _ _ H)
    as (node & ele & face & s & nodes & ntets & tets & comps0 & nfaces
        & faces & patches0 & En & Ee & Ef & Rn & Re & Rf & _ & _ & _
        & -> & -> & Ha).
  unfold tetgen_header. rewrite Ee, Ef.
  destruct (read_ele_file_shape _ _ _ _ _ Re) as (_ & _ & Hc).
  destruct (read_face_file_shape _ _ _ _ _ Rf) as (_ & _ & Hp).
  split; [|split; [|split]].
  - intros Hf. now rewrite (Hc Hf).
  - intros Hf. now rewrite (Hp Hf).
  - intros [Hn| ->].
    + destruct (len comps0 =? 0) eqn:E0; [|discriminate Hn].
      apply Z.eqb_eq in E0.
      replace (0 <? len comps0) with false in Ha
        by (symmetry; apply Z.ltb_ge; lia).
      destruct compmap; injection Ha as <- <-; now split.
    + injection Ha as <- <-. now split.
  - intros Hn.
    destruct compmap as [cm|]; [|now injection Ha as _ <-].
    destruct (0 <? len comps0); [|now injection Ha as _ <-].
    destruct (annotate_comps ntets comps0 cm) as [cs|];
      [cbn [bind] in Ha|discriminate Ha].
    destruct Hn as [Hn|[->| ->]].
    + destruct (len patches0 =? 0) eqn:E0; [|discriminate Hn].
      apply Z.eqb_eq in E0.
      replace (0 <? len patches0) with false in Ha
        by (symmetry; apply Z.ltb_ge; lia).
      destruct patchmap, patchiomap; cbn [bind] in Ha;
        now injection Ha as _ <-.
    + cbn [bind] in Ha. now injection Ha as _ <-.
    + destruct patchmap; cbn [bind] in Ha; now injection Ha as _ <-.
Qed.


End Annotation.

Lemma find_chr_lacks c (l : str) : lacks c l = true -> find_chr c l = -1.
Proof.
  induction l as [|a l IH]; [reflexivity|]. cbn [lacks forallb find_chr].
  intros H. apply andb_true_iff in H as [Ha Hl].
  rewrite Ascii.eqb_sym. apply negb_true_iff in Ha. rewrite Ha.
  unfold lacks in IH. now rewrite (IH Hl).
Qed.

Lemma find_chr_first c (l r : str) :
  lacks c l = true -> find_chr c (l ++ c :: r) = len l.
Proof.
  induction l as [|a l IH]; cbn [lacks forallb app find_chr].
  - intros _. now rewrite Ascii.eqb_refl.
  - intros H. apply andb_true_iff in H as [Ha Hl].
    rewrite Ascii.eqb_sym. apply negb_true_iff in Ha. rewrite Ha.
    unfold lacks in IH. rewrite (IH Hl).
    pose proof (len_nonneg l).
    replace (len l <? 0) with false by (symmetry; apply Z.ltb_ge; lia).
    unfold len. cbn [length]. lia.
Qed.

(** What follows the first [#] of a line is not read. *)
Lemma data_tokens_comment (l c : str) :
  lacks HASH l = true ->
  data_tokens (l ++ HASH :: c) = split_ws l /\ data_tokens l = split_ws l.
Proof.
  intros H. unfold data_tokens.
  rewrite (find_chr_first _ _ _ H), (find_chr_lacks _ _ H).
  pose proof (len_nonneg l).
  replace (len l =? -1) with false by (symmetry; apply Z.eqb_neq; lia).
  cbn [negb Z.eqb]. split; [|reflexivity].
  f_equal. unfold py_slice, slice_bound.
  replace (0 <? 0) with false by reflexivity.
  replace (len l <? 0) with false by (symmetry; apply Z.ltb_ge; lia).
  fold (len (l ++ HASH :: c)). rewrite len_app.
  pose proof (len_nonneg (HASH :: c)).
  rewrite Z.min_l, Z.max_r by lia.
  rewrite Z.min_l, Z.max_r by lia.
  cbn [Z.to_nat skipn]. rewrite Z.sub_0_r. unfold len.
  rewrite Nat2Z.id, firstn_app, Nat.sub_diag, firstn_all. cbn [firstn].
  now rewrite app_nil_r.
Qed.

Lemma readline_same_fields fa fb :
  Forall2 (fun la lb => data_tokens la = data_tokens lb) fa fb ->
  data_tokens (fst (readline fa)) = data_tokens (fst (readline fb))
  /\ Forall2 (fun la lb => data_tokens la = data_tokens lb)
       (snd (readline fa)) (snd (readline fb)).
Proof.
  intros [|la lb fa' fb' Hl Hf]; cbn [readline fst snd].
  - split; [reflexivity|constructor].
  - now split.
Qed.

Section SameFields.

Context {PF : PyFloat}.

Lemma read_node_records_fields n : forall nodeno fa fb s nodes,
  Forall2 (fun la lb => data_tokens la = data_tokens lb) fa fb ->
  read_node_records n nodeno fb s nodes
  = read_node_records n nodeno fa s nodes.
Proof.
  induction n as [|n IH]; intros nodeno fa fb s nodes Hf; [reflexivity|].
  cbn [read_node_records].
  destruct (readline_same_fields fa fb Hf) as [Hl Hf'].
  destruct (readline fa) as [la fa'], (readline fb) as [lb fb'].
  cbn [fst snd] in *. rewrite <- Hl.
  destruct (len (data_tokens la) =? 0); [now apply IH|].
  repeat match goal with
         | |- bind ?r _ = bind ?r _ =>
           destruct r; cbn [bind]; [|reflexivity]
         end.
  now apply IH.
Qed.

Lemma read_node_file_fields fa fb :
  same_fields fa fb -> read_node_file fb = read_node_file fa.
Proof.
  intros [Hh Hf]. unfold read_node_file.
  destruct (readline fa) as [la fa'], (readline fb) as [lb fb'].
  cbn [fst snd] in *. subst lb.
  repeat match goal with
         | |- bind ?r _ = bind ?r _ =>
           destruct r; cbn [bind]; [|reflexivity]
         end.
  now apply read_node_records_fields.
Qed.

End SameFields.

Lemma read_ele_records_fields n : forall fa fb s attridx flag tets comps,
  Forall2 (fun la lb => data_tokens la = data_tokens lb) fa fb ->
  read_ele_records n fb s attridx flag tets comps
  = read_ele_records n fa s attridx flag tets comps.
Proof.
  induction n as [|n IH]; intros fa fb s attridx flag tets comps Hf;
    [reflexivity|].
  cbn [read_ele_records].
  destruct (readline_same_fields fa fb Hf) as [Hl Hf'].
  destruct (readline fa) as [la fa'], (readline fb) as [lb fb'].
  cbn [fst snd] in *. rewrite <- Hl.
  destruct (len (data_tokens la) =? 0); [now apply IH|].
  repeat match goal with
         | |- bind ?r _ = bind ?r _ =>
           destruct r; cbn [bind]; [|reflexivity]
         end.
  now apply IH.
Qed.

Lemma read_face_records_fields n : forall fa fb s flag faces patches,
  Forall2 (fun la lb => data_tokens la = data_tokens lb) fa fb ->
  read_face_records n fb s flag faces patches
  = read_face_records n fa s flag faces patches.
Proof.
  induction n as [|n IH]; intros fa fb s flag faces patches Hf;
    [reflexivity|].
  cbn [read_face_records].
  destruct (readline_same_fields fa fb Hf) as [Hl Hf'].
  destruct (readline fa) as [la fa'], (readline fb) as [lb fb'].
  cbn [fst snd] in *. rewrite <- Hl.
  destruct (len (data_tokens la) =? 0); [now apply IH|].
  repeat match goal with
         | |- bind ?r _ = bind ?r _ =>
           destruct r; cbn [bind]; [|reflexivity]
         end.
  now apply IH.
Qed.

Lemma read_ele_file_fields fa fb s :
  same_fields fa fb -> read_ele_file fb s = read_ele_file fa s.
Proof.
  intros [Hh Hf]. unfold read_ele_file.
  destruct (readline fa) as [la fa'], (readline fb) as [lb fb'].
  cbn [fst snd] in *. subst lb.
  repeat match goal with
         | |- bind ?r _ = bind ?r _ =>
           destruct r; cbn [bind]; [|reflexivity]
         end.
  now rewrite (read_ele_records_fields _ fa' fb').
Qed.

Lemma read_face_file_fields fa fb s :
  same_fields fa fb -> read_face_file fb s = read_face_file fa s.
Proof.
  intros [Hh Hf]. unfold read_face_file.
  destruct (readline fa) as [la fa'], (readline fb) as [lb fb'].
  cbn [fst snd] in *. subst lb.
  repeat match goal with
         | |- bind ?r _ = bind ?r _ =>
           destruct r; cbn [bind]; [|reflexivity]
         end.
  now rewrite (read_face_records_fields _ fa' fb').
Qed.

Section Comments.

Context {PF : PyFloat}.

(** X6. Record lines are read field by field: what follows the first [#] of
    a line is dropped, and two file sets whose record lines hold the
    same fields import alike. *)
Theorem readTetgen_reads_fields_only :
  (forall l c, lacks HASH l = true ->
               data_tokens (l ++ HASH :: c) = data_tokens l)
  /\ (forall fsa fsb pathroot compmap patchmap patchiomap,
         tetgen_same_fields fsa fsb pathroot ->
         readTetgen fsb pathroot compmap patchmap patchiomap
         = readTetgen fsa pathroot compmap patchmap patchiomap).
Proof.
  split.
  - intros l c H. destruct (data_tokens_comment l c H) as [-> ->].
    reflexivity.
  - intros fsa fsb pathroot compmap patchmap patchiomap (Hn & He & Hf).
    unfold readTetgen, isfile, open_r.
    destruct (fsa (pathroot ++ lit ".node")) as [na|],
             (fsb (pathroot ++ lit ".node")) as [nb|];
      try contradiction; [|reflexivity].
    destruct (fsa (pathroot ++ lit ".ele")) as [ea|],
             (fsb (pathroot ++ lit ".ele")) as [eb|];
      try contradiction; [|reflexivity].
    cbn [opt_rel negb option_map of_option bind] in *.
    rewrite (read_node_file_fields _ _ Hn).
    destruct (read_node_file (file_lines na)) as [[s nodes]|]; cbn [bind];
      [|reflexivity].
    rewrite (read_ele_file_fields _ _ s He).
    destruct (read_ele_file (file_lines ea) s) as [[[ntets tets] comps]|];
      cbn [bind]; [|reflexivity].
    destruct (fsa (pathroot ++ lit ".face")) as [fa|] eqn:Efa,
             (fsb (pathroot ++ lit ".face")) as [fb|] eqn:Efb;
      try contradiction; [|reflexivity].
    cbn [opt_rel negb] in *.
    destruct (0 <? len (pathroot ++ lit ".face")); [|reflexivity].
    rewrite Efa, Efb. cbn [option_map of_option bind].
    now rewrite (read_face_file_fields _ _ s Hf).
Qed.

End Comments.

(** * Further properties of the CUBIT import *)

Section CubitEdges.

Context {PF : PyFloat}.

Lemma cubit_nodes_no_marker scale (f : file) : forall line pnts,
  py_index line 0 <> Ok (lit "*ELEMENT") ->
  Forall (fun l => py_index (cubit_tokens l) 0 <> Ok (lit "*ELEMENT")) f ->
  is_ok (cubit_nodes f line scale pnts) = false.
Proof.
  induction f as [|l f IH]; intros line pnts Hl Hf;
    rewrite cubit_nodes_eq;
    (destruct (py_index line 0) as [t0|]; [cbn [bind]|reflexivity]);
    (destruct (str_eqb t0 (lit "*ELEMENT")) eqn:E;
     [apply str_eqb_eq in E; congruence|]);
    (destruct (cubit_node line scale) as [node|]; [cbn [bind]|reflexivity]).
  - reflexivity.
  - inversion Hf; subst. now apply IH.
Qed.

(** X7. A file without a line that starts the element section is read to its
    end by the node loop, which then fails on the empty line: [readCubit]
    does not return. *)
Theorem readCubit_needs_element_marker fs filename scale (f : file) :
  open_r fs filename = Ok f ->
  Forall (fun l => py_index (cubit_tokens l) 0 <> Ok (lit "*ELEMENT"))
    (skipn 3 f) ->
  is_ok (readCubit fs filename scale) = false.
Proof.
  intros Ho Hf. unfold readCubit. rewrite Ho. cbn [bind].
  destruct f as [|l1 [|l2 [|l3 g]]]; cbn [readline skipn] in *;
    try (destruct (py_assert _); reflexivity).
  destruct (py_assert (str_eqb l1 _)); [cbn [bind]|reflexivity].
  destruct (py_assert (str_eqb l3 _)); [cbn [bind]|reflexivity].
  assert (H : is_ok (cubit_nodes (snd (readline g))
                       (cubit_tokens (fst (readline g))) scale []) = false).
  { apply cubit_nodes_no_marker.
    - destruct Hf as [|l g Hl Hg]; [discriminate|exact Hl].
    - destruct Hf as [|l g Hl Hg]; [constructor|exact Hg]. }
  destruct (readline g) as [l4 g']. cbn [fst snd] in H.
  destruct (cubit_nodes g' (cubit_tokens l4) scale []); [discriminate|].
  reflexivity.
Qed.

Lemma cubit_elements_bad (elements : list (str * (Z * Z * Z * Z)))
    (bad : str) (rest : file) :
  Forall (fun el => element_line_reads (fst el) (snd el)) elements ->
  bad <> [] -> len (cubit_tokens bad) <> 5 ->
  forall tets,
    cubit_elements (map fst elements ++ bad :: rest) tets
    = Raise AssertionError.
Proof.
  intros He Hb Hn. induction He as [|[l refs] elements Hl He IH];
    intros tets.
  - cbn [map app]. destruct bad as [|c bad]; [congruence|].
    cbn [cubit_elements]. unfold cubit_element.
    replace (len (cubit_tokens (c :: bad)) =? 5) with false
      by (symmetry; apply Z.eqb_neq; exact Hn).
    reflexivity.
  - cbn [map fst app]. cbn [fst snd] in Hl.
    pose proof (cubit_element_reads l refs Hl) as Ec.
    destruct Hl as [Hne _]. destruct l as [|c l]; [congruence|].
    cbn [cubit_elements]. rewrite Ec. cbn [bind]. apply IH.
Qed.

(** X8. In the element section every line must have five fields: a line
    that has not, a blank line at the end of the file included, stops the
    import with an [AssertionError]. *)
Theorem readCubit_rejects_malformed_element_line
    (fs : filesystem) (filename : str) (scale : float)
    (comment marker bad : str) (rest : file)
    (nodes : list (str * (float * float * float)))
    (elements : list (str * (Z * Z * Z * Z))) :
  open_r fs filename
  = Ok ((lit "*HEADING" ++ [NL]) :: comment :: (lit "*NODE" ++ [NL])
          :: map fst nodes ++ marker :: map fst elements ++ bad :: rest) ->
  Forall (fun nl => node_line_reads (fst nl) (snd nl)) nodes ->
  (exists more, cubit_tokens marker = lit "*ELEMENT" :: more) ->
  Forall (fun el => element_line_reads (fst el) (snd el)) elements ->
  bad <> [] -> len (cubit_tokens bad) <> 5 ->
  readCubit fs filename scale = Raise AssertionError.
Proof.
  intros Ho Hn Hm He Hb Hl. unfold readCubit. rewrite Ho.
  cbn [bind readline]. rewrite !str_eqb_refl. cbn [py_assert bind].
  destruct (map fst nodes ++ marker :: map fst elements ++ bad :: rest)
    as [|l f] eqn:E.
  { destruct nodes; discriminate. }
  cbn [readline].
  rewrite (cubit_nodes_reads scale marker (map fst elements ++ bad :: rest)
             nodes Hm Hn [] l f (eq_sym E)).
  cbn [bind app]. rewrite len_flat_map_scaled.
  replace (3 * len nodes mod 3 =? 0) with true
    by (symmetry; apply Z.eqb_eq; rewrite Z.mul_comm; apply Z_mod_mult).
  cbn [py_assert bind].
  now rewrite (cubit_elements_bad elements bad rest He Hb Hl []).
Qed.

End CubitEdges.

(** * Further properties of the writer *)

Lemma first_at_head id ids idtemp c :
  first_at (id :: ids) idtemp c
  <-> (c = 0%nat /\ idtemp = id)
      \/ (idtemp <> id /\ exists c', c = S c' /\ first_at ids idtemp c').
Proof.
  unfold first_at. destruct c as [|c]; cbn [nth_error firstn].
  - split.
    + intros [[= ->] _]. now left.
    + intros [[_ ->]|(_ & c' & Hc & _)]; [|discriminate].
      split; [reflexivity|intros []].
  - split.
    + intros [Hn Hi]. right. split.
      * intros ->. apply Hi. now left.
      * exists c. split; [reflexivity|]. split; [exact Hn|].
        intros H. apply Hi. now right.
    + intros [[Hc _]|(Hne & c' & [= <-] & Hn & Hi)]; [discriminate|].
      split; [exact Hn|]. intros [->|H]; [now apply Hne|now apply Hi].
Qed.

Lemma append_first_match_spec (ids : list str) :
  forall (groups : list (list Z)) idtemp x c y,
  length groups = length ids ->
  In y (nth c (append_first_match ids groups idtemp x) [])
  <-> In y (nth c groups []) \/ (y = x /\ first_at ids idtemp c).
Proof.
  induction ids as [|id ids IH]; intros [|g groups] idtemp x c y Hlen;
    try discriminate Hlen.
  - cbn [append_first_match]. split; [now left|].
    intros [H|[_ [Hn _]]]; [exact H|]. now destruct c.
  - injection Hlen as Hlen. cbn [append_first_match].
    rewrite first_at_head.
    destruct (str_eqb idtemp id) eqn:E.
    + apply str_eqb_eq in E. subst idtemp. destruct c as [|c]; cbn [nth].
      * rewrite in_app_iff. cbn [In]. split.
        -- intros [H|[<-|[]]]; [now left|right]. split; [reflexivity|].
           now left.
        -- intros [H|[-> _]]; [now left|right; now left].
      * split; [now left|].
        intros [H|[_ [[Hc _]|[Hne _]]]]; [exact H|discriminate|].
        now contradiction Hne.
    + apply str_eqb_neq in E. destruct c as [|c]; cbn [nth].
      * split; [now left|].
        intros [H|[_ [[_ He]|(_ & c' & Hc & _)]]];
          [exact H|contradiction|discriminate].
      * rewrite (IH groups idtemp x c y Hlen). split.
        -- intros [H|[-> Hf]]; [now left|right]. split; [reflexivity|].
           right. split; [exact E|]. now exists c.
        -- intros [H|[-> [[Hc _]|(_ & c' & [= <-] & Hf)]]];
             [now left|discriminate|right; now split].
Qed.

Lemma scan_members_spec (ids : list str) (owners : list (option str)) :
  forall x (groups : list (list Z)) c y,
  length groups = length ids ->
  In y (nth c (scan_members owners x ids groups) [])
  <-> In y (nth c groups [])
      \/ (x <= y
          /\ exists id, nth_error owners (Z.to_nat (y - x)) = Some (Some id)
                        /\ first_at ids id c).
Proof.
  induction owners as [|o owners IH]; intros x groups c y Hlen.
  - cbn [scan_members]. split; [now left|].
    intros [H|(_ & id & Hn & _)]; [exact H|].
    now destruct (Z.to_nat (y - x)).
  - assert (Hnth : forall id,
               nth_error (o :: owners) (Z.to_nat (y - x)) = Some (Some id)
               /\ x <= y
               <-> (y = x /\ o = Some id)
                   \/ (x + 1 <= y
                       /\ nth_error owners (Z.to_nat (y - (x + 1)))
                          = Some (Some id))).
    { intros id. destruct (Z.eq_dec y x) as [->|Hne].
      - rewrite Z.sub_diag. cbn [Z.to_nat nth_error]. split.
        + intros [[= ->] _]. now left.
        + intros [[_ ->]|[H _]]; [split; [reflexivity|lia]|lia].
      - split.
        + intros [Hn Hle]. right. split; [lia|].
          replace (Z.to_nat (y - x)) with (S (Z.to_nat (y - (x + 1))))
            in Hn by lia. exact Hn.
        + intros [[-> _]|[Hle Hn]]; [congruence|]. split; [|lia].
          replace (Z.to_nat (y - x)) with (S (Z.to_nat (y - (x + 1))))
            by lia. exact Hn. }
    destruct o as [idtemp|]; cbn [scan_members].
    + rewrite IH by now rewrite append_first_match_length.
      rewrite append_first_match_spec by exact Hlen. split.
      * intros [[H|[-> Hf]]|(Hle & id & Hn & Hf)].
        -- now left.
        -- right. split; [lia|]. exists idtemp. split; [|exact Hf].
           apply (Hnth idtemp). left. now split.
        -- right. split; [lia|]. exists id. split; [|exact Hf].
           apply (Hnth id). right. now split.
      * intros [H|(Hle & id & Hn & Hf)]; [left; now left|].
        destruct (proj1 (Hnth id) (conj Hn Hle)) as [[-> [= ->]]|[Hle' Hn']].
        -- left. right. now split.
        -- right. split; [exact Hle'|]. now exists id.
    + rewrite IH by exact Hlen. split.
      * intros [H|(Hle & id & Hn & Hf)]; [now left|].
        right. split; [lia|]. exists id. split; [|exact Hf].
        apply (Hnth id). right. now split.
      * intros [H|(Hle & id & Hn & Hf)]; [now left|].
        destruct (proj1 (Hnth id) (conj Hn Hle)) as [[_ [=]]|[Hle' Hn']].
        right. split; [exact Hle'|]. now exists id.
Qed.

Lemma nth_map_nil {A B} (l : list A) c :
  nth c (map (fun _ => @nil B) l) [] = [].
Proof.
  revert c. induction l as [|a l IH]; intros [|c]; cbn [map nth];
    try reflexivity. apply IH.
Qed.

(** The members that the writer derives for the group at position [c]:
    the elements owned by an id whose first occurrence among the ids is
    at [c]. *)
Lemma derived_members_spec owners ids c y :
  In y (nth c (derived_members owners ids) [])
  <-> exists id, owned_by owners y id /\ first_at ids id c.
Proof.
  unfold derived_members, owned_by.
  rewrite scan_members_spec by now rewrite length_map.
  rewrite nth_map_nil, Z.sub_0_r. split.
  - intros [[]|(Hle & id & Hn & Hf)]. now exists id.
  - intros (id & [Hle Hn] & Hf). right. split; [exact Hle|]. now exists id.
Qed.

Section Membership.

Context {PF : PyFloat}.

(** X9. The member lists that [saveXML] writes. Tetrahedron [x] is listed
    under the compartment at position [c] exactly when the id of its
    compartment first occurs among the compartment ids at [c]; likewise
    the triangles under the patches. So an element is listed at most
    once, and a compartment or patch whose id repeats an earlier one is
    written without members. *)
Theorem saveXML_member_lists (m : Tetmesh) :
  (forall c x,
      In x (nth c (comp_members m) [])
      <-> exists id, owned_by (map tet_comp (mesh_tets m)) x id
                     /\ first_at (map mc_id (mesh_comps m)) id c)
  /\ (forall p x,
         In x (nth p (patch_members m) [])
         <-> exists id, owned_by (map tri_patch (mesh_tris m)) x id
                        /\ first_at (map mp_id (mesh_patches m)) id p).
Proof.
  split; intros c x; apply derived_members_spec.
Qed.


End Membership.

(** * Further properties of the reader *)

Lemma np_zeros_ok {A} (zero : A) n a :
  np_zeros zero n = Ok a -> 0 <= n /\ len a = n.
Proof.
  unfold np_zeros. destruct (n <? 0) eqn:E; [discriminate|].
  apply Z.ltb_ge in E. intros [= <-]. split; [exact E|].
  unfold len. rewrite repeat_length. lia.
Qed.

Lemma set3_length {A} (a a' : list A) k x y z :
  set3 a k x y z = Ok a' -> len a' = len a.
Proof.
  unfold set3. intros H. repeat bind_step H.
  repeat match goal with
         | E : py_setitem _ _ _ = Ok _ |- _ =>
           apply py_setitem_length in E
         end.
  congruence.
Qed.

Lemma set4_length {A} (a a' : list A) k x y z w :
  set4 a k x y z w = Ok a' -> len a' = len a.
Proof.
  unfold set4. intros H. repeat bind_step H.
  repeat match goal with
         | E : py_setitem _ _ _ = Ok _ |- _ =>
           apply py_setitem_length in E
         end.
  congruence.
Qed.

Lemma readline_tail (t : file) : snd (readline t) = skipn 1 t.
Proof. now destruct t. Qed.

Lemma readline_head (t : file) : fst (readline t) = nth 0 t [].
Proof. now destruct t. Qed.

Lemma skipn_skipn_1 {A} n (t : list A) : skipn n (skipn 1 t) = skipn (S n) t.
Proof. destruct t; [now rewrite !skipn_nil|reflexivity]. Qed.

Lemma nth_after_skipn {A} k n (t : list A) d : nth k (skipn n t) d = nth (n + k) t d.
Proof.
  revert t. induction n as [|n IH]; intros t; [reflexivity|].
  destruct t as [|a t]; [now destruct k|]. cbn [skipn Nat.add nth]. apply IH.
Qed.

(** The size line of the companion file. *)
Lemma check_txt_size_ok (skip : bool) n (t t' : file) :
  check_txt_size true skip n t = Ok t' ->
  py_int (nth (if skip then 1 else 0)%nat t []) = Ok n
  /\ t' = skipn (if skip then 2 else 1)%nat t.
Proof.
  unfold check_txt_size. intros H.
  assert (G : forall u : file,
             (let '(l, textfile) := readline u in
              v <- py_int l ;; _ <- py_assert (n =? v) ;; Ok textfile)
             = Ok t' ->
             py_int (nth 0 u []) = Ok n /\ t' = skipn 1 u).
  { intros u Hu. rewrite <- readline_head, <- readline_tail.
    destruct (readline u) as [l u']. cbn [fst snd].
    destruct (py_int l) as [v|]; [cbn [bind] in Hu|discriminate].
    destruct (py_assert (n =? v)) eqn:E; [cbn [bind] in Hu|discriminate].
    apply py_assert_ok, Z.eqb_eq in E. subst v. injection Hu as <-.
    now split. }
  destruct skip.
  - apply G in H as [H1 H2]. rewrite readline_tail in H1, H2.
    rewrite nth_after_skipn in H1. rewrite skipn_skipn_1 in H2. now split.
  - now apply G.
Qed.

Section LoadShapes.

Context {PF : PyFloat}.

Lemma load_nodes_length n : forall i x nodes x' nodes',
  load_nodes n i x nodes = Ok (x', nodes') -> len nodes' = len nodes.
Proof.
  induction n as [|n IH]; intros i x nodes x' nodes' H.
  - cbn [load_nodes] in H. now injection H as _ <-.
  - cbn [load_nodes] in H. repeat bind_step H. apply IH in H.
    match goal with
    | E : set3 _ _ _ _ _ = Ok _ |- _ => apply set3_length in E
    end.
    congruence.
Qed.

Lemma load_tri_txt_ok i (t : file) a b c t' d' :
  load_tri_txt i t (Some (a, b, c)) = Ok (t', d') ->
  t' = skipn 1 t
  /\ exists a' b' c', d' = Some (a', b', c')
                      /\ len a' = len a /\ len b' = len b
                      /\ len c' = len c.
Proof.
  unfold load_tri_txt. rewrite <- readline_tail.
  destruct (readline t) as [l u]. cbn [snd]. intros H.
  repeat bind_step H. injection H as <- <-. split; [reflexivity|].
  match goal with
  | E : of_option _ (Some _) = Ok _ |- _ =>
    cbn [of_option] in E; inversion E; subst; clear E
  end.
  repeat match goal with
         | E : py_setitem _ _ _ = Ok _ |- _ => apply py_setitem_length in E
         | E : set3 _ _ _ _ _ = Ok _ |- _ => apply set3_length in E
         end.
  do 3 eexists. split; [reflexivity|]. repeat split; congruence.
Qed.

Lemma load_tris_with_txt n : forall i x t tris a b c x' t' tris' d',
  load_tris n i true x t tris (Some (a, b, c)) = Ok (x', t', tris', d') ->
  t' = skipn n t /\ len tris' = len tris
  /\ exists a' b' c', d' = Some (a', b', c')
                      /\ len a' = len a /\ len b' = len b
                      /\ len c' = len c.
Proof.
  induction n as [|n IH]; intros i x t tris a b c x' t' tris' d' H.
  - cbn [load_tris] in H. injection H as _ <- <- <-.
    split; [reflexivity|]. split; [reflexivity|]. now exists a, b, c.
  - cbn [load_tris] in H. repeat bind_step H.
    match goal with
    | E : load_tri_txt _ _ _ = Ok _ |- _ =>
      apply load_tri_txt_ok in E
        as (-> & ta & tb & tc & -> & Ha & Hb & Hc)
    end.
    apply IH in H as (-> & Hl & a' & b' & c' & -> & Ha' & Hb' & Hc').
    match goal with
    | E : set3 _ _ _ _ _ = Ok _ |- _ => apply set3_length in E
    end.
    split; [apply skipn_skipn_1|]. split; [congruence|].
    exists a', b', c'. repeat split; congruence.
Qed.

Lemma load_tet_txt_ok i (t : file) a b c d t' d' :
  load_tet_txt i t (Some (a, b, c, d)) = Ok (t', d') ->
  t' = skipn 1 t
  /\ exists a' b' c' e', d' = Some (a', b', c', e')
                         /\ len a' = len a /\ len b' = len b
                         /\ len c' = len c /\ len e' = len d.
Proof.
  unfold load_tet_txt. rewrite <- readline_tail.
  destruct (readline t) as [l u]. cbn [snd]. intros H.
  repeat bind_step H. injection H as <- <-. split; [reflexivity|].
  match goal with
  | E : of_option _ (Some _) = Ok _ |- _ =>
    cbn [of_option] in E; inversion E; subst; clear E
  end.
  repeat match goal with
         | E : py_setitem _ _ _ = Ok _ |- _ => apply py_setitem_length in E
         | E : set3 _ _ _ _ _ = Ok _ |- _ => apply set3_length in E
         | E : set4 _ _ _ _ _ _ = Ok _ |- _ => apply set4_length in E
         end.
  do 4 eexists. split; [reflexivity|]. repeat split; congruence.
Qed.

Lemma load_tets_with_txt n : forall i x t tets a b c d x' t' tets' d',
  load_tets n i true x t tets (Some (a, b, c, d)) = Ok (x', t', tets', d') ->
  t' = skipn n t /\ len tets' = len tets
  /\ exists a' b' c' e', d' = Some (a', b', c', e')
                         /\ len a' = len a /\ len b' = len b
                         /\ len c' = len c /\ len e' = len d.
Proof.
  induction n as [|n IH]; intros i x t tets a b c d x' t' tets' d' H.
  - cbn [load_tets] in H. injection H as _ <- <- <-.
    split; [reflexivity|]. split; [reflexivity|]. now exists a, b, c, d.
  - cbn [load_tets] in H. repeat bind_step H.
    match goal with
    | E : load_tet_txt _ _ _ = Ok _ |- _ =>
      apply load_tet_txt_ok in E
        as (-> & ta & tb & tc & te & -> & Ha & Hb & Hc & He)
    end.
    apply IH in H
      as (-> & Hl & a' & b' & c' & e' & -> & Ha' & Hb' & Hc' & He').
    match goal with
    | E : set4 _ _ _ _ _ _ = Ok _ |- _ => apply set4_length in E
    end.
    split; [apply skipn_skipn_1|]. split; [congruence|].
    exists a', b', c', e'. repeat split; congruence.
Qed.

End LoadShapes.

Section LoadResults.

Context {PF : PyFloat}.

(** What a call of [loadXML] that returned a mesh went through. *)
Lemma loadXML_returned fs pathname mesh comps patches :
  loadXML fs pathname = Ok (Some (mesh, comps, patches)) ->
  exists (t : file) nn nt nk,
    open_r fs (pathname ++ lit ".txt") = Ok t
    /\ py_int (nth 0 t []) = Ok nn
    /\ py_int (nth 2 t []) = Ok nt
    /\ py_int (nth (4 + Z.to_nat nt) t []) = Ok nk
    /\ len (nodes_out mesh) = nn * 3
    /\ len (tris_out mesh) = nt * 3
    /\ len (triareas_out mesh) = nt
    /\ len (trinorms_out mesh) = nt * 3
    /\ len (tritetns_out mesh) = nt * 2
    /\ len (tets_out mesh) = nk * 4
    /\ len (tetvols_out mesh) = nk
    /\ len (tetbarycs_out mesh) = nk * 3
    /\ len (tettrins_out mesh) = nk * 4
    /\ len (tettetns_out mesh) = nk * 4.
Proof.
  intros H. unfold loadXML in H.
  destruct (open_r fs (pathname ++ lit ".xml")) as [xml|];
    [cbn [bind] in H|discriminate H].
  destruct (open_r fs (pathname ++ lit ".txt")) as [t|] eqn:Et.
  - destruct (readline xml) as [info xmlfile].
    destruct (readline xmlfile) as [l xmlfile1].
    destruct (negb (str_eqb (rstrip l) (lit "<tetmesh>")));
      [discriminate|].
    repeat bind_step H. injection H as <- <- <-.
    repeat match goal with
           | E : bind _ _ = Ok _ |- _ => repeat bind_step E; injection E as <-
           end.
    repeat match goal with
           | E : of_option _ (Some _) = Ok _ |- _ =>
             cbn [of_option] in E; inversion E; subst; clear E
           end.
    repeat match goal with
           | E : check_txt_size true _ _ _ = Ok _ |- _ =>
             apply check_txt_size_ok in E as [? ->]
           | E : np_zeros _ _ = Ok _ |- _ => apply np_zeros_ok in E as [? ?]
           | E : load_nodes _ _ _ _ = Ok _ |- _ => apply load_nodes_length in E
           end.
    match goal with
    | E : load_tris _ _ true _ _ _ (Some _) = Ok _ |- _ =>
      apply load_tris_with_txt in E
        as (-> & ? & ta & tb & tc & -> & ? & ? & ?)
    end.
    repeat match goal with
           | E : of_option _ (Some _) = Ok _ |- _ =>
             cbn [of_option] in E; inversion E; subst; clear E
           | E : check_txt_size true _ _ _ = Ok _ |- _ =>
             apply check_txt_size_ok in E as [? ->]
           end.
    match goal with
    | E : load_tets _ _ true _ _ _ (Some _) = Ok _ |- _ =>
      apply load_tets_with_txt in E
        as (-> & ? & ua & ub & uc & ud & -> & ? & ? & ? & ?)
    end.
    repeat match goal with
           | E : of_option _ (Some _) = Ok _ |- _ =>
             cbn [of_option] in E; inversion E; subst; clear E
           end.
    match goal with
    | E1 : py_int (nth 0 t []) = Ok ?nn,
      E2 : py_int (nth 1 (skipn 1 t) []) = Ok ?nt,
      E3 : py_int (nth 1 (skipn (Z.to_nat ?nt) (skipn 2 (skipn 1 t))) [])
           = Ok ?nk |- _ =>
      exists t, nn, nt, nk
    end.
    cbn [nodes_out tris_out triareas_out trinorms_out tritetns_out tets_out
         tetvols_out tetbarycs_out tettrins_out tettetns_out].
    repeat match goal with
           | E : py_int (nth _ (skipn _ _) []) = Ok _ |- _ =>
             rewrite !nth_after_skipn in E
           end.
    repeat split; try assumption; try lia; try congruence.
    match goal with
    | E : py_int (nth ?k t []) = Ok ?x |- py_int (nth ?k' t []) = Ok ?x =>
      replace k' with k by lia; exact E
    end.
  - exfalso.
    destruct (readline xml) as [info xmlfile].
    destruct (readline xmlfile) as [l xmlfile1].
    destruct (negb (str_eqb (rstrip l) (lit "<tetmesh>")));
      [discriminate|].
    cbn [check_txt_size] in H.
    repeat
      (bind_step H;
       try match goal with
           | E : load_tris _ _ false _ _ _ None = Ok _ |- _ =>
             apply load_tris_without_txt in E; cbn [snd] in E; subst
           end;
       try (cbn [of_option bind] in H; discriminate H)).
Qed.

End LoadResults.

Section LoadEdges.

Context {PF : PyFloat}.

(** X11. [loadXML] comes back with the bare [None] exactly when the XML
    file can be opened and its second line is not [<tetmesh>]: any other
    call returns a mesh or raises. *)
Theorem loadXML_none_iff_not_a_mesh_file fs pathname :
  loadXML fs pathname = Ok None
  <-> exists xml,
        open_r fs (pathname ++ lit ".xml") = Ok xml
        /\ rstrip (nth 1 xml []) <> lit "<tetmesh>".
Proof.
  unfold loadXML. split.
  - intros H.
    destruct (open_r fs (pathname ++ lit ".xml")) as [xml|];
      [cbn [bind] in H|discriminate H].
    exists xml. split; [reflexivity|].
    replace (nth 1 xml []) with (fst (readline (snd (readline xml))))
      by (destruct xml as [|l0 [|l1 xml]]; reflexivity).
    destruct (match open_r fs (pathname ++ lit ".txt") with
              | Ok f => (true, f)
              | Raise _ => (false, [])
              end) as [havetxt textfile].
    destruct (readline xml) as [info xmlfile]. cbn [snd].
    destruct (readline xmlfile) as [l xmlfile1]. cbn [fst].
    destruct (str_eqb (rstrip l) (lit "<tetmesh>")) eqn:E;
      [|now apply str_eqb_neq].
    exfalso. cbn [negb] in H. repeat bind_step H. discriminate H.
  - intros (xml & -> & Hl). cbn [bind].
    replace (nth 1 xml []) with (fst (readline (snd (readline xml)))) in Hl
      by (destruct xml as [|l0 [|l1 xml]]; reflexivity).
    destruct (match open_r fs (pathname ++ lit ".txt") with
              | Ok f => (true, f)
              | Raise _ => (false, [])
              end) as [havetxt textfile].
    destruct (readline xml) as [info xmlfile]. cbn [snd] in Hl.
    destruct (readline xmlfile) as [l xmlfile1]. cbn [fst] in Hl.
    apply str_eqb_neq in Hl. now rewrite Hl.
Qed.

(** X12. The arrays that [loadXML] hands to the mesh constructor fit
    together: coordinates in threes; for every triangle three node
    references, an area, three normal components and two neighbours; for
    every tetrahedron four node references, a volume, three barycenter
    components and four neighbours of each kind. *)
Theorem loadXML_array_sizes fs pathname mesh comps patches :
  loadXML fs pathname = Ok (Some (mesh, comps, patches)) ->
  len (nodes_out mesh) mod 3 = 0
  /\ len (tris_out mesh) = len (triareas_out mesh) * 3
  /\ len (trinorms_out mesh) = len (triareas_out mesh) * 3
  /\ len (tritetns_out mesh) = len (triareas_out mesh) * 2
  /\ len (tets_out mesh) = len (tetvols_out mesh) * 4
  /\ len (tetbarycs_out mesh) = len (tetvols_out mesh) * 3
  /\ len (tettrins_out mesh) = len (tetvols_out mesh) * 4
  /\ len (tettetns_out mesh) = len (tetvols_out mesh) * 4.
Proof.
  intros H.
  destruct (loadXML_returned _ _ _ _ _ H)
    as (t & nn & nt & nk & _ & _ & _ & _ & Hn & H1 & H2 & H3 & H4 & H5
        & H6 & H7 & H8 & H9).
  rewrite Hn, H1, H2, H3, H4, H5, H6, H7, H8, H9.
  repeat split; try reflexivity. apply Z_mod_mult.
Qed.

(** X13. A load that returns has checked the companion file against the XML
    file: its three count lines give the number of nodes, of triangles
    and of tetrahedra of the arrays built. *)
Theorem loadXML_companion_counts fs pathname mesh comps patches :
  loadXML fs pathname = Ok (Some (mesh, comps, patches)) ->
  exists t,
    open_r fs (pathname ++ lit ".txt") = Ok t
    /\ py_int (nth 0 t []) = Ok (len (nodes_out mesh) / 3)
    /\ py_int (nth 2 t []) = Ok (len (triareas_out mesh))
    /\ py_int (nth (4 + Z.to_nat (len (triareas_out mesh))) t [])
       = Ok (len (tetvols_out mesh)).
Proof.
  intros H.
  destruct (loadXML_returned _ _ _ _ _ H)
    as (t & nn & nt & nk & Ht & E0 & E2 & E4 & Hn & _ & H2 & _ & _ & _
        & H6 & _).
  exists t. rewrite Hn, H2, H6, Z.div_mul by lia. now repeat split.
Qed.

End LoadEdges.

(** * The further properties at concrete inputs *)

(** X2, witness. *)
Lemma readTetgen_headers_checked_witness :
  returns_mesh (readTetgen fs_two_dims (lit "m") None None None) = false.
Proof.
  exact (readTetgen_headers_checked fs_two_dims (lit "m") None None None
           (or_introl eq_refl)).
Defined.

(** X3, witness. *)
Lemma readTetgen_array_sizes_witness :
  len (tg_nodes mesh_three_nodes) = 9
  /\ len (tg_tets mesh_three_nodes) = 4
  /\ len (tg_faces mesh_three_nodes) = 3.
Proof.
  exact (readTetgen_array_sizes fs_no_blank_line (lit "m") None None None
           mesh_three_nodes None None eq_refl).
Defined.

(** X4, witness. *)
Lemma readTetgen_without_tags_witness :
  tg_comps mesh_three_nodes = [] /\ tg_patches mesh_three_nodes = [].
Proof.
  exact (proj1 (proj2 (proj2
           (readTetgen_without_tags fs_no_blank_line (lit "m") None None
              None mesh_three_nodes None None eq_refl)))
           (or_introl eq_refl)).
Defined.


(** X6, witness. *)
Lemma readTetgen_reads_fields_only_witness :
  readTetgen fs_commented (lit "m") None None None
  = readTetgen fs_no_blank_line (lit "m") None None None.
Proof.
  assert (H : tetgen_same_fields fs_no_blank_line fs_commented (lit "m")).
  { unfold tetgen_same_fields, same_fields. cbn.
    repeat first [ split | constructor | reflexivity ]. }
  exact (proj2 readTetgen_reads_fields_only fs_no_blank_line fs_commented
           (lit "m") None None None H).
Defined.

(** X7, witness. *)
Lemma readCubit_needs_element_marker_witness :
  is_ok (readCubit (fs_of [("mesh.inp"%string, cubit_lines_nodes_only)])
           (lit "mesh.inp") 2) = false.
Proof.
  refine (readCubit_needs_element_marker
            (fs_of [("mesh.inp"%string, cubit_lines_nodes_only)])
            (lit "mesh.inp") 2
            (file_lines (lines_text cubit_lines_nodes_only)) eq_refl _).
  cbn. repeat constructor; intros H; discriminate H.
Defined.

(** X8, witness. *)
Lemma readCubit_rejects_malformed_element_line_witness :
  readCubit (fs_of [("mesh.inp"%string, cubit_lines_blank_end)])
    (lit "mesh.inp") 2
  = Raise AssertionError.
Proof.
  refine (readCubit_rejects_malformed_element_line
            (fs_of [("mesh.inp"%string, cubit_lines_blank_end)])
            (lit "mesh.inp") 2
            (lit "cubit(mesh.inp): 11/03/2008: 10:00:00" ++ [NL])
            (lit "*ELEMENT, TYPE=C3D4, ELSET=EB1" ++ [NL])
            [NL] []
            [(lit "       7,    1.0,    2.0,    3.0" ++ [NL], (1, 2, 3));
             (lit "       8,    0.0,    0.0,    1.0" ++ [NL], (0, 0, 1))]
            [(lit "       1,       5,       1,       2,       3" ++ [NL],
              (5, 1, 2, 3))]
            eq_refl _ _ _ _ _).
  - constructor; [|constructor; [|constructor]].
    + exists (lit "7"), (lit "1.0"), (lit "2.0"), (lit "3.0"), 7.
      repeat split; try reflexivity. intros H; discriminate H.
    + exists (lit "8"), (lit "0.0"), (lit "0.0"), (lit "1.0"), 8.
      repeat split; try reflexivity. intros H; discriminate H.
  - exists [lit "TYPE=C3D4"; lit "ELSET=EB1"]. reflexivity.
  - constructor; [|constructor]. split; [intros H; discriminate H|].
    exists (lit "1"), (lit "5"), (lit "1"), (lit "2"), (lit "3"), 1.
    repeat split; reflexivity.
  - intros H; discriminate H.
  - intros H; discriminate H.
Defined.

(** X12, witness. *)
Lemma loadXML_array_sizes_witness :
  len (nodes_out (expected_mesh mesh_one_tet)) mod 3 = 0
  /\ len (tris_out (expected_mesh mesh_one_tet))
     = len (triareas_out (expected_mesh mesh_one_tet)) * 3
  /\ len (trinorms_out (expected_mesh mesh_one_tet))
     = len (triareas_out (expected_mesh mesh_one_tet)) * 3
  /\ len (tritetns_out (expected_mesh mesh_one_tet))
     = len (triareas_out (expected_mesh mesh_one_tet)) * 2
  /\ len (tets_out (expected_mesh mesh_one_tet))
     = len (tetvols_out (expected_mesh mesh_one_tet)) * 4
  /\ len (tetbarycs_out (expected_mesh mesh_one_tet))
     = len (tetvols_out (expected_mesh mesh_one_tet)) * 3
  /\ len (tettrins_out (expected_mesh mesh_one_tet))
     = len (tetvols_out (expected_mesh mesh_one_tet)) * 4
  /\ len (tettetns_out (expected_mesh mesh_one_tet))
     = len (tetvols_out (expected_mesh mesh_one_tet)) * 4.
Proof.
  exact (loadXML_array_sizes (saveXML empty_fs (lit "m") mesh_one_tet)
           (lit "m") (expected_mesh mesh_one_tet)
           (expected_comps mesh_one_tet) (expected_patches mesh_one_tet)
           eq_refl).
Defined.

(** X13, witness. *)
Lemma loadXML_companion_counts_witness :
  exists t,
    open_r (saveXML empty_fs (lit "m") mesh_one_tet) (lit "m" ++ lit ".txt")
    = Ok t
    /\ py_int (nth 0 t []) = Ok 4
    /\ py_int (nth 2 t []) = Ok 2
    /\ py_int (nth 6 t []) = Ok 1.
Proof.
  exact (loadXML_companion_counts (saveXML empty_fs (lit "m") mesh_one_tet)
           (lit "m") (expected_mesh mesh_one_tet)
           (expected_comps mesh_one_tet) (expected_patches mesh_one_tet)
           eq_refl).
Defined.
